(** * Factur-X document engine: calculator, validator, generator, parser

    A shallow embedding of [src/facturx/generator.ts], [parser.ts],
    [validator.ts], [types.ts] and of the [facturx_generate] handler of
    [src/index.ts], with the extraction of [src/facturx/pdf.ts], the
    daily quota of [src/usage.ts] and the licence check of
    [src/license.ts].

    JavaScript numbers are IEEE 754 binary64 values and are modelled by
    Rocq's primitive [float]; the numeric built-ins the code calls
    ([Math.round], [toFixed], [String(n)], [parseFloat]) are defined
    below from their ECMAScript definitions, with exact integer
    arithmetic on the mantissa and exponent of the double.

    JavaScript strings are modelled by [string]; a Rocq string holds the
    UTF-8 bytes of the text. *)

From Stdlib Require Import ZArith NArith List String Ascii Bool Lia.
From Stdlib Require Import PrimFloat FloatOps SpecFloat FloatAxioms.
Import ListNotations.

Set Warnings "-inexact-float".


Open Scope string_scope.
Open Scope Z_scope.

(* ================================================================== *)
(** ** Strings *)
(* ================================================================== *)

Module JsString.

Definition chars (s : string) : list ascii := list_ascii_of_string s.
Definition of_chars (l : list ascii) : string := string_of_list_ascii l.

Definition code (c : ascii) : N := N_of_ascii c.

Definition bytes (l : list N) : list ascii := map ascii_of_N l.

Definition is_digit (c : ascii) : bool :=
  ((48 <=? code c) && (code c <=? 57))%N.

Definition is_upper (c : ascii) : bool :=
  ((65 <=? code c) && (code c <=? 90))%N.

Definition digit_val (c : ascii) : Z := Z.of_N (code c) - 48.

(** The code points of ECMAScript's WhiteSpace and LineTerminator
    productions (what [trim] strips and what [\s] matches), each as its
    UTF-8 byte sequence: TAB, LF, VT, FF, CR, SP, U+00A0, U+1680,
    U+2000..U+200A, U+2028, U+2029, U+202F, U+205F, U+3000, U+FEFF. *)
Definition white_space : list (list ascii) :=
  map bytes
    [ [9]; [10]; [11]; [12]; [13]; [32]; [194; 160]; [225; 154; 128];
      [226; 128; 128]; [226; 128; 129]; [226; 128; 130]; [226; 128; 131];
      [226; 128; 132]; [226; 128; 133]; [226; 128; 134]; [226; 128; 135];
      [226; 128; 136]; [226; 128; 137]; [226; 128; 138];
      [226; 128; 168]; [226; 128; 169]; [226; 128; 175];
      [226; 129; 159]; [227; 128; 128]; [239; 187; 191] ]%N.

Fixpoint strip_prefix (p s : list ascii) : option (list ascii) :=
  match p, s with
  | [], _ => Some s
  | a :: p', b :: s' => if Ascii.eqb a b then strip_prefix p' s' else None
  | _ :: _, [] => None
  end.

Fixpoint strip_any (ps : list (list ascii)) (s : list ascii)
  : option (list ascii) :=
  match ps with
  | [] => None
  | p :: ps' =>
      match strip_prefix p s with
      | Some r => Some r
      | None => strip_any ps' s
      end
  end.

(** One white-space code point at the head of [s], removed. *)
Definition strip_ws (s : list ascii) : option (list ascii) :=
  strip_any white_space s.

Fixpoint trim_start_aux (fuel : nat) (s : list ascii) : list ascii :=
  match fuel with
  | O => s
  | S f =>
      match strip_ws s with
      | Some r => trim_start_aux f r
      | None => s
      end
  end.

Definition trim_start (s : list ascii) : list ascii :=
  trim_start_aux (List.length s) s.

(** The same from the right end: the reversed text against the reversed
    byte sequences. *)
Fixpoint trim_end_aux (fuel : nat) (r : list ascii) : list ascii :=
  match fuel with
  | O => r
  | S f =>
      match strip_any (map (@rev ascii) white_space) r with
      | Some r' => trim_end_aux f r'
      | None => r
      end
  end.

Definition trim_end (s : list ascii) : list ascii :=
  rev (trim_end_aux (List.length s) (rev s)).

(** [String.prototype.trim] *)
Definition trim (s : string) : string :=
  of_chars (trim_end (trim_start (chars s))).

(** [s.replace(/\s/g, '')] *)
Fixpoint remove_ws_aux (fuel : nat) (s : list ascii) : list ascii :=
  match fuel with
  | O => s
  | S f =>
      match strip_ws s with
      | Some r => remove_ws_aux f r
      | None =>
          match s with
          | [] => []
          | c :: r => c :: remove_ws_aux f r
          end
      end
  end.

Definition remove_ws (s : string) : string :=
  of_chars (remove_ws_aux (List.length (chars s)) (chars s)).

(** [s.replace(/-/g, '')] *)
Definition remove_dashes (s : string) : string :=
  of_chars (filter (fun c => negb (Ascii.eqb c "-")) (chars s)).

(** [s.includes(needle)] *)
Fixpoint includes_aux (needle s : list ascii) : bool :=
  match strip_prefix needle s with
  | Some _ => true
  | None =>
      match s with
      | [] => false
      | _ :: r => includes_aux needle r
      end
  end.

Definition includes (s needle : string) : bool :=
  includes_aux (chars needle) (chars s).

(** Number of UTF-16 code units of the text ([s.length]): one per
    character of the basic plane, two per character beyond it. *)
Definition units (c : ascii) : nat :=
  let n := code c in
  if (n <? 128)%N then 1%nat          (* one-byte character *)
  else if (n <? 192)%N then 0%nat     (* continuation byte *)
  else if (n <? 240)%N then 1%nat     (* lead of a 2- or 3-byte character *)
  else 2%nat.                         (* lead of a 4-byte character *)

Definition utf16_length (s : string) : nat :=
  fold_right (fun c n => (units c + n)%nat) 0%nat (chars s).

(** [s.slice(a, b)] for [0 <= a <= b]: the characters whose first code
    unit lies in [[a, b)].  (A slice boundary inside a surrogate pair
    would produce a lone surrogate, which UTF-8 text cannot hold; the
    character is then kept whole when it starts inside the range.) *)
Fixpoint slice_aux (a b pos : nat) (keep : bool) (s : list ascii)
  : list ascii :=
  match s with
  | [] => []
  | c :: r =>
      let u := units c in
      let lead := negb ((128 <=? code c) && (code c <? 192))%N in
      let keep' :=
        if lead then (Nat.leb a pos && Nat.ltb pos b)%bool else keep in
      if keep' then c :: slice_aux a b (pos + u) keep' r
      else slice_aux a b (pos + u) keep' r
  end.

Definition slice (s : string) (a b : nat) : string :=
  of_chars (slice_aux a b 0 false (chars s)).

(** *** The four regular expressions of the validator *)

(** [/^\d{4}-\d{2}-\d{2}$/] *)
Definition DATE_RE (s : string) : bool :=
  match chars s with
  | [y1; y2; y3; y4; d1; m1; m2; d2; j1; j2] =>
      is_digit y1 && is_digit y2 && is_digit y3 && is_digit y4
      && Ascii.eqb d1 "-" && is_digit m1 && is_digit m2
      && Ascii.eqb d2 "-" && is_digit j1 && is_digit j2
  | _ => false
  end.

(** [/^[A-Z]{3}$/] *)
Definition CURRENCY_RE (s : string) : bool :=
  match chars s with
  | [a; b; c] => is_upper a && is_upper b && is_upper c
  | _ => false
  end.

(** [/^[A-Z]{2}$/] *)
Definition COUNTRY_RE (s : string) : bool :=
  match chars s with
  | [a; b] => is_upper a && is_upper b
  | _ => false
  end.

(** [/^[A-Z]{2}\d{2}[A-Z0-9]{4,30}$/] *)
Definition IBAN_RE (s : string) : bool :=
  match chars s with
  | a :: b :: c :: d :: r =>
      is_upper a && is_upper b && is_digit c && is_digit d
      && (Nat.leb 4 (List.length r) && Nat.leb (List.length r) 30)%bool
      && forallb (fun x => is_upper x || is_digit x) r
  | _ => false
  end.

End JsString.

(* ================================================================== *)
(** ** Numbers *)
(* ================================================================== *)

Module JsNumber.

Import JsString.

Definition number := float.

(** The double nearest to [num / den] (ties to even), [num >= 0],
    [den > 0]: the correctly rounded quotient of the two integers, as
    sign, mantissa and exponent and as a [float]. *)
Definition frac_sf (num den : Z) : spec_float :=
  match num, den with
  | Zpos p, Zpos q =>
      SFdiv prec emax (S754_finite false p 0) (S754_finite false q 0)
  | _, _ => S754_zero false
  end.

Definition of_frac (num den : Z) : float := SF2Prim (frac_sf num den).

Definition of_Z (n : Z) : float :=
  match n with
  | Z0 => zero
  | Zpos _ => of_frac n 1
  | Zneg p => (- of_frac (Zpos p) 1)%float
  end.

Definition of_nat (n : nat) : float := of_Z (Z.of_nat n).

(** [v * 10^p] as a fraction, for a fraction [vn / vd]. *)
Definition scale10 (vn vd p : Z) : Z * Z :=
  if 0 <=? p then (vn * 10 ^ p, vd) else (vn, vd * 10 ^ (- p)).

(** The double nearest to [c * 10^p]. *)
Definition decimal_sf (c p : Z) : spec_float :=
  let '(a, b) := scale10 c 1 p in frac_sf a b.

Definition of_decimal (c p : Z) : float := SF2Prim (decimal_sf c p).

(** The exact value of a finite double [m * 2^e], as a fraction. *)
Definition frac_of (m : positive) (e : Z) : Z * Z :=
  if 0 <=? e then (Zpos m * 2 ^ e, 1) else (Zpos m, 2 ^ (- e)).

(** [Math.round]: the nearest integer, the larger one on a tie; [-0]
    for an argument in [[-0.5, -0]]. *)
Definition Math_round (x : float) : float :=
  match Prim2SF x with
  | S754_finite s m e =>
      if 0 <=? e then x
      else
        let d := 2 ^ (- e) in
        let v := if s then Zneg m else Zpos m in
        let n := (2 * v + d) / (2 * d) in
        if n =? 0 then (if s then neg_zero else zero) else of_Z n
  | _ => x
  end.

Definition Math_abs (x : float) : float := abs x.

Definition isNaN (x : float) : bool := is_nan x.

(** The decimal digits of a natural number, most significant first;
    ["0"] for 0.  A number below [2^fuel] has at most [fuel] digits. *)
Definition digit_char (d : Z) : ascii := ascii_of_N (Z.to_N (48 + d)).

Fixpoint digits_aux (fuel : nat) (n : Z) (acc : list ascii) : list ascii :=
  match fuel with
  | O => acc
  | S f =>
      let acc' := digit_char (n mod 10) :: acc in
      if n <? 10 then acc' else digits_aux f (n / 10) acc'
  end.

Definition digit_list (n : Z) : list ascii :=
  digits_aux (S (Z.to_nat (Z.log2 n))) n [].

Definition digits (n : Z) : string := of_chars (digit_list n).

Definition zero_list (n : nat) : list ascii := repeat "0"%char n.

(** *** [Number::toString] (radix 10) *)

(** The decimal exponent [n] of a positive fraction [v]:
    [10^(n-1) <= v < 10^n].  The estimate from the binary logarithms is
    off by at most one; the two loops correct it. *)
Fixpoint exp10_up (fuel : nat) (vn vd n : Z) : Z :=
  match fuel with
  | O => n
  | S f =>
      let '(a, b) := scale10 vn vd (- n) in
      if b <=? a then exp10_up f vn vd (n + 1) else n
  end.

Fixpoint exp10_down (fuel : nat) (vn vd n : Z) : Z :=
  match fuel with
  | O => n
  | S f =>
      let '(a, b) := scale10 vn vd (- (n - 1)) in
      if a <? b then exp10_down f vn vd (n - 1) else n
  end.

Definition exp10 (vn vd : Z) : Z :=
  let est := ((Z.log2 vn - Z.log2 vd) * 30103) / 100000 in
  exp10_up 8 vn vd (exp10_down 8 vn vd est).

(** A decimal [s * 10^p] without its trailing zeros. *)
Fixpoint strip_zeros (fuel : nat) (s p : Z) : Z * Z :=
  match fuel with
  | O => (s, p)
  | S f => if s mod 10 =? 0 then strip_zeros f (s / 10) (p + 1) else (s, p)
  end.

(** Whether the decimal [s * 10^p], [s] positive and not a multiple of
    10, rounds to the double [m * 2^e]. *)
Definition rounds_to (s p : Z) (m : positive) (e : Z) : bool :=
  (0 <? s) && negb (s mod 10 =? 0)
  && match decimal_sf s p with
     | S754_finite false m' e' => Pos.eqb m m' && Z.eqb e e'
     | _ => false
     end.

(** The digits of the specification for the double [m * 2^e], of
    value [vn / vd] and decimal exponent [nv]: the decimal [s * 10^p]
    that rounds to the double with as few digits as possible, tried
    [k] digits at a time; of the two [k]-digit neighbours of the value
    the closer one, the even one on a tie.  Seventeen digits always
    identify a double, so the search ends within its [fuel] of 20. *)
Fixpoint shortest (fuel : nat) (k : Z) (m : positive) (e : Z)
  (vn vd nv : Z) : option (Z * Z) :=
  match fuel with
  | O => None
  | S f =>
      let p := nv - k in
      let '(a, b) := scale10 vn vd (- p) in
      let lo := a / b in
      let hi := lo + 1 in
      let '(slo, plo) := strip_zeros 22 lo p in
      let '(shi, phi) := strip_zeros 22 hi p in
      let ok_lo := rounds_to slo plo m e in
      let ok_hi := rounds_to shi phi m e in
      let dlo := a - lo * b in
      let dhi := hi * b - a in
      let take_lo :=
        if ok_lo && ok_hi
        then (dlo <? dhi) || ((dlo =? dhi) && Z.even lo)
        else ok_lo in
      if ok_lo || ok_hi then
        if take_lo then Some (slo, plo) else Some (shi, phi)
      else shortest f (k + 1) m e vn vd nv
  end.

Definition exponent_part (n : Z) : list ascii :=
  (if 0 <=? n - 1 then "+"%char else "-"%char)
    :: digit_list (Z.abs (n - 1)).

(** The text for the decimal [s * 10^p]: with [k] the number of digits
    of [s] and [n = p + k], the four layouts of the specification. *)
Definition render (s p : Z) : list ascii :=
  let ds := digit_list s in
  let k := Z.of_nat (List.length ds) in
  let n := p + k in
  if (k <=? n) && (n <=? 21) then
    ds ++ zero_list (Z.to_nat (n - k))
  else if (0 <? n) && (n <=? 21) then
    firstn (Z.to_nat n) ds ++ "."%char :: skipn (Z.to_nat n) ds
  else if (-6 <? n) && (n <=? 0) then
    "0"%char :: "."%char :: zero_list (Z.to_nat (- n)) ++ ds
  else
    match ds with
    | [] => []
    | [d] => d :: "e"%char :: exponent_part n
    | d :: rest => d :: "."%char :: rest ++ "e"%char :: exponent_part n
    end.

Definition Number_toString (x : float) : string :=
  match Prim2SF x with
  | S754_nan => "NaN"
  | S754_zero _ => "0"
  | S754_infinity s => if s then "-Infinity" else "Infinity"
  | S754_finite sg m e =>
      let '(vn, vd) := frac_of m e in
      match shortest 20 1 m e vn vd (exp10 vn vd) with
      | Some (s, p) =>
          of_chars (if sg then "-"%char :: render s p else render s p)
      | None => "NaN"
      end
  end.

(** *** [Number.prototype.toFixed(2)] *)
Definition toFixed2 (x : float) : string :=
  match Prim2SF x with
  | S754_nan => "NaN"
  | S754_zero _ => "0.00"
  | S754_infinity s => if s then "-Infinity" else "Infinity"
  | S754_finite sg m e =>
      let sign := if sg then "-" else "" in
      let '(vn, vd) := frac_of m e in
      if 10 ^ 21 * vd <=? vn then sign ++ Number_toString (abs x)
      else
        let n := (200 * vn + vd) / (2 * vd) in
        let ds := digit_list n in
        let padded := (zero_list (3 - List.length ds) ++ ds)%list in
        let len := List.length padded in
        sign
          ++ of_chars (firstn (len - 2) padded
                         ++ "."%char :: skipn (len - 2) padded)%list
  end.

(** *** [parseFloat] and [ToNumber] on text *)

Fixpoint take_digits (s : list ascii) (acc : Z) (count : Z)
  : Z * Z * list ascii :=
  match s with
  | c :: r =>
      if is_digit c then take_digits r (10 * acc + digit_val c) (count + 1)
      else (acc, count, s)
  | [] => (acc, count, s)
  end.

(** The value of the mantissa [m] scaled by [10^p]; the exponent is
    bounded first: beyond these bounds the result is infinite or zero
    whatever the mantissa (it has [nd] digits). *)
Definition decimal_value (m nd p : Z) : float :=
  if m =? 0 then zero
  else if 400 <? p then infinity
  else if p + nd <? -400 then zero
  else of_decimal m p.

(** An exponent part [e], [e+] or [e-] followed by digits, when one is
    there; [None] when the text does not continue with one. *)
Definition take_exponent (s : list ascii) : option (Z * list ascii) :=
  match s with
  | c :: r =>
      if Ascii.eqb c "e" || Ascii.eqb c "E" then
        let '(neg, r1) :=
          match r with
          | d :: r' =>
              if Ascii.eqb d "-" then (true, r')
              else if Ascii.eqb d "+" then (false, r')
              else (false, r)
          | [] => (false, r)
          end in
        let '(v, n, r2) := take_digits r1 0 0 in
        if n =? 0 then None else Some (if neg then - v else v, r2)
      else None
  | [] => None
  end.

Definition Infinity_chars : list ascii := chars "Infinity".

(** The longest prefix of [s] that is an unsigned decimal literal
    ([Infinity], [d.d], [d.], [.d], each with an optional exponent):
    its value and the rest of the text. *)
Definition take_unsigned_decimal (s : list ascii)
  : option (float * list ascii) :=
  match strip_prefix Infinity_chars s with
  | Some r => Some (infinity, r)
  | None =>
      let '(ip, ni, r1) := take_digits s 0 0 in
      let '(m, nf, r2) :=
        match r1 with
        | c :: r' =>
            if Ascii.eqb c "." then
              let '(m', nf', r'') := take_digits r' ip 0 in
              if (ni =? 0) && (nf' =? 0) then (ip, 0, r1) else (m', nf', r'')
            else (ip, 0, r1)
        | [] => (ip, 0, r1)
        end in
      if (ni =? 0) && (nf =? 0) then None
      else
        match take_exponent r2 with
        | Some (ex, r3) => Some (decimal_value m (ni + nf) (ex - nf), r3)
        | None => Some (decimal_value m (ni + nf) (- nf), r2)
        end
  end.

Definition take_decimal (s : list ascii) : option (float * list ascii) :=
  match s with
  | c :: r =>
      if Ascii.eqb c "-" then
        match take_unsigned_decimal r with
        | Some (v, r') => Some ((- v)%float, r')
        | None => None
        end
      else if Ascii.eqb c "+" then take_unsigned_decimal r
      else take_unsigned_decimal s
  | [] => None
  end.

(** [parseFloat(s)]: leading white space skipped, then the longest
    decimal literal; [NaN] when there is none. *)
Definition parseFloat (s : string) : float :=
  match take_decimal (trim_start (chars s)) with
  | Some (v, _) => v
  | None => nan
  end.

Definition radix_digit (radix : Z) (c : ascii) : option Z :=
  let n := Z.of_N (code c) in
  let v :=
    if is_digit c then n - 48
    else if (97 <=? n) && (n <=? 102) then n - 87
    else if (65 <=? n) && (n <=? 70) then n - 55
    else 99 in
  if v <? radix then Some v else None.

Fixpoint radix_value (radix : Z) (s : list ascii) (acc : Z) : option Z :=
  match s with
  | [] => Some acc
  | c :: r =>
      match radix_digit radix c with
      | Some v => radix_value radix r (radix * acc + v)
      | None => None
      end
  end.

(** [ToNumber] applied to a string (StringToNumber): the whole text,
    white space trimmed, must be a numeric literal; empty text is 0. *)
Definition StringToNumber (s : string) : float :=
  let t := chars (trim s) in
  match t with
  | [] => zero
  | a :: b :: (_ :: _) as r =>
      let radix :=
        if Ascii.eqb a "0" then
          if Ascii.eqb b "x" || Ascii.eqb b "X" then 16
          else if Ascii.eqb b "o" || Ascii.eqb b "O" then 8
          else if Ascii.eqb b "b" || Ascii.eqb b "B" then 2
          else 0
        else 0 in
      if radix =? 0 then
        match take_decimal t with
        | Some (v, []) => v
        | _ => nan
        end
      else
        match radix_value radix r 0 with
        | Some v => of_Z v
        | None => nan
        end
  | _ =>
      match take_decimal t with
      | Some (v, []) => v
      | _ => nan
      end
  end.

(** [x === y] on numbers, and the SameValueZero comparison of [Set] and
    [Map] keys. *)
Definition same_value_zero (x y : float) : bool :=
  (x =? y)%float || (is_nan x && is_nan y).

End JsNumber.

(* ================================================================== *)
(** ** Untyped values, exceptions, coercions *)
(* ================================================================== *)

Module Js.

Import JsString JsNumber.

(** What a [throw] carries: a [TypeError] raised by the runtime, or an
    [Error] built by the code with its message. *)
Inductive exn : Type :=
| TypeError
| Error (message : string).

Inductive result (A : Type) : Type :=
| Ok (a : A)
| Throw (e : exn).

Arguments Ok {A} a.
Arguments Throw {A} e.

Definition bind {A B : Type} (m : result A) (k : A -> result B) : result B :=
  match m with
  | Ok a => k a
  | Throw e => Throw e
  end.

#[local] Set Warnings "-register-all".

(** The values a request's arguments or a parsed document are made of:
    what [JSON.parse] and the XML parser build.  An object is the list
    of its own properties, each name once. *)
Inductive value : Type :=
| JUndefined
| JNull
| JBool (b : bool)
| JNumber (n : float)
| JString (s : string)
| JArray (items : list value)
| JObject (props : list (string * value)).

Fixpoint lookup (k : string) (ps : list (string * value)) : option value :=
  match ps with
  | [] => None
  | (k', v) :: r => if String.eqb k k' then Some v else lookup k r
  end.

Definition has_own (k : string) (ps : list (string * value)) : bool :=
  match lookup k ps with
  | Some _ => true
  | None => false
  end.

Definition nullish (v : value) : bool :=
  match v with
  | JUndefined | JNull => true
  | _ => false
  end.

(** ToBoolean *)
Definition truthy (v : value) : bool :=
  match v with
  | JUndefined | JNull => false
  | JBool b => b
  | JNumber n => negb ((n =? 0)%float || is_nan n)
  | JString s => negb (String.eqb s "")
  | JArray _ | JObject _ => true
  end.

(** The characters of a text, one string each (a character beyond the
    basic plane counts for its two code units). *)
Fixpoint units_of (cs : list ascii) (cur : list ascii) : list string :=
  match cs with
  | [] =>
      match cur with
      | [] => []
      | c :: _ => repeat (of_chars (rev cur)) (units (last cur c))
      end
  | c :: r =>
      if ((128 <=? code c) && (code c <? 192))%N then units_of r (c :: cur)
      else
        match cur with
        | [] => units_of r [c]
        | d :: _ =>
            repeat (of_chars (rev cur)) (units (last cur d))
              ++ units_of r [c]
        end
  end.

(** [v[k]] for a property name [k] that is not an array index and a [v]
    that is neither [undefined] nor [null].  None of the prototypes has
    a property of the names the code reads, so a name that is not an
    own property yields [undefined]. *)
Definition prop (v : value) (k : string) : value :=
  match v with
  | JObject ps =>
      match lookup k ps with
      | Some x => x
      | None => JUndefined
      end
  | JArray l =>
      if String.eqb k "length" then JNumber (of_nat (List.length l))
      else JUndefined
  | JString s =>
      if String.eqb k "length" then JNumber (of_nat (utf16_length s))
      else JUndefined
  | _ => JUndefined
  end.

(** [v[i]] for a loop counter [i] (a non-negative integer) and a [v]
    that is neither [undefined] nor [null]. *)
Definition index (v : value) (i : nat) : value :=
  match v with
  | JArray l => nth i l JUndefined
  | JString s =>
      match nth_error (units_of (chars s) []) i with
      | Some c => JString c
      | None => JUndefined
      end
  | JObject ps =>
      match lookup (digits (Z.of_nat i)) ps with
      | Some x => x
      | None => JUndefined
      end
  | _ => JUndefined
  end.

(** [v[k]] and [v.k]: a [TypeError] on [undefined] and [null]. *)
Definition get (v : value) (k : string) : result value :=
  if nullish v then Throw TypeError else Ok (prop v k).

(** [v?.[k]] and [v?.k] *)
Definition oget (v : value) (k : string) : value :=
  if nullish v then JUndefined else prop v k.

(** Whether [v?.length] is truthy.  The length of an array or of a
    string is a non-negative integer, truthy unless it is 0. *)
Definition has_length (v : value) : bool :=
  match v with
  | JArray l => negb (Nat.eqb (List.length l) 0)
  | JString s => negb (Nat.eqb (utf16_length s) 0)
  | _ => truthy (oget v "length")
  end.

Definition join (sep : string) (l : list string) : string :=
  String.concat sep l.

(** ToString.  A plain object renders as ["[object Object]"] through
    [Object.prototype.toString]; an own property [toString] (never a
    function in these values) hides it and the conversion throws.  An
    array renders through [join], [undefined] and [null] as the empty
    text. *)
Fixpoint ToString (v : value) : result string :=
  match v with
  | JUndefined => Ok "undefined"
  | JNull => Ok "null"
  | JBool b => Ok (if b then "true" else "false")
  | JNumber n => Ok (Number_toString n)
  | JString s => Ok s
  | JArray l =>
      bind
        ((fix items (l : list value) : result (list string) :=
            match l with
            | [] => Ok []
            | x :: r =>
                bind (if nullish x then Ok "" else ToString x) (fun s =>
                bind (items r) (fun ss => Ok (s :: ss)))
            end) l)
        (fun ss => Ok (join "," ss))
  | JObject ps =>
      if has_own "toString" ps then Throw TypeError
      else Ok "[object Object]"
  end.

(** ToNumber *)
Definition ToNumber (v : value) : result float :=
  match v with
  | JUndefined => Ok nan
  | JNull => Ok zero
  | JBool b => Ok (if b then one else zero)
  | JNumber n => Ok n
  | JString s => Ok (StringToNumber s)
  | JArray _ | JObject _ => bind (ToString v) (fun s => Ok (StringToNumber s))
  end.

(** SameValueZero, the comparison of [Set.prototype.has]: objects are
    compared by identity, and every object of a parsed value is a
    distinct one. *)
Definition same_value_zero (a b : value) : bool :=
  match a, b with
  | JUndefined, JUndefined => true
  | JNull, JNull => true
  | JBool x, JBool y => Bool.eqb x y
  | JNumber x, JNumber y => JsNumber.same_value_zero x y
  | JString x, JString y => String.eqb x y
  | _, _ => false
  end.

Definition set_has (s : list value) (v : value) : bool :=
  existsb (same_value_zero v) s.

End Js.

Notation "x <- m ;; k" := (Js.bind m (fun x => k))
  (at level 61, m at next level, right associativity).

(* ================================================================== *)
(** ** Data model ([types.ts]) *)
(* ================================================================== *)

(** The string-literal unions of [types.ts] ([VatCategoryCode],
    [InvoiceTypeCode], [FacturXProfile], [PaymentMeansCode]) are kept as
    [string]: the parser casts arbitrary text to them and the validator
    re-checks them at run time. *)

(** The members of the union [VatCategoryCode]. *)
Definition VatCategoryCode : list string :=
  ["S"; "Z"; "E"; "K"; "G"; "O"; "L"; "M"].

Module TradePartyAddress.
Record t : Type := mk {
  street : string;
  additionalStreet : option string;
  city : string;
  postalCode : string;
  countryCode : string;
  stateOrProvince : option string
}.
End TradePartyAddress.

Module Contact.
Record t : Type := mk {
  name : option string;
  email : option string;
  phone : option string
}.
End Contact.

Module TradeParty.
Record t : Type := mk {
  name : string;
  id : option string;
  vatNumber : option string;
  legalId : option string;
  address : TradePartyAddress.t;
  contact : option Contact.t
}.
End TradeParty.

Module InvoiceLine.
Record t : Type := mk {
  id : string;
  description : string;
  quantity : float;
  unitCode : string;
  unitPrice : float;
  totalAmount : float;
  vatRate : float;
  vatCategory : string;
  productId : option string;
  buyerProductId : option string;
  note : option string
}.
End InvoiceLine.

Module PaymentInfo.
Record t : Type := mk {
  meansCode : string;
  iban : option string;
  bic : option string;
  reference : option string;
  terms : option string
}.
End PaymentInfo.

Module Invoice.
Record t : Type := mk {
  number : string;
  typeCode : string;
  date : string;
  dueDate : option string;
  deliveryDate : option string;
  currency : string;
  profile : string;
  seller : TradeParty.t;
  buyer : TradeParty.t;
  lines : list InvoiceLine.t;
  payment : option PaymentInfo.t;
  purchaseOrderRef : option string;
  contractRef : option string;
  notes : option string;
  buyerRef : option string
}.
End Invoice.

Module VatSummary.
Record t : Type := mk {
  categoryCode : string;
  rate : float;
  taxableAmount : float;
  taxAmount : float
}.
End VatSummary.

Module InvoiceTotals.
Record t : Type := mk {
  lineTotalAmount : float;
  taxBasisTotalAmount : float;
  taxTotalAmount : float;
  grandTotalAmount : float;
  duePayableAmount : float;
  vatSummaries : list VatSummary.t
}.
End InvoiceTotals.

Module ValidationResult.
Record t : Type := mk {
  valid : bool;
  errors : list string;
  warnings : list string
}.
End ValidationResult.

(* ================================================================== *)
(** ** Tax and totals calculator ([calculateTotals]) *)
(* ================================================================== *)

Module Calculator.

Import JsNumber.

Open Scope float_scope.

(** A [Map<string, VatSummary>]: the entries in insertion order. *)
Definition vat_map : Type := list (string * VatSummary.t).

Definition map_has (key : string) (m : vat_map) : bool :=
  existsb (fun e => String.eqb (fst e) key) m.

(** [vatMap.set(key, v)] *)
Fixpoint map_set (key : string) (v : VatSummary.t) (m : vat_map) : vat_map :=
  match m with
  | [] => [(key, v)]
  | (k, w) :: r =>
      if String.eqb k key then (k, v) :: r else (k, w) :: map_set key v r
  end.

(** [vatMap.get(key)!.taxableAmount += amount]: the summary stored
    under [key] is updated in place. *)
Fixpoint map_add_taxable (key : string) (amount : float) (m : vat_map)
  : vat_map :=
  match m with
  | [] => []
  | (k, w) :: r =>
      if String.eqb k key then
        (k, VatSummary.mk (VatSummary.categoryCode w) (VatSummary.rate w)
              (VatSummary.taxableAmount w + amount) (VatSummary.taxAmount w))
          :: r
      else (k, w) :: map_add_taxable key amount r
  end.

Definition map_values (m : vat_map) : list VatSummary.t := map snd m.

(** [`${line.vatCategory}-${line.vatRate}`] *)
Definition vat_key (category : string) (rate : float) : string :=
  (category ++ "-" ++ Number_toString rate)%string.

Definition line_key (line : InvoiceLine.t) : string :=
  vat_key (InvoiceLine.vatCategory line) (InvoiceLine.vatRate line).

(** The body of the first loop, on the pair of the running line total
    and the map. *)
Definition add_line (st : float * vat_map) (line : InvoiceLine.t)
  : float * vat_map :=
  let '(lineTotalAmount, vatMap) := st in
  let lineTotal := Math_round (InvoiceLine.totalAmount line * 100) / 100 in
  let lineTotalAmount := lineTotalAmount + lineTotal in
  let key := line_key line in
  let vatMap :=
    if negb (map_has key vatMap) then
      map_set key
        (VatSummary.mk (InvoiceLine.vatCategory line)
           (InvoiceLine.vatRate line) 0 0)
        vatMap
    else vatMap in
  (lineTotalAmount, map_add_taxable key lineTotal vatMap).

(** The body of the second loop. *)
Definition close_group (vat : VatSummary.t) : VatSummary.t :=
  let taxableAmount :=
    Math_round (VatSummary.taxableAmount vat * 100) / 100 in
  let taxAmount :=
    Math_round (taxableAmount * VatSummary.rate vat / 100 * 100) / 100 in
  VatSummary.mk (VatSummary.categoryCode vat) (VatSummary.rate vat)
    taxableAmount taxAmount.

Definition calculateTotals (invoice : Invoice.t) : InvoiceTotals.t :=
  let '(lineTotalAmount, vatMap) :=
    fold_left add_line (Invoice.lines invoice) (0, []) in
  let vatMap := map (fun e => (fst e, close_group (snd e))) vatMap in
  let taxTotal :=
    fold_left (fun s v => s + VatSummary.taxAmount v) (map_values vatMap) 0 in
  let lineTotalAmount := Math_round (lineTotalAmount * 100) / 100 in
  let grandTotal := Math_round ((lineTotalAmount + taxTotal) * 100) / 100 in
  InvoiceTotals.mk
    lineTotalAmount
    lineTotalAmount
    (Math_round (taxTotal * 100) / 100)
    grandTotal
    grandTotal
    (map_values vatMap).

End Calculator.

(* ================================================================== *)
(** ** Business-rule validator ([validateInvoice]) *)
(* ================================================================== *)

(** The handler hands the request's arguments to the validator without
    checking them ([args as unknown as Invoice]), and the validator
    guards its accesses with [?.]: it is modelled on untyped values, so
    that what it does on absent and ill-typed parts is part of the
    model. *)

Module Validator.

Import JsString JsNumber Js.

Definition VAT_CATEGORY_CODES : list string :=
  ["S"; "Z"; "E"; "K"; "G"; "O"; "L"; "M"].

Definition INVOICE_TYPE_CODES : list string :=
  ["380"; "381"; "389"; "384"].

(** [SET.has(v)] for a set of strings *)
Definition has (set : list string) (v : value) : bool :=
  set_has (map JString set) v.

(** [errors.push(msg)] under a condition *)
Definition push_if (c : bool) (msg : string) (l : list string) : list string :=
  if c then (l ++ [msg])%list else l.

(** [v?.trim()]: [undefined] on [undefined] and [null]; on any other
    value that is not a string, [trim] is not a function. *)
Definition opt_trim (v : value) : result value :=
  match v with
  | JUndefined | JNull => Ok JUndefined
  | JString s => Ok (JString (trim s))
  | _ => Throw TypeError
  end.

(** Whether [v?.match(re)] is truthy. *)
Definition opt_match (re : string -> bool) (v : value) : result bool :=
  match v with
  | JUndefined | JNull => Ok false
  | JString s => Ok (re s)
  | _ => Throw TypeError
  end.

(** Whether [v.match(re)] is truthy, for a truthy [v]. *)
Definition call_match (re : string -> bool) (v : value) : result bool :=
  match v with
  | JString s => Ok (re s)
  | _ => Throw TypeError
  end.

(** [v.replace(/\s/g, '')], for a truthy [v]. *)
Definition call_remove_ws (v : value) : result string :=
  match v with
  | JString s => Ok (remove_ws s)
  | _ => Throw TypeError
  end.

(** [!v?.trim()] *)
Definition blank (v : value) : result bool :=
  t <- opt_trim v ;; Ok (negb (truthy t)).

(** [typeof v !== 'number' || isNaN(v)] *)
Definition not_a_number (v : value) : bool :=
  match v with
  | JNumber n => isNaN n
  | _ => true
  end.

(** [typeof v !== 'number' || v < 0 || isNaN(v)] *)
Definition not_a_rate (v : value) : bool :=
  match v with
  | JNumber n => (n <? 0)%float || isNaN n
  | _ => true
  end.

(** The state of the loop over the lines. *)
Record loop_state : Type := mk_state {
  st_errors : list string;
  st_warnings : list string;
  st_lineIds : list value
}.

Definition mismatch_warning (ref : string) (actual expected : float) : string :=
  ref ++ " : Montant total (" ++ Number_toString actual
    ++ ") ≠ quantité × prix unitaire (" ++ Number_toString expected
    ++ ") — écart de " ++ toFixed2 (Math_abs (expected - actual)) ++ " €".

(** The loop body for [line = invoice.lines[i]]. *)
Definition validate_line (i : nat) (line : value) (st : loop_state)
  : result loop_state :=
  id <- get line "id" ;;
  shown <- (if truthy id then ToString id
            else Ok (digits (Z.of_nat i + 1))) ;;
  let ref := "Ligne " ++ shown in
  let errors := st_errors st in
  let errors :=
    push_if (set_has (st_lineIds st) id)
      (ref ++ " : Identifiant de ligne dupliqué (BT-126)") errors in
  let lineIds := (st_lineIds st ++ [id])%list in
  b <- blank (prop line "description") ;;
  let errors := push_if b (ref ++ " : Désignation requise (BT-153)") errors in
  let errors :=
    push_if (not_a_number (prop line "quantity"))
      (ref ++ " : Quantité invalide (BT-129)") errors in
  b <- blank (prop line "unitCode") ;;
  let errors :=
    push_if b
      (ref ++ " : Code unité requis (BT-130) — ex: C62 (pièce), HUR (heure)")
      errors in
  let errors :=
    push_if (not_a_number (prop line "unitPrice"))
      (ref ++ " : Prix unitaire invalide (BT-146)") errors in
  let errors :=
    push_if (not_a_number (prop line "totalAmount"))
      (ref ++ " : Montant total ligne invalide (BT-131)") errors in
  let errors :=
    push_if (not_a_rate (prop line "vatRate"))
      (ref ++ " : Taux TVA invalide (BT-152) — doit être >= 0") errors in
  let errors :=
    push_if (negb (has VAT_CATEGORY_CODES (prop line "vatCategory")))
      (ref ++ " : Code catégorie TVA invalide (BT-151) — valeurs: S, Z, E, K, G, O")
      errors in
  q <- ToNumber (prop line "quantity") ;;
  p <- ToNumber (prop line "unitPrice") ;;
  let expected := (Math_round (q * p * 100) / 100)%float in
  t <- ToNumber (prop line "totalAmount") ;;
  let actual := (Math_round (t * 100) / 100)%float in
  let warnings :=
    push_if (0.02 <? Math_abs (expected - actual))%float
      (mismatch_warning ref actual expected) (st_warnings st) in
  Ok (mk_state errors warnings lineIds).

(** The values [lines[0]], [lines[1]], ... the loop
    [for (let i = 0; i < lines.length; i++)] visits.  An array or a
    string has exactly [length] of them.  Another object is visited
    while [i < ToNumber(lines.length)]; it has fewer own properties
    than [S (length props)], so one of the first [S (length props)]
    values is [undefined] and the body throws on it before the loop
    could go further. *)
Definition loop_items (lines : value) : result (list value) :=
  match lines with
  | JArray l => Ok l
  | JString s => Ok (map JString (units_of (chars s) []))
  | JObject ps =>
      len <- ToNumber (prop lines "length") ;;
      Ok (map (index lines)
            (filter (fun i => (of_nat i <? len)%float)
               (seq 0 (S (List.length ps)))))
  | _ => Ok []
  end.

Fixpoint validate_lines (i : nat) (items : list value) (st : loop_state)
  : result loop_state :=
  match items with
  | [] => Ok st
  | line :: rest =>
      st' <- validate_line i line st ;;
      validate_lines (S i) rest st'
  end.

Definition validateInvoice (invoice : value) : result ValidationResult.t :=
  let errors : list string := [] in
  let warnings : list string := [] in
  (* En-tête *)
  number <- get invoice "number" ;;
  b <- blank number ;;
  let errors := push_if b "BT-1 : Numéro de facture requis" errors in
  m <- opt_match DATE_RE (prop invoice "date") ;;
  let errors :=
    push_if (negb m)
      "BT-2 : Date de facture invalide (format attendu : YYYY-MM-DD)" errors in
  let errors :=
    push_if (negb (has INVOICE_TYPE_CODES (prop invoice "typeCode")))
      "BT-3 : Code type facture invalide (valeurs : 380, 381, 389, 384)"
      errors in
  m <- opt_match CURRENCY_RE (prop invoice "currency") ;;
  let errors :=
    push_if (negb m)
      "BT-5 : Code devise invalide (format ISO 4217, ex: EUR)" errors in
  let errors :=
    push_if (negb (truthy (prop invoice "profile")))
      "Profil Factur-X requis (MINIMUM, BASIC, EN_16931, EXTENDED)" errors in
  let dueDate := prop invoice "dueDate" in
  m <- (if truthy dueDate then call_match DATE_RE dueDate else Ok true) ;;
  let errors :=
    push_if (negb m)
      "BT-9 : Date d'échéance invalide (format attendu : YYYY-MM-DD)"
      errors in
  let deliveryDate := prop invoice "deliveryDate" in
  m <- (if truthy deliveryDate then call_match DATE_RE deliveryDate
        else Ok true) ;;
  let errors :=
    push_if (negb m)
      "Date de livraison invalide (format attendu : YYYY-MM-DD)" errors in
  (* Vendeur *)
  let seller := prop invoice "seller" in
  b <- blank (oget seller "name") ;;
  let errors := push_if b "BT-27 : Nom du vendeur requis" errors in
  b <- blank (oget (oget seller "address") "street") ;;
  let errors := push_if b "BT-35 : Adresse (rue) du vendeur requise" errors in
  b <- blank (oget (oget seller "address") "city") ;;
  let errors := push_if b "BT-37 : Ville du vendeur requise" errors in
  b <- blank (oget (oget seller "address") "postalCode") ;;
  let errors := push_if b "BT-38 : Code postal du vendeur requis" errors in
  m <- opt_match COUNTRY_RE (oget (oget seller "address") "countryCode") ;;
  let errors :=
    push_if (negb m)
      "BT-40 : Code pays vendeur invalide (format ISO 3166-1 alpha-2, ex: FR)"
      errors in
  let warnings :=
    push_if (negb (truthy (oget seller "vatNumber"))
             && negb (truthy (oget seller "id")))
      "BT-31/BT-29 : Numéro de TVA ou identifiant vendeur recommandé pour le profil EN 16931"
      warnings in
  (* Acheteur *)
  let buyer := prop invoice "buyer" in
  b <- blank (oget buyer "name") ;;
  let errors := push_if b "BT-44 : Nom de l'acheteur requis" errors in
  m <- opt_match COUNTRY_RE (oget (oget buyer "address") "countryCode") ;;
  let errors :=
    push_if (negb m)
      "BT-57 : Code pays acheteur invalide (format ISO 3166-1 alpha-2, ex: FR)"
      errors in
  (* Lignes *)
  let lines := prop invoice "lines" in
  st <- (if negb (has_length lines) then
           Ok (mk_state
                 (errors ++ ["Au moins une ligne de facture est requise"])%list
                 warnings [])
         else
           items <- loop_items lines ;;
           validate_lines 0 items (mk_state errors warnings [])) ;;
  let errors := st_errors st in
  let warnings := st_warnings st in
  (* Paiement *)
  let iban := oget (prop invoice "payment") "iban" in
  warnings <-
    (if truthy iban then
       stripped <- call_remove_ws iban ;;
       Ok (push_if (negb (IBAN_RE stripped))
             "BT-84 : Format IBAN potentiellement invalide" warnings)
     else Ok warnings) ;;
  Ok (ValidationResult.mk (Nat.eqb (List.length errors) 0) errors warnings).

End Validator.

(* ================================================================== *)
(** ** Typed invoices as untyped values *)
(* ================================================================== *)

(** The object a typed invoice is at run time: one property per field;
    an optional field that is absent holds [undefined], which every
    read of the code treats as a missing property. *)

Module ToJs.

Import Js.

Definition opt (o : option string) : value :=
  match o with
  | Some s => JString s
  | None => JUndefined
  end.

Definition address (a : TradePartyAddress.t) : value :=
  JObject
    [("street", JString (TradePartyAddress.street a));
     ("additionalStreet", opt (TradePartyAddress.additionalStreet a));
     ("city", JString (TradePartyAddress.city a));
     ("postalCode", JString (TradePartyAddress.postalCode a));
     ("countryCode", JString (TradePartyAddress.countryCode a));
     ("stateOrProvince", opt (TradePartyAddress.stateOrProvince a))].

Definition contact (c : Contact.t) : value :=
  JObject
    [("name", opt (Contact.name c));
     ("email", opt (Contact.email c));
     ("phone", opt (Contact.phone c))].

Definition party (p : TradeParty.t) : value :=
  JObject
    [("name", JString (TradeParty.name p));
     ("id", opt (TradeParty.id p));
     ("vatNumber", opt (TradeParty.vatNumber p));
     ("legalId", opt (TradeParty.legalId p));
     ("address", address (TradeParty.address p));
     ("contact", match TradeParty.contact p with
                 | Some c => contact c
                 | None => JUndefined
                 end)].

Definition line (l : InvoiceLine.t) : value :=
  JObject
    [("id", JString (InvoiceLine.id l));
     ("description", JString (InvoiceLine.description l));
     ("quantity", JNumber (InvoiceLine.quantity l));
     ("unitCode", JString (InvoiceLine.unitCode l));
     ("unitPrice", JNumber (InvoiceLine.unitPrice l));
     ("totalAmount", JNumber (InvoiceLine.totalAmount l));
     ("vatRate", JNumber (InvoiceLine.vatRate l));
     ("vatCategory", JString (InvoiceLine.vatCategory l));
     ("productId", opt (InvoiceLine.productId l));
     ("buyerProductId", opt (InvoiceLine.buyerProductId l));
     ("note", opt (InvoiceLine.note l))].

Definition payment (p : PaymentInfo.t) : value :=
  JObject
    [("meansCode", JString (PaymentInfo.meansCode p));
     ("iban", opt (PaymentInfo.iban p));
     ("bic", opt (PaymentInfo.bic p));
     ("reference", opt (PaymentInfo.reference p));
     ("terms", opt (PaymentInfo.terms p))].

Definition invoice (inv : Invoice.t) : value :=
  JObject
    [("number", JString (Invoice.number inv));
     ("typeCode", JString (Invoice.typeCode inv));
     ("date", JString (Invoice.date inv));
     ("dueDate", opt (Invoice.dueDate inv));
     ("deliveryDate", opt (Invoice.deliveryDate inv));
     ("currency", JString (Invoice.currency inv));
     ("profile", JString (Invoice.profile inv));
     ("seller", party (Invoice.seller inv));
     ("buyer", party (Invoice.buyer inv));
     ("lines", JArray (map line (Invoice.lines inv)));
     ("payment", match Invoice.payment inv with
                 | Some p => payment p
                 | None => JUndefined
                 end);
     ("purchaseOrderRef", opt (Invoice.purchaseOrderRef inv));
     ("contractRef", opt (Invoice.contractRef inv));
     ("notes", opt (Invoice.notes inv));
     ("buyerRef", opt (Invoice.buyerRef inv))].

End ToJs.

(* ================================================================== *)
(** ** XML documents *)
(* ================================================================== *)

(** The generator drives an XML builder ([xmlbuilder2]) and the parser
    reads the object an XML parser ([fast-xml-parser]) returns; both
    libraries are outside the repository.  A document is modelled by
    its tree: the tree is what the builder calls construct, and the
    parser's object is computed from it. *)

Module Xml.

Import JsString Js.

#[local] Set Warnings "-register-all".

Inductive node : Type :=
| Element (name : string) (attrs : list (string * string))
          (children : list node)
| Text (s : string).

(** [.ele(name, attrs)] with the children built on it, and [.txt(s)] *)
Definition ele (name : string) (attrs : list (string * string))
  (children : list node) : node :=
  Element name attrs children.

Definition txt (s : string) : node := Text s.

(** A name without its namespace prefix ([removeNSPrefix: true]). *)
Fixpoint local_aux (cs : list ascii) (acc : list ascii) : list ascii :=
  match cs with
  | [] => rev acc
  | c :: r =>
      if Ascii.eqb c ":" then local_aux r [] else local_aux r (c :: acc)
  end.

Definition local (name : string) : string :=
  of_chars (local_aux (chars name) []).

Fixpoint distinct_keys (seen : list string) (members : list (string * value))
  : list string :=
  match members with
  | [] => []
  | (k, _) :: r =>
      if existsb (String.eqb k) seen then distinct_keys seen r
      else k :: distinct_keys (k :: seen) r
  end.

(** The members of an object from the child elements in document
    order: a name that occurs once holds the child's value, a repeated
    name the array of the values. *)
Definition group (members : list (string * value)) : list (string * value) :=
  map (fun k =>
         let vs :=
           map snd (filter (fun e => String.eqb (fst e) k) members) in
         (k, match vs with
             | [v] => v
             | _ => JArray vs
             end))
      (distinct_keys [] members).

Fixpoint text_of (children : list node) : string :=
  match children with
  | [] => ""
  | Text s :: r => s ++ text_of r
  | Element _ _ _ :: r => text_of r
  end.

(** The value the parser builds for an element, with the options the
    source sets ([ignoreAttributes: false], [attributeNamePrefix: '@_'],
    [textNodeName: '#text'], [parseAttributeValue: false]): the text of
    an element that has neither attributes nor child elements; else an
    object of the grouped children, the text under [#text] when there
    is some, and the attributes under prefixed names.  The text is kept
    as it is: the model is that of the parser on documents whose texts
    it does not convert.  The parser as the source configures it trims
    a text and turns one that reads as a number into the number (0042
    into 42, hexadecimal and exponent forms likewise); the model is
    used on documents without such texts. *)
Fixpoint to_value (n : node) : value :=
  match n with
  | Text s => JString s
  | Element _ attrs children =>
      let members :=
        (fix go (cs : list node) : list (string * value) :=
           match cs with
           | [] => []
           | Text _ :: r => go r
           | (Element nm _ _ as e) :: r => (local nm, to_value e) :: go r
           end) children in
      let text := text_of children in
      match attrs, members with
      | [], [] => JString text
      | _, _ =>
          JObject
            (group members
             ++ (if String.eqb text "" then [] else [("#text", JString text)])
             ++ map (fun a => ("@_" ++ local (fst a), JString (snd a))) attrs)
      end
  end.

(** [xmlParser.parse] on the text of the document whose root element
    is [root]: the object with the declaration and the root element. *)
Definition parse (root : node) : value :=
  match root with
  | Element nm _ _ =>
      JObject
        [("?xml", JObject [("@_version", JString "1.0");
                           ("@_encoding", JString "UTF-8")]);
         (local nm, to_value root)]
  | Text _ => JObject []
  end.

End Xml.

(* ================================================================== *)
(** ** Document generator ([generateFacturX]) *)
(* ================================================================== *)

Module Generator.

Import JsString JsNumber Xml Calculator.

Definition PROFILE_URNS : list (string * string) :=
  [("MINIMUM", "urn:factur-x.eu:1p0:minimum");
   ("BASIC_WL", "urn:factur-x.eu:1p0:basicwl");
   ("BASIC", "urn:factur-x.eu:1p0:basic");
   ("EN_16931",
    "urn:cen.eu:en16931:2017#compliant#urn:factur-x.eu:1p0:en16931");
   ("EXTENDED",
    "urn:cen.eu:en16931:2017#conformant#urn:factur-x.eu:1p0:extended")].

Fixpoint assoc (k : string) (l : list (string * string)) : option string :=
  match l with
  | [] => None
  | (k', v) :: r => if String.eqb k k' then Some v else assoc k r
  end.

(** [PROFILE_URNS[profile] ?? PROFILE_URNS.EN_16931] *)
Definition profile_urn (profile : string) : string :=
  match assoc profile PROFILE_URNS with
  | Some urn => urn
  | None =>
      "urn:cen.eu:en16931:2017#compliant#urn:factur-x.eu:1p0:en16931"
  end.

Definition toDate8 (iso : string) : string := remove_dashes iso.

Definition fmt (n : float) : string := toFixed2 n.

(** The truthiness of an optional string: present and not empty. *)
Definition given (o : option string) : option string :=
  match o with
  | Some s => if String.eqb s "" then None else Some s
  | None => None
  end.

(** [if (o) parent.ele(...)]: the nodes built when [o] is truthy. *)
Definition when_given (o : option string) (build : string -> node)
  : list node :=
  match given o with
  | Some s => [build s]
  | None => []
  end.

Definition leaf (name : string) (s : string) : node :=
  ele name [] [txt s].

Definition date_time (name : string) (iso : string) : node :=
  ele name []
    [ele "udt:DateTimeString" [("format", "102")] [txt (toDate8 iso)]].

Definition line_item (line : InvoiceLine.t) : node :=
  ele "ram:IncludedSupplyChainTradeLineItem" []
    [ele "ram:AssociatedDocumentLineDocument" []
       [leaf "ram:LineID" (InvoiceLine.id line)];
     ele "ram:SpecifiedTradeProduct" []
       (when_given (InvoiceLine.productId line) (leaf "ram:SellerAssignedID")
        ++ when_given (InvoiceLine.buyerProductId line)
             (leaf "ram:BuyerAssignedID")
        ++ [leaf "ram:Name" (InvoiceLine.description line)]
        ++ when_given (InvoiceLine.note line) (leaf "ram:Description"));
     ele "ram:SpecifiedLineTradeAgreement" []
       [ele "ram:NetPriceProductTradePrice" []
          [leaf "ram:ChargeAmount" (fmt (InvoiceLine.unitPrice line));
           ele "ram:BasisQuantity"
             [("unitCode", InvoiceLine.unitCode line)] [txt "1"]]];
     ele "ram:SpecifiedLineTradeDelivery" []
       [ele "ram:BilledQuantity" [("unitCode", InvoiceLine.unitCode line)]
          [txt (Number_toString (InvoiceLine.quantity line))]];
     ele "ram:SpecifiedLineTradeSettlement" []
       [ele "ram:ApplicableTradeTax" []
          [leaf "ram:TypeCode" "VAT";
           leaf "ram:CategoryCode" (InvoiceLine.vatCategory line);
           leaf "ram:RateApplicablePercent"
             (Number_toString (InvoiceLine.vatRate line))];
        ele "ram:SpecifiedTradeSettlementLineMonetarySummation" []
          [leaf "ram:LineTotalAmount" (fmt (InvoiceLine.totalAmount line))]]].

(** The seller and the buyer are written by the same sequence of
    calls, under the element [name]. *)
Definition trade_party (name : string) (p : TradeParty.t) : node :=
  let a := TradeParty.address p in
  ele name []
    (when_given (TradeParty.id p) (leaf "ram:ID")
     ++ [leaf "ram:Name" (TradeParty.name p)]
     ++ when_given (TradeParty.legalId p)
          (fun s => ele "ram:SpecifiedLegalOrganization" [] [leaf "ram:ID" s])
     ++ when_given (TradeParty.vatNumber p)
          (fun s =>
             ele "ram:SpecifiedTaxRegistration" []
               [ele "ram:ID" [("schemeID", "VA")] [txt s]])
     ++ [ele "ram:PostalTradeAddress" []
           [leaf "ram:PostcodeCode" (TradePartyAddress.postalCode a);
            leaf "ram:LineOne" (TradePartyAddress.street a);
            leaf "ram:CityName" (TradePartyAddress.city a);
            leaf "ram:CountryID" (TradePartyAddress.countryCode a)]]
     ++ when_given
          (match TradeParty.contact p with
           | Some c => Contact.email c
           | None => None
           end)
          (fun s =>
             ele "ram:URIUniversalCommunication" []
               [ele "ram:URIID" [("schemeID", "EM")] [txt s]])).

Definition payment_means (p : PaymentInfo.t) : node :=
  ele "ram:SpecifiedTradeSettlementPaymentMeans" []
    (leaf "ram:TypeCode" (PaymentInfo.meansCode p)
     :: match given (PaymentInfo.iban p) with
        | Some iban =>
            ele "ram:PayeePartyCreditorFinancialAccount" []
              [leaf "ram:IBANID" (remove_ws iban)]
            :: when_given (PaymentInfo.bic p)
                 (fun s =>
                    ele "ram:PayeeSpecifiedCreditorFinancialInstitution" []
                      [leaf "ram:BICID" s])
        | None => []
        end).

Definition trade_tax (vat : VatSummary.t) : node :=
  ele "ram:ApplicableTradeTax" []
    [leaf "ram:CalculatedAmount" (fmt (VatSummary.taxAmount vat));
     leaf "ram:TypeCode" "VAT";
     leaf "ram:BasisAmount" (fmt (VatSummary.taxableAmount vat));
     leaf "ram:CategoryCode" (VatSummary.categoryCode vat);
     leaf "ram:RateApplicablePercent" (Number_toString (VatSummary.rate vat))].

Definition payment_terms (invoice : Invoice.t) : list node :=
  let terms :=
    match Invoice.payment invoice with
    | Some p => given (PaymentInfo.terms p)
    | None => None
    end in
  match given (Invoice.dueDate invoice), terms with
  | None, None => []
  | due, _ =>
      [ele "ram:SpecifiedTradePaymentTerms" []
         (when_given terms (leaf "ram:Description")
          ++ when_given due (date_time "ram:DueDateDateTime"))]
  end.

(** The document [generateFacturX] builds; the text it returns is the
    serialisation of this tree. *)
Definition generateFacturX (invoice : Invoice.t) : node :=
  let totals := calculateTotals invoice in
  let profileUrn := profile_urn (Invoice.profile invoice) in
  ele "rsm:CrossIndustryInvoice"
    [("xmlns:rsm",
      "urn:un:unece:uncefact:data:standard:CrossIndustryInvoice:100");
     ("xmlns:ram",
      "urn:un:unece:uncefact:data:standard:ReusableAggregateBusinessInformationEntity:100");
     ("xmlns:udt",
      "urn:un:unece:uncefact:data:standard:UnqualifiedDataType:100");
     ("xmlns:qdt",
      "urn:un:unece:uncefact:data:standard:QualifiedDataType:100");
     ("xmlns:xsi", "http://www.w3.org/2001/XMLSchema-instance")]
    [ (* ExchangedDocumentContext *)
      ele "rsm:ExchangedDocumentContext" []
        [ele "ram:GuidelineSpecifiedDocumentContextParameter" []
           [leaf "ram:ID" profileUrn]];
      (* ExchangedDocument *)
      ele "rsm:ExchangedDocument" []
        ([leaf "ram:ID" (Invoice.number invoice);
          leaf "ram:TypeCode" (Invoice.typeCode invoice);
          date_time "ram:IssueDateTime" (Invoice.date invoice)]
         ++ when_given (Invoice.notes invoice)
              (fun s => ele "ram:IncludedNote" [] [leaf "ram:Content" s]));
      (* SupplyChainTradeTransaction *)
      ele "rsm:SupplyChainTradeTransaction" []
        (map line_item (Invoice.lines invoice)
         ++ [ (* ApplicableHeaderTradeAgreement *)
              ele "ram:ApplicableHeaderTradeAgreement" []
                (when_given (Invoice.buyerRef invoice)
                   (leaf "ram:BuyerReference")
                 ++ [trade_party "ram:SellerTradeParty"
                       (Invoice.seller invoice);
                     trade_party "ram:BuyerTradeParty"
                       (Invoice.buyer invoice)]
                 ++ when_given (Invoice.purchaseOrderRef invoice)
                      (fun s =>
                         ele "ram:BuyerOrderReferencedDocument" []
                           [leaf "ram:IssuerAssignedID" s])
                 ++ when_given (Invoice.contractRef invoice)
                      (fun s =>
                         ele "ram:ContractReferencedDocument" []
                           [leaf "ram:IssuerAssignedID" s]));
              (* ApplicableHeaderTradeDelivery *)
              ele "ram:ApplicableHeaderTradeDelivery" []
                (when_given (Invoice.deliveryDate invoice)
                   (fun s =>
                      ele "ram:ActualDeliverySupplyChainEvent" []
                        [date_time "ram:OccurrenceDateTime" s]));
              (* ApplicableHeaderTradeSettlement *)
              ele "ram:ApplicableHeaderTradeSettlement" []
                (when_given
                   (match Invoice.payment invoice with
                    | Some p => PaymentInfo.reference p
                    | None => None
                    end)
                   (leaf "ram:PaymentReference")
                 ++ [leaf "ram:InvoiceCurrencyCode" (Invoice.currency invoice)]
                 ++ match Invoice.payment invoice with
                    | Some p => [payment_means p]
                    | None => []
                    end
                 ++ map trade_tax (InvoiceTotals.vatSummaries totals)
                 ++ payment_terms invoice
                 ++ [ele "ram:SpecifiedTradeSettlementHeaderMonetarySummation"
                       []
                       [leaf "ram:LineTotalAmount"
                          (fmt (InvoiceTotals.lineTotalAmount totals));
                        leaf "ram:TaxBasisTotalAmount"
                          (fmt (InvoiceTotals.taxBasisTotalAmount totals));
                        ele "ram:TaxTotalAmount"
                          [("currencyID", Invoice.currency invoice)]
                          [txt (fmt (InvoiceTotals.taxTotalAmount totals))];
                        leaf "ram:GrandTotalAmount"
                          (fmt (InvoiceTotals.grandTotalAmount totals));
                        leaf "ram:DuePayableAmount"
                          (fmt (InvoiceTotals.duePayableAmount totals))]])])].

End Generator.

(* ================================================================== *)
(** ** Document parser ([parseFacturXXml]) *)
(* ================================================================== *)

Module Parser.

Import JsString JsNumber Js.

#[local] Set Warnings "-register-all".

Fixpoint str (node : value) : string :=
  match node with
  | JUndefined | JNull => ""
  | JString s => s
  | JNumber n => Number_toString n
  | JObject ps =>
      (fix text (ps : list (string * value)) : string :=
         match ps with
         | [] => ""
         | (k, v) :: r => if String.eqb "#text" k then str v else text r
         end) ps
  | JBool _ | JArray _ => ""
  end.

(** [x || 0] on numbers *)
Definition or_zero (x : float) : float :=
  if (x =? 0)%float || is_nan x then zero else x.

Definition num (node : value) : float := or_zero (parseFloat (str node)).

Definition toIsoDate (node : value) : string :=
  let s := str node in
  if Nat.eqb (utf16_length s) 8 then
    slice s 0 4 ++ "-" ++ slice s 4 6 ++ "-" ++ slice s 6 8
  else s.

(** [s || undefined] *)
Definition or_undefined (s : string) : option string :=
  if String.eqb s "" then None else Some s.

(** [s || d] *)
Definition or_default (s d : string) : string :=
  if String.eqb s "" then d else s.

(** [v ?? {}] *)
Definition or_empty (v : value) : value :=
  if nullish v then JObject [] else v.

(** [a ?? b] *)
Definition coalesce (a b : value) : value :=
  if nullish a then b else a.

(** [typeof v === 'object'] *)
Definition is_object (v : value) : bool :=
  match v with
  | JNull | JArray _ | JObject _ => true
  | _ => false
  end.

Definition parseParty (raw : value) : result TradeParty.t :=
  a <- get raw "PostalTradeAddress" ;;
  let addr := or_empty a in
  let taxReg := prop raw "SpecifiedTaxRegistration" in
  let legalOrg := prop raw "SpecifiedLegalOrganization" in
  Ok (TradeParty.mk
        (str (prop raw "Name"))
        (or_undefined (str (prop raw "ID")))
        (if truthy taxReg then or_undefined (str (prop taxReg "ID")) else None)
        (if truthy legalOrg then or_undefined (str (prop legalOrg "ID"))
         else None)
        (TradePartyAddress.mk
           (str (prop addr "LineOne"))
           None
           (str (prop addr "CityName"))
           (str (prop addr "PostcodeCode"))
           (str (prop addr "CountryID"))
           None)
        None).

(** The callback of [rawLines.map]. *)
Definition parseLine (l : value) : result InvoiceLine.t :=
  d <- get l "AssociatedDocumentLineDocument" ;;
  let lineDoc := or_empty d in
  let product := or_empty (prop l "SpecifiedTradeProduct") in
  let lineAgreement := or_empty (prop l "SpecifiedLineTradeAgreement") in
  let lineDelivery := or_empty (prop l "SpecifiedLineTradeDelivery") in
  let lineSettlement := or_empty (prop l "SpecifiedLineTradeSettlement") in
  let price := or_empty (prop lineAgreement "NetPriceProductTradePrice") in
  let tax := or_empty (prop lineSettlement "ApplicableTradeTax") in
  let billed := prop lineDelivery "BilledQuantity" in
  let billedQty := str billed in
  billedUnit <-
    (if is_object billed then
       u <- get billed "@_unitCode" ;; Ok (str u)
     else Ok "C62") ;;
  let lineSummation :=
    or_empty
      (prop lineSettlement "SpecifiedTradeSettlementLineMonetarySummation") in
  Ok (InvoiceLine.mk
        (str (prop lineDoc "LineID"))
        (str (prop product "Name"))
        (or_zero (parseFloat billedQty))
        (or_default billedUnit "C62")
        (num (prop price "ChargeAmount"))
        (num (prop lineSummation "LineTotalAmount"))
        (num (prop tax "RateApplicablePercent"))
        (or_default (str (prop tax "CategoryCode")) "S")
        (or_undefined (str (prop product "SellerAssignedID")))
        None
        (or_undefined (str (prop product "Description")))).

Fixpoint map_result {A B : Type} (f : A -> result B) (l : list A)
  : result (list B) :=
  match l with
  | [] => Ok []
  | x :: r => y <- f x ;; ys <- map_result f r ;; Ok (y :: ys)
  end.

(** The chain of [includes] tests on the guideline identifier. *)
Definition infer_profile (guidelineId : string) : string :=
  if includes guidelineId "en16931" then "EN_16931"
  else if includes guidelineId "extended" then "EXTENDED"
  else if includes guidelineId "basic" then "BASIC"
  else if includes guidelineId "basicwl" then "BASIC_WL"
  else if includes guidelineId "minimum" then "MINIMUM"
  else "EN_16931".

(** The guideline identifier read from the root element. *)
Definition guideline_of (root : value) : string :=
  let ctx :=
    coalesce (prop root "ExchangedDocumentContext")
      (prop root "rsm:ExchangedDocumentContext") in
  str (oget (oget ctx "GuidelineSpecifiedDocumentContextParameter") "ID").

(** [parseFacturXXml] from the object [parsed] that
    [xmlParser.parse(xmlContent)] returned. *)
Definition parseFacturXXml (parsed : value) : result Invoice.t :=
  r <- get parsed "CrossIndustryInvoice" ;;
  let root := coalesce r (prop parsed "rsm:CrossIndustryInvoice") in
  if negb (truthy root) then
    Throw (Error
      "Document XML invalide : balise CrossIndustryInvoice introuvable")
  else
  let doc :=
    coalesce (prop root "ExchangedDocument")
      (prop root "rsm:ExchangedDocument") in
  let trx :=
    coalesce (prop root "SupplyChainTradeTransaction")
      (prop root "rsm:SupplyChainTradeTransaction") in
  if negb (truthy doc) || negb (truthy trx) then
    Throw (Error
      "Structure Factur-X invalide : ExchangedDocument ou SupplyChainTradeTransaction manquant")
  else
  let agreement := prop trx "ApplicableHeaderTradeAgreement" in
  let delivery := prop trx "ApplicableHeaderTradeDelivery" in
  let settlement := prop trx "ApplicableHeaderTradeSettlement" in
  (* Lignes de facture *)
  let rawLines :=
    match coalesce (prop trx "IncludedSupplyChainTradeLineItem") (JArray [])
    with
    | JArray l => l
    | v => [v]
    end in
  lines <- map_result parseLine rawLines ;;
  (* Paiement *)
  paymentMeans <- get settlement "SpecifiedTradeSettlementPaymentMeans" ;;
  let creditorAccount :=
    oget paymentMeans "PayeePartyCreditorFinancialAccount" in
  let paymentTerms := prop settlement "SpecifiedTradePaymentTerms" in
  (* Date livraison *)
  let deliveryEvent :=
    oget (oget delivery "ActualDeliverySupplyChainEvent")
      "OccurrenceDateTime" in
  let dueDateTime :=
    oget (oget paymentTerms "DueDateDateTime") "DateTimeString" in
  (* Profil *)
  let guidelineId := guideline_of root in
  let profile := infer_profile guidelineId in
  let note := prop doc "IncludedNote" in
  let noteText :=
    if truthy note then or_undefined (str (prop note "Content")) else None in
  sellerRaw <- get agreement "SellerTradeParty" ;;
  seller <- parseParty sellerRaw ;;
  buyer <- parseParty (prop agreement "BuyerTradeParty") ;;
  Ok (Invoice.mk
        (str (prop doc "ID"))
        (or_default (str (prop doc "TypeCode")) "380")
        (toIsoDate (oget (prop doc "IssueDateTime") "DateTimeString"))
        (if truthy dueDateTime then Some (toIsoDate dueDateTime) else None)
        (if truthy deliveryEvent
         then Some (toIsoDate (prop deliveryEvent "DateTimeString"))
         else None)
        (str (prop settlement "InvoiceCurrencyCode"))
        profile
        seller
        buyer
        lines
        (if truthy paymentMeans then
           Some (PaymentInfo.mk
                   (or_default (str (prop paymentMeans "TypeCode")) "30")
                   (if truthy creditorAccount
                    then or_undefined (str (prop creditorAccount "IBANID"))
                    else None)
                   None
                   (or_undefined (str (prop settlement "PaymentReference")))
                   (if truthy paymentTerms
                    then or_undefined (str (prop paymentTerms "Description"))
                    else None))
         else None)
        (or_undefined
           (str (oget (prop agreement "BuyerOrderReferencedDocument")
                   "IssuerAssignedID")))
        (or_undefined
           (str (oget (prop agreement "ContractReferencedDocument")
                   "IssuerAssignedID")))
        noteText
        (or_undefined (str (prop agreement "BuyerReference")))).

End Parser.

(* ================================================================== *)
(** ** The typed view of an untyped value *)
(* ================================================================== *)

(** The invoice a value is when each of its fields has the type
    [types.ts] declares; [None] otherwise.  The generator and the
    calculator are modelled on typed invoices only. *)

Module FromJs.

Import Js.

Definition text (v : value) (k : string) : option string :=
  match prop v k with
  | JString s => Some s
  | _ => None
  end.

Definition amount (v : value) (k : string) : option float :=
  match prop v k with
  | JNumber n => Some n
  | _ => None
  end.

(** An optional field: absent, or of its type. *)
Definition opt_text (v : value) (k : string) : option (option string) :=
  match prop v k with
  | JUndefined => Some None
  | JString s => Some (Some s)
  | _ => None
  end.

Definition opt_record {A : Type} (f : value -> option A) (v : value)
  (k : string) : option (option A) :=
  match prop v k with
  | JUndefined => Some None
  | JObject ps => option_map Some (f (JObject ps))
  | _ => None
  end.

Definition obind {A B : Type} (o : option A) (k : A -> option B) : option B :=
  match o with
  | Some a => k a
  | None => None
  end.

Notation "x <-? o ;; k" := (obind o (fun x => k))
  (at level 61, o at next level, right associativity).

Definition address (v : value) : option TradePartyAddress.t :=
  street <-? text v "street" ;;
  additionalStreet <-? opt_text v "additionalStreet" ;;
  city <-? text v "city" ;;
  postalCode <-? text v "postalCode" ;;
  countryCode <-? text v "countryCode" ;;
  stateOrProvince <-? opt_text v "stateOrProvince" ;;
  Some (TradePartyAddress.mk street additionalStreet city postalCode
          countryCode stateOrProvince).

Definition contact (v : value) : option Contact.t :=
  name <-? opt_text v "name" ;;
  email <-? opt_text v "email" ;;
  phone <-? opt_text v "phone" ;;
  Some (Contact.mk name email phone).

Definition party (v : value) : option TradeParty.t :=
  name <-? text v "name" ;;
  id <-? opt_text v "id" ;;
  vatNumber <-? opt_text v "vatNumber" ;;
  legalId <-? opt_text v "legalId" ;;
  a <-? (match prop v "address" with
         | JObject ps => address (JObject ps)
         | _ => None
         end) ;;
  c <-? opt_record contact v "contact" ;;
  Some (TradeParty.mk name id vatNumber legalId a c).

Definition line (v : value) : option InvoiceLine.t :=
  id <-? text v "id" ;;
  description <-? text v "description" ;;
  quantity <-? amount v "quantity" ;;
  unitCode <-? text v "unitCode" ;;
  unitPrice <-? amount v "unitPrice" ;;
  totalAmount <-? amount v "totalAmount" ;;
  vatRate <-? amount v "vatRate" ;;
  vatCategory <-? text v "vatCategory" ;;
  productId <-? opt_text v "productId" ;;
  buyerProductId <-? opt_text v "buyerProductId" ;;
  note <-? opt_text v "note" ;;
  Some (InvoiceLine.mk id description quantity unitCode unitPrice
          totalAmount vatRate vatCategory productId buyerProductId note).

Definition payment (v : value) : option PaymentInfo.t :=
  meansCode <-? text v "meansCode" ;;
  iban <-? opt_text v "iban" ;;
  bic <-? opt_text v "bic" ;;
  reference <-? opt_text v "reference" ;;
  terms <-? opt_text v "terms" ;;
  Some (PaymentInfo.mk meansCode iban bic reference terms).

Fixpoint all {A : Type} (f : value -> option A) (l : list value)
  : option (list A) :=
  match l with
  | [] => Some []
  | x :: r => y <-? f x ;; ys <-? all f r ;; Some (y :: ys)
  end.

Definition invoice (v : value) : option Invoice.t :=
  number <-? text v "number" ;;
  typeCode <-? text v "typeCode" ;;
  date <-? text v "date" ;;
  dueDate <-? opt_text v "dueDate" ;;
  deliveryDate <-? opt_text v "deliveryDate" ;;
  currency <-? text v "currency" ;;
  profile <-? text v "profile" ;;
  seller <-? (match prop v "seller" with
              | JObject ps => party (JObject ps)
              | _ => None
              end) ;;
  buyer <-? (match prop v "buyer" with
             | JObject ps => party (JObject ps)
             | _ => None
             end) ;;
  lines <-? (match prop v "lines" with
             | JArray l => all line l
             | _ => None
             end) ;;
  pay <-? opt_record payment v "payment" ;;
  purchaseOrderRef <-? opt_text v "purchaseOrderRef" ;;
  contractRef <-? opt_text v "contractRef" ;;
  notes <-? opt_text v "notes" ;;
  buyerRef <-? opt_text v "buyerRef" ;;
  Some (Invoice.mk number typeCode date dueDate deliveryDate currency
          profile seller buyer lines pay purchaseOrderRef contractRef
          notes buyerRef).

End FromJs.

(* ================================================================== *)
(** ** The [facturx_generate] request handler ([index.ts]) *)
(* ================================================================== *)

(** The handler is the one place that writes to the caller's invoice:
    the arguments object is threaded through it as state, and the
    model returns its final content with the outcome.  The validator,
    the calculator and the generator only read their argument. *)

Module Server.

Import Js.

(** [obj[k] = v] on the own properties of an object. *)
Fixpoint assign (k : string) (v : value) (ps : list (string * value))
  : list (string * value) :=
  match ps with
  | [] => [(k, v)]
  | (k', w) :: r =>
      if String.eqb k k' then (k', v) :: r else (k', w) :: assign k v r
  end.

Inductive outcome : Type :=
| QuotaExceeded
| Failed (e : exn)
| Invalid (validation : ValidationResult.t)
| Generated (xml : Xml.node) (totals : InvoiceTotals.t)
            (warnings : list string)
| Untyped.

(** The [facturx_generate] case.  [quota_allowed] is the answer of the
    daily quota check (always granted under a valid licence).  A
    [TypeError] raised on the way is caught by the handler's
    [try]/[catch].  [Untyped] stands for an accepted invoice one of
    whose fields has not its declared type (notes that are [null], a
    profile that is a number).  The handler has no such test: it goes
    on to [generateFacturX] and [calculateTotals]; what these do on such
    a value is outside this model, whose generator is on typed
    invoices, and nothing is stated about these requests. *)
Definition facturx_generate (quota_allowed : bool)
  (args : list (string * value)) : outcome * list (string * value) :=
  if negb quota_allowed then (QuotaExceeded, args)
  else
    let invoice := args in
    let invoice :=
      if negb (truthy (prop (JObject invoice) "typeCode"))
      then assign "typeCode" (JString "380") invoice else invoice in
    let invoice :=
      if negb (truthy (prop (JObject invoice) "profile"))
      then assign "profile" (JString "EN_16931") invoice else invoice in
    match Validator.validateInvoice (JObject invoice) with
    | Throw e => (Failed e, invoice)
    | Ok validation =>
        if negb (ValidationResult.valid validation)
        then (Invalid validation, invoice)
        else
          match FromJs.invoice (JObject invoice) with
          | Some typed =>
              let xml := Generator.generateFacturX typed in
              let totals := Calculator.calculateTotals typed in
              (Generated xml totals (ValidationResult.warnings validation),
               invoice)
          | None => (Untyped, invoice)
          end
    end.

End Server.

(* ================================================================== *)
(** ** Searching in strings *)
(* ================================================================== *)

Module JsSearch.

Import JsString.

(** [s.indexOf(needle)] counted from [pos], the position of [s] in the
    whole text; [None] stands for [-1]. *)
Fixpoint indexOf_from (needle s : list ascii) (pos : nat) : option nat :=
  match strip_prefix needle s with
  | Some _ => Some pos
  | None =>
      match s with
      | [] => None
      | _ :: r => indexOf_from needle r (S pos)
      end
  end.

Definition indexOf (s needle : list ascii) : option nat :=
  indexOf_from needle s 0.

(** [s.lastIndexOf(needle)], likewise. *)
Fixpoint lastIndexOf_from (needle s : list ascii) (pos : nat) : option nat :=
  match s with
  | [] =>
      match needle with
      | [] => Some pos
      | _ :: _ => None
      end
  | _ :: r =>
      match lastIndexOf_from needle r (S pos) with
      | Some i => Some i
      | None =>
          match strip_prefix needle s with
          | Some _ => Some pos
          | None => None
          end
      end
  end.

Definition lastIndexOf (s needle : list ascii) : option nat :=
  lastIndexOf_from needle s 0.

(** [s.slice(a, b)] for [0 <= a] and [0 <= b <= s.length], on a text
    of one-unit characters: empty when [b <= a]. *)
Definition slice_units (s : list ascii) (a b : nat) : list ascii :=
  firstn (b - a) (skipn a s).

End JsSearch.

(* ================================================================== *)
(** ** Extraction of the document from a PDF file ([pdf.ts]) *)
(* ================================================================== *)

(** [extractXmlFromPdf] reads the file and decodes it as latin-1, one
    character per byte: the text it searches is modelled by the bytes
    of the file.  The bytes it cuts out are decoded as UTF-8 to give the
    result; they are what the model returns, in a [string], which holds
    the UTF-8 bytes of a text. *)

Module Pdf.

Import JsString JsSearch.

Definition closingTags : list string :=
  ["</rsm:CrossIndustryInvoice>"; "</CrossIndustryInvoice>"].

(** The loop over [closingTags]: the first tag that occurs decides. *)
Fixpoint first_closing (raw : list ascii) (xmlStart : nat)
  (tags : list string) : option (list ascii) :=
  match tags with
  | [] => None
  | tag :: rest =>
      match lastIndexOf raw (chars tag) with
      | Some xmlEnd =>
          Some (slice_units raw xmlStart (xmlEnd + List.length (chars tag)))
      | None => first_closing raw xmlStart rest
      end
  end.

(** [extractXmlFromPdf] on the bytes [pdfBytes] of the file; [None]
    stands for [null]. *)
Definition extractXmlFromPdf (pdfBytes : string) : option string :=
  let raw := chars pdfBytes in
  match indexOf raw (chars "<?xml") with
  | None => None
  | Some xmlStart => option_map of_chars (first_closing raw xmlStart closingTags)
  end.

(** What the [facturx_extract_from_pdf] handler does with the result:
    [if (!xml) return err(...)], else the document is returned. *)
Definition extracted (pdfBytes : string) : option string :=
  match extractXmlFromPdf pdfBytes with
  | Some xml => if String.eqb xml "" then None else Some xml
  | None => None
  end.

End Pdf.

(* ================================================================== *)
(** ** Daily quota of the free tier ([usage.ts]) *)
(* ================================================================== *)

(** The usage file is threaded through the two functions as state.  It
    holds what [writeUsage] wrote, a date and a finite count, which
    [JSON.parse] reads back unchanged; [None] is a file that is missing
    or cannot be read or parsed.  The date of the day, [today()], is an
    input of each call.  Writing the file is taken to succeed. *)

Module Usage.

Open Scope float_scope.

Definition FREE_DAILY_LIMIT : float := 10.

Record UsageData : Type := mk_usage {
  date : string;
  count : float
}.

Definition file : Type := option UsageData.

Definition readUsage (f : file) : UsageData :=
  match f with
  | Some data => data
  | None => mk_usage "" 0
  end.

Definition writeUsage (data : UsageData) : file := Some data.

(** The two shapes of the answer of [checkFreeQuota]. *)
Inductive quota : Type :=
| Allowed (used remaining : float)
| Denied (used limit : float).

Definition allowed (q : quota) : bool :=
  match q with
  | Allowed _ _ => true
  | Denied _ _ => false
  end.

Definition checkFreeQuota (f : file) (todayStr : string) : quota :=
  let data := readUsage f in
  let used := if String.eqb (date data) todayStr then count data else 0 in
  if FREE_DAILY_LIMIT <=? used then Denied used FREE_DAILY_LIMIT
  else Allowed used (FREE_DAILY_LIMIT - used).

Definition incrementFreeUsage (f : file) (todayStr : string) : file :=
  let data := readUsage f in
  let count :=
    if String.eqb (date data) todayStr then count data + 1 else 1 in
  writeUsage (mk_usage todayStr count).

End Usage.

(* ================================================================== *)
(** ** Licence keys ([license.ts]) *)
(* ================================================================== *)

(** The signature check and the decoding of the payload are done by
    the runtime's [crypto], [Buffer] and [JSON]; they, and the parsing
    of a date, are parameters of the model; a payload that decodes is
    taken to have its five text fields.  Times are time values,
    integers of milliseconds; the clock is an input of each reading. *)

Module License.

Import JsString JsSearch.

Record LicensePayload : Type := mk_payload {
  id : string;
  email : string;
  plan : string;
  issuedAt : string;
  expiresAt : string
}.

(** A [Date]: its time value, [None] for an invalid date. *)
Definition Date : Type := option Z.

Record LicenseResult : Type := mk_result {
  valid : bool;
  result_plan : string;
  result_email : option string;
  licenseId : option string;
  result_expiresAt : option Date;
  daysLeft : option (option Z);
  error : option string
}.

Definition rejected (message : string) : LicenseResult :=
  mk_result false "free" None None None None (Some message).

Definition CACHE_TTL_MS : Z := 60 * 60 * 1000.

(** [cachedResult] and [cacheExpiry] *)
Record cache : Type := mk_cache {
  cachedResult : option LicenseResult;
  cacheExpiry : Z
}.

Definition empty_cache : cache := mk_cache None 0.

Definition clearLicenseCache (c : cache) : cache := empty_cache.

Section Runtime.

(** [crypto.verify('SHA256', Buffer.from(payloadB64, 'utf-8'),
    publicKey, Buffer.from(signatureB64, 'base64url'))] with the
    embedded public key; [None] when it, or the loading of the key,
    throws. *)
Variable verify : string -> string -> option bool.

(** [JSON.parse(Buffer.from(payloadB64, 'base64url').toString('utf-8'))
    as LicensePayload]; [None] when it throws. *)
Variable decode : string -> option LicensePayload.

(** [new Date(text)] *)
Variable date_of : string -> Date.

(** The checks of [_validate] on the two parts of the key, at the
    time [now]. *)
Definition check_parts (payloadB64 signatureB64 : string) (now : Z)
  : LicenseResult :=
  if String.eqb payloadB64 "" || String.eqb signatureB64 "" then
    rejected "Clé de licence corrompue"
  else
    match verify payloadB64 signatureB64 with
    | None => rejected "Erreur lors de la vérification cryptographique"
    | Some false => rejected "Signature de licence invalide — clé refusée"
    | Some true =>
        match decode payloadB64 with
        | None => rejected "Payload de licence illisible"
        | Some payload =>
            let expires := date_of (expiresAt payload) in
            let left := option_map (fun t => (t - now) / 86400000) expires in
            let expired :=
              match expires with
              | Some t => t <? now
              | None => false
              end in
            if expired then
              mk_result false "free" (Some (email payload))
                (Some (id payload)) (Some expires) (Some (Some 0))
                (Some ("Licence expirée le " ++ expiresAt payload
                       ++ " — renouvelez sur polar.sh"))
            else
              mk_result true (plan payload) (Some (email payload))
                (Some (id payload)) (Some expires) (Some left) None
        end
    end.

(** [_validate(key)]: the key is cut after the prefix and at its last
    point, then checked.  It is cut at ASCII characters only, so that
    its parts are the same counted in bytes and in code units. *)
Definition _validate (key : string) (now : Z) : LicenseResult :=
  match strip_prefix (chars "FTRX-") (chars key) with
  | None => rejected "Format de clé invalide (doit commencer par FTRX-)"
  | Some body =>
      match lastIndexOf body (chars ".") with
      | None => rejected "Format de clé invalide (séparateur manquant)"
      | Some dotIndex =>
          check_parts
            (of_chars (slice_units body 0 dotIndex))
            (of_chars (slice_units body (dotIndex + 1) (List.length body)))
            now
      end
  end.

(** [validateLicenseKey(rawKey)]: the clock is read when the cache is
    looked up ([at_lookup]), by [_validate] ([at_validate]) and when
    the result is stored ([at_store]). *)
Definition validateLicenseKey (c : cache) (rawKey : string)
  (at_lookup at_validate at_store : Z) : LicenseResult * cache :=
  let validated :=
    let result := _validate (trim rawKey) at_validate in
    (result,
     mk_cache (Some result)
       (at_store + (if valid result then CACHE_TTL_MS else 5 * 60 * 1000))) in
  match cachedResult c with
  | Some r => if at_lookup <? cacheExpiry c then (r, c) else validated
  | None => validated
  end.

End Runtime.

End License.

(* ================================================================== *)
(** ** The generation request with its quota ([index.ts]) *)
(* ================================================================== *)

Module Request.

Import Js Server.

(** The [facturx_generate] case with the licence and the usage file:
    the quota is checked, and the day's count incremented after a
    generation, only without a valid licence.  The date of the day is
    read at the check and at the increment.  The usage file after an
    [Untyped] outcome is outside the model ([None]). *)
Definition facturx_generate_request (license_valid : bool)
  (usage : Usage.file) (at_check at_increment : string)
  (args : list (string * value))
  : outcome * list (string * value) * option Usage.file :=
  let quota_allowed :=
    if negb license_valid
    then Usage.allowed (Usage.checkFreeQuota usage at_check)
    else true in
  let '(out, final) := facturx_generate quota_allowed args in
  let usage' :=
    match out with
    | Generated _ _ _ =>
        if negb license_valid
        then Some (Usage.incrementFreeUsage usage at_increment)
        else Some usage
    | Untyped => None
    | _ => Some usage
    end in
  (out, final, usage').

End Request.

(* ================================================================== *)
(** * Specification *)
(* ================================================================== *)

(** What the properties below are stated with: the groups of the
    calculator, the typing of untyped invoices, the mandatory rules on
    typed invoices, the table of the profile inference, sample
    documents. *)

Module NumberSpec.

Import JsString JsNumber.

(** Whether the digit search of [Number_toString] ends on [x]; it does
    on every double, which seventeen digits identify. *)
Definition rendered (x : float) : bool :=
  match Prim2SF x with
  | S754_finite _ m e =>
      let '(vn, vd) := frac_of m e in
      match shortest 20 1 m e vn vd (exp10 vn vd) with
      | Some _ => true
      | None => false
      end
  | _ => true
  end.

(** Reading a rendered number back: the state after some characters. *)
Record reading : Type := mk_reading {
  mant : Z;        (* the digits read, as a number *)
  frac : Z;        (* how many of them came after the point *)
  dot : bool;      (* the point has been read *)
  in_exp : bool;   (* the [e] has been read *)
  exp_neg : bool;  (* the exponent has a minus sign *)
  exp_val : Z      (* the digits of the exponent, as a number *)
}.

Definition read_char (st : reading) (c : ascii) : reading :=
  if in_exp st then
    if Ascii.eqb c "-" then
      mk_reading (mant st) (frac st) (dot st) true true (exp_val st)
    else if Ascii.eqb c "+" then st
    else
      mk_reading (mant st) (frac st) (dot st) true (exp_neg st)
        (10 * exp_val st + digit_val c)
  else if Ascii.eqb c "e" then
    mk_reading (mant st) (frac st) (dot st) true false 0
  else if Ascii.eqb c "." then
    mk_reading (mant st) (frac st) true false false 0
  else
    mk_reading (10 * mant st + digit_val c)
      (frac st + (if dot st then 1 else 0)) (dot st) false false 0.

Definition start : reading := mk_reading 0 0 false false false 0.

(** The decimal [s * 10^p], without trailing zeros, that a rendered
    text denotes. *)
Definition decode (l : list ascii) : Z * Z :=
  let st := fold_left read_char l start in
  strip_zeros 22 (mant st)
    ((if exp_neg st then - exp_val st else exp_val st) - frac st).

Definition digits_value (acc : Z) (l : list ascii) : Z :=
  fold_left (fun a c => 10 * a + digit_val c) l acc.

(** A character that is a decimal digit. *)
Definition digit (c : ascii) : Prop :=
  In c ["0"; "1"; "2"; "3"; "4"; "5"; "6"; "7"; "8"; "9"]%char.

End NumberSpec.

Module CalculatorSpec.

Import JsNumber Calculator NumberSpec.

Open Scope float_scope.

(** [Math.round(x * 100) / 100], the rounding the calculator applies at
    each step: a computation on doubles, which is not the rounding of
    the decimal value to two decimals ([DecimalSpec] has both). *)
Definition round2 (x : float) : float := Math_round (x * 100) / 100.

(** The distinct elements of a list, in the order of their first
    occurrence. *)
Fixpoint first_occurrences (l : list string) : list string :=
  match l with
  | [] => []
  | k :: r =>
      k :: filter (fun x => negb (String.eqb x k)) (first_occurrences r)
  end.

(** The lines of the group of key [k], in the order of the invoice. *)
Definition group_lines (k : string) (lines : list InvoiceLine.t)
  : list InvoiceLine.t :=
  filter (fun l => String.eqb (line_key l) k) lines.

(** The sum, from 0 and from left to right, of the rounded totals. *)
Definition sum_rounded (lines : list InvoiceLine.t) : float :=
  fold_left (fun s l => s + round2 (InvoiceLine.totalAmount l)) lines 0.

Definition summary_key (v : VatSummary.t) : string :=
  vat_key (VatSummary.categoryCode v) (VatSummary.rate v).

(** [vatMap.get(key)] *)
Fixpoint map_get (key : string) (m : vat_map) : option VatSummary.t :=
  match m with
  | [] => None
  | (k, v) :: r => if String.eqb k key then Some v else map_get key r
  end.

(** What the first loop leaves under [k]: the category and the rate of
    the first line of the group, and the running sum of the group. *)
Definition open_group (k : string) (lines : list InvoiceLine.t)
  : option VatSummary.t :=
  match group_lines k lines with
  | [] => None
  | l :: _ =>
      Some (VatSummary.mk (InvoiceLine.vatCategory l) (InvoiceLine.vatRate l)
              (sum_rounded (group_lines k lines)) 0)
  end.

(** The state of the first loop after the lines [ls]. *)
Definition after (ls : list InvoiceLine.t) : float * vat_map :=
  fold_left add_line ls (0%float, []).

(** A category of the union [VatCategoryCode] with a rate whose text
    [String(rate)] is found. *)
Definition declared_pair (category : string) (rate : float) : bool :=
  existsb (String.eqb category) VatCategoryCode && rendered rate.


End CalculatorSpec.


Module DecimalSpec.

Import JsNumber.

(** The exact value of a finite double, as a fraction with a positive
    denominator. *)
Definition exact_value (x : float) : option (Z * Z) :=
  match Prim2SF x with
  | S754_zero _ => Some (0, 1)
  | S754_finite s m e =>
      let '(n, d) := frac_of m e in Some (if s then - n else n, d)
  | _ => None
  end.

(** [k] is the whole number nearest to [num / den], the larger one
    when two are as near. *)
Definition nearest_half_up (num den k : Z) : Prop :=
  (2 * k - 1) * den <= 2 * num < (2 * k + 1) * den.

(** The whole number nearest to [num / den], the one away from zero
    when two are as near: the decimal rounding of the specification. *)
Definition half_away (num den : Z) : Z :=
  Z.sgn num * ((2 * Z.abs num + den) / (2 * den)).

(** The whole number nearest to [num / den], the even one when two are
    as near. *)
Definition half_even (num den : Z) : Z :=
  let q := (2 * num + den) / (2 * den) in
  if (((2 * num + den) mod (2 * den)) =? 0) && Z.odd q then q - 1 else q.

(** The product of two exact values. *)
Definition exact_product (a b : option (Z * Z)) : option (Z * Z) :=
  match a, b with
  | Some (n, d), Some (n', d') => Some (n * n', d * d')
  | _, _ => None
  end.

(** The number of cents of an exact amount rounded to two decimals by
    [round]. *)
Definition rounded_cents (round : Z -> Z -> Z) (a : option (Z * Z))
  : option Z :=
  match a with
  | Some (n, d) => Some (round (100 * n) d)
  | None => None
  end.


End DecimalSpec.

Module TaxSpec.

Import JsNumber Calculator CalculatorSpec DecimalSpec.

#[local] Open Scope Z_scope.




End TaxSpec.

Module ValidatorSpec.

Import JsString JsNumber Js Validator.

(** *** Well-typed untyped values *)

(** A field declared [string]: absent, or a string. *)
Definition absent_or_string (v : value) : bool :=
  match v with
  | JUndefined | JNull | JString _ => true
  | _ => false
  end.

(** A field the code tests for truthiness before it calls a string
    method on it: falsy, or a string. *)
Definition falsy_or_string (v : value) : bool :=
  match v with
  | JString _ => true
  | _ => negb (truthy v)
  end.

(** A value that is neither an array nor an object. *)
Definition primitive (v : value) : bool :=
  match v with
  | JArray _ | JObject _ => false
  | _ => true
  end.

Definition well_typed_line (line : value) : bool :=
  negb (nullish line)
  && primitive (prop line "id")
  && absent_or_string (prop line "description")
  && absent_or_string (prop line "unitCode")
  && primitive (prop line "quantity")
  && primitive (prop line "unitPrice")
  && primitive (prop line "totalAmount").

(** The lines: an array of well-typed lines, or no array-like object
    at all. *)
Definition well_typed_lines (lines : value) : bool :=
  match lines with
  | JArray l => forallb well_typed_line l
  | JObject _ => false
  | _ => true
  end.

(** An invoice value whose parts, where present, have the types
    [types.ts] declares; any part may be absent. *)
Definition well_typed_invoice (v : value) : bool :=
  let seller := prop v "seller" in
  let buyer := prop v "buyer" in
  negb (nullish v)
  && absent_or_string (prop v "number")
  && absent_or_string (prop v "date")
  && absent_or_string (prop v "currency")
  && falsy_or_string (prop v "dueDate")
  && falsy_or_string (prop v "deliveryDate")
  && absent_or_string (oget seller "name")
  && absent_or_string (oget (oget seller "address") "street")
  && absent_or_string (oget (oget seller "address") "city")
  && absent_or_string (oget (oget seller "address") "postalCode")
  && absent_or_string (oget (oget seller "address") "countryCode")
  && absent_or_string (oget buyer "name")
  && absent_or_string (oget (oget buyer "address") "countryCode")
  && well_typed_lines (prop v "lines")
  && falsy_or_string (oget (prop v "payment") "iban").

(** *** The mandatory rules on typed invoices *)

Definition blank_text (s : string) : bool := String.eqb (trim s) "".

(** An optional date: absent, empty, or of the form YYYY-MM-DD. *)
Definition date_ok (o : option string) : bool :=
  match o with
  | Some s => String.eqb s "" || DATE_RE s
  | None => true
  end.

(** The rules on one line, the uniqueness of its identifier apart. *)
Definition line_rules (l : InvoiceLine.t) : bool :=
  negb (blank_text (InvoiceLine.description l))
  && negb (isNaN (InvoiceLine.quantity l))
  && negb (blank_text (InvoiceLine.unitCode l))
  && negb (isNaN (InvoiceLine.unitPrice l))
  && negb (isNaN (InvoiceLine.totalAmount l))
  && negb ((InvoiceLine.vatRate l <? 0)%float || isNaN (InvoiceLine.vatRate l))
  && existsb (String.eqb (InvoiceLine.vatCategory l)) VAT_CATEGORY_CODES.

(** The rules on the lines that follow lines of identifiers [seen]. *)
Fixpoint lines_rules (seen : list string) (ls : list InvoiceLine.t) : bool :=
  match ls with
  | [] => true
  | l :: r =>
      negb (existsb (String.eqb (InvoiceLine.id l)) seen)
      && line_rules l
      && lines_rules (seen ++ [InvoiceLine.id l]) r
  end.

(** The rules whose violation is an error, all of them. *)
Definition mandatory_rules (inv : Invoice.t) : bool :=
  let seller := Invoice.seller inv in
  let buyer := Invoice.buyer inv in
  negb (blank_text (Invoice.number inv))
  && DATE_RE (Invoice.date inv)
  && existsb (String.eqb (Invoice.typeCode inv)) INVOICE_TYPE_CODES
  && CURRENCY_RE (Invoice.currency inv)
  && negb (String.eqb (Invoice.profile inv) "")
  && date_ok (Invoice.dueDate inv)
  && date_ok (Invoice.deliveryDate inv)
  && negb (blank_text (TradeParty.name seller))
  && negb (blank_text (TradePartyAddress.street (TradeParty.address seller)))
  && negb (blank_text (TradePartyAddress.city (TradeParty.address seller)))
  && negb (blank_text
             (TradePartyAddress.postalCode (TradeParty.address seller)))
  && COUNTRY_RE (TradePartyAddress.countryCode (TradeParty.address seller))
  && negb (blank_text (TradeParty.name buyer))
  && COUNTRY_RE (TradePartyAddress.countryCode (TradeParty.address buyer))
  && negb (Nat.eqb (List.length (Invoice.lines inv)) 0)
  && lines_rules [] (Invoice.lines inv).

(** The two sides of the consistency check of a line. *)
Definition expected_total (l : InvoiceLine.t) : float :=
  (Math_round (InvoiceLine.quantity l * InvoiceLine.unitPrice l * 100)
   / 100)%float.

Definition actual_total (l : InvoiceLine.t) : float :=
  (Math_round (InvoiceLine.totalAmount l * 100) / 100)%float.

Definition exceeds_tolerance (l : InvoiceLine.t) : bool :=
  (0.02 <? Math_abs (expected_total l - actual_total l))%float.

(** How the messages name the line at index [i]. *)
Definition line_ref (i : nat) (l : InvoiceLine.t) : string :=
  "Ligne " ++ (if String.eqb (InvoiceLine.id l) "" then
                 digits (Z.of_nat i + 1)
               else InvoiceLine.id l).

Definition line_warning (i : nat) (l : InvoiceLine.t) : string :=
  mismatch_warning (line_ref i l) (actual_total l) (expected_total l).

(** The state one typed line leaves. *)
Definition line_state (i : nat) (l : InvoiceLine.t) (st : loop_state)
  : loop_state :=
  let ref := line_ref i l in
  mk_state
    (push_if
       (negb (existsb (String.eqb (InvoiceLine.vatCategory l))
                VAT_CATEGORY_CODES))
       (ref ++ " : Code catégorie TVA invalide (BT-151) — valeurs: S, Z, E, K, G, O")%string
    (push_if
       ((InvoiceLine.vatRate l <? 0)%float || isNaN (InvoiceLine.vatRate l))
       (ref ++ " : Taux TVA invalide (BT-152) — doit être >= 0")%string
    (push_if (isNaN (InvoiceLine.totalAmount l))
       (ref ++ " : Montant total ligne invalide (BT-131)")%string
    (push_if (isNaN (InvoiceLine.unitPrice l))
       (ref ++ " : Prix unitaire invalide (BT-146)")%string
    (push_if (blank_text (InvoiceLine.unitCode l))
       (ref ++ " : Code unité requis (BT-130) — ex: C62 (pièce), HUR (heure)")%string
    (push_if (isNaN (InvoiceLine.quantity l))
       (ref ++ " : Quantité invalide (BT-129)")%string
    (push_if (blank_text (InvoiceLine.description l))
       (ref ++ " : Désignation requise (BT-153)")%string
    (push_if (set_has (st_lineIds st) (JString (InvoiceLine.id l)))
       (ref ++ " : Identifiant de ligne dupliqué (BT-126)")%string
       (st_errors st)))))))))
    (push_if (exceeds_tolerance l) (line_warning i l) (st_warnings st))
    (st_lineIds st ++ [JString (InvoiceLine.id l)]).

(** The state the typed lines [ls], from index [i] on, leave. *)
Fixpoint lines_state (i : nat) (ls : list InvoiceLine.t) (st : loop_state)
  : loop_state :=
  match ls with
  | [] => st
  | l :: r => lines_state (S i) r (line_state i l st)
  end.

End ValidatorSpec.


Module DiscrepancySpec.

Import JsString JsNumber Js Validator ValidatorSpec DecimalSpec.

#[local] Open Scope Z_scope.

(** How a message names the line at index [i]: by its identifier, by
    its rank when it has none. *)
Definition line_name (i : nat) (l : InvoiceLine.t) : string :=
  if String.eqb (InvoiceLine.id l) "" then digits (Z.of_nat i + 1)
  else InvoiceLine.id l.

(** The warning on the line at index [i]: it cites the total, the
    product of the quantity by the unit price, each rounded, and their
    difference. *)
Definition discrepancy_warning (i : nat) (l : InvoiceLine.t) : string :=
  ("Ligne " ++ line_name i l)
    ++ " : Montant total (" ++ Number_toString (actual_total l)
    ++ ") ≠ quantité × prix unitaire ("
    ++ Number_toString (expected_total l)
    ++ ") — écart de "
    ++ toFixed2 (Math_abs (expected_total l - actual_total l)) ++ " €".

(** The difference of two exact values. *)
Definition exact_difference (a b : option (Z * Z)) : option (Z * Z) :=
  match a, b with
  | Some (n, d), Some (n', d') => Some (n * d' - n' * d, d * d')
  | _, _ => None
  end.

(** An exact value above 0.02 in magnitude. *)
Definition above_tolerance (a : option (Z * Z)) : bool :=
  match a with
  | Some (n, d) => d <? 50 * Z.abs n
  | None => false
  end.

(** The exact difference between the total of a line and the product
    of its quantity by its unit price. *)
Definition exact_gap (l : InvoiceLine.t) : option (Z * Z) :=
  exact_difference (exact_value (InvoiceLine.totalAmount l))
    (exact_product (exact_value (InvoiceLine.quantity l))
       (exact_value (InvoiceLine.unitPrice l))).

(** The difference, in cents, between the two sides each rounded to
    two decimals by [round]. *)
Definition decimal_gap (round : Z -> Z -> Z) (l : InvoiceLine.t)
  : option Z :=
  match rounded_cents round (exact_value (InvoiceLine.totalAmount l)),
        rounded_cents round
          (exact_product (exact_value (InvoiceLine.quantity l))
             (exact_value (InvoiceLine.unitPrice l))) with
  | Some a, Some e => Some (Z.abs (a - e))
  | _, _ => None
  end.

End DiscrepancySpec.

Module ParserSpec.

Import JsString Js Parser.



(** The root element in the parser's object. *)
Definition root_of (parsed : value) : value :=
  coalesce (prop parsed "CrossIndustryInvoice")
    (prop parsed "rsm:CrossIndustryInvoice").

(** The document has its root element and its two mandatory
    sections. *)
Definition has_mandatory_sections (parsed : value) : bool :=
  let root := root_of parsed in
  truthy root
  && truthy (coalesce (prop root "ExchangedDocument")
               (prop root "rsm:ExchangedDocument"))
  && truthy (coalesce (prop root "SupplyChainTradeTransaction")
               (prop root "rsm:SupplyChainTradeTransaction")).

(** The exception is one the code raises itself, with [throw new
    Error]. *)
Definition structural (A : Type) (r : result A) : bool :=
  match r with
  | Throw (Error _) => true
  | _ => false
  end.

End ParserSpec.

Module ServerSpec.

Import Js Server.

(** The arguments with the two defaults filled in. *)
Definition with_defaults (args : list (string * value))
  : list (string * value) :=
  let invoice :=
    if negb (truthy (prop (JObject args) "typeCode"))
    then assign "typeCode" (JString "380") args else args in
  if negb (truthy (prop (JObject invoice) "profile"))
  then assign "profile" (JString "EN_16931") invoice else invoice.

End ServerSpec.


Module GuidelineSpec.

Import JsString Js Parser ParserSpec Server.

#[local] Open Scope list_scope.





End GuidelineSpec.

Module Samples.

Import Js Generator.

Definition sample_line (id : string) (quantity unitPrice totalAmount
  vatRate : float) (vatCategory : string) : InvoiceLine.t :=
  InvoiceLine.mk id "Prestation" quantity "C62" unitPrice totalAmount
    vatRate vatCategory None None None.

Definition sample_address : TradePartyAddress.t :=
  TradePartyAddress.mk "1 rue de la Paix" None "Paris" "75001" "FR" None.

Definition sample_invoice (profile : string) (lines : list InvoiceLine.t)
  : Invoice.t :=
  Invoice.mk "F-2024-001" "380" "2024-01-15" None None "EUR" profile
    (TradeParty.mk "ACME SAS" (Some "12345678900017") None None sample_address None)
    (TradeParty.mk "CLIENT SA" None None None sample_address None)
    lines None None None None None.

(** A document with the two mandatory sections and the trade agreement,
    without the settlement section. *)
Definition document_without_settlement : Xml.node :=
  Xml.ele "rsm:CrossIndustryInvoice" []
    [Xml.ele "rsm:ExchangedDocument" []
       [leaf "ram:ID" "F-2024-001"; leaf "ram:TypeCode" "380"];
     Xml.ele "rsm:SupplyChainTradeTransaction" []
       [Xml.ele "ram:ApplicableHeaderTradeAgreement" []
          [Xml.ele "ram:SellerTradeParty" [] [leaf "ram:Name" "ACME SAS"];
           Xml.ele "ram:BuyerTradeParty" [] [leaf "ram:Name" "CLIENT SA"]]]].

(** A document with the two mandatory sections, the parties and the
    currency, and none of the optional sections. *)
Definition document_without_optional_sections : Xml.node :=
  Xml.ele "rsm:CrossIndustryInvoice" []
    [Xml.ele "rsm:ExchangedDocument" []
       [leaf "ram:ID" "F-2024-001"; leaf "ram:TypeCode" "380"];
     Xml.ele "rsm:SupplyChainTradeTransaction" []
       [Xml.ele "ram:ApplicableHeaderTradeAgreement" []
          [Xml.ele "ram:SellerTradeParty" [] [leaf "ram:Name" "ACME SAS"];
           Xml.ele "ram:BuyerTradeParty" [] [leaf "ram:Name" "CLIENT SA"]];
        Xml.ele "ram:ApplicableHeaderTradeSettlement" []
          [leaf "ram:InvoiceCurrencyCode" "EUR"]]].

Definition document_without_agreement : Xml.node :=
  Xml.ele "rsm:CrossIndustryInvoice" []
    [Xml.ele "rsm:ExchangedDocument" []
       [leaf "ram:ID" "F-2024-001"; leaf "ram:TypeCode" "380"];
     Xml.ele "rsm:SupplyChainTradeTransaction" []
       [Xml.ele "ram:ApplicableHeaderTradeSettlement" []
          [leaf "ram:InvoiceCurrencyCode" "EUR"]]].

End Samples.


Module GuidelineSamples.

Import JsString Js Generator Parser ParserSpec Server Samples GuidelineSpec.

#[local] Open Scope list_scope.





End GuidelineSamples.

(** What the further properties are stated with. *)

Module AmountSpec.

Import JsString JsNumber.

(** The numbers [toFixed] writes in fixed notation: the finite numbers
    below [10^21] in magnitude. *)
Definition fixed_range (x : float) : bool :=
  match Prim2SF x with
  | S754_zero _ => true
  | S754_finite _ m e =>
      let '(vn, vd) := frac_of m e in negb (10 ^ 21 * vd <=? vn)
  | _ => false
  end.

(** A decimal amount with two decimals: an optional minus sign, one or
    more digits, a point, two digits. *)
Definition amount_text (t : string) : bool :=
  let cs := match chars t with
            | c :: r => if Ascii.eqb c "-" then r else c :: r
            | [] => []
            end in
  let n := List.length cs in
  Nat.leb 4 n
  && forallb is_digit (firstn (n - 3) cs)
  && Ascii.eqb (nth (n - 3) cs "x"%char) "."
  && forallb is_digit (skipn (n - 2) cs).

(** A text of eight decimal digits. *)
Definition eight_digits (t : string) : bool :=
  Nat.eqb (List.length (chars t)) 8 && forallb is_digit (chars t).

End AmountSpec.


Module AmountValueSpec.

Import JsString JsNumber NumberSpec.

(** The number the digits of a text denote, read without its sign
    and its point: for an amount with two decimals, its number of
    cents in magnitude. *)
Definition amount_cents (t : string) : Z :=
  digits_value 0 (filter is_digit (chars t)).

End AmountValueSpec.

Module ParsedSpec.

Import JsString JsNumber Js Parser ParserSpec.

(** An optional text that is not the empty text. *)
Definition not_empty (o : option string) : Prop := o <> Some "".

(** The numeric fields of a line are numbers. *)
Definition numeric_line (l : InvoiceLine.t) : bool :=
  negb (isNaN (InvoiceLine.quantity l))
  && negb (isNaN (InvoiceLine.unitPrice l))
  && negb (isNaN (InvoiceLine.totalAmount l))
  && negb (isNaN (InvoiceLine.vatRate l)).

(** The trade transaction section in the parser's object. *)
Definition trx_of (parsed : value) : value :=
  let root := root_of parsed in
  coalesce (prop root "SupplyChainTradeTransaction")
    (prop root "rsm:SupplyChainTradeTransaction").

(** The line items of the section: none when the entry is missing, the
    entry itself when it is not an array. *)
Definition line_items (parsed : value) : list value :=
  match prop (trx_of parsed) "IncludedSupplyChainTradeLineItem" with
  | JUndefined | JNull => []
  | JArray l => l
  | x => [x]
  end.


(** The fields of a party the parser does not read. *)
Definition party_unread (p : TradeParty.t) : Prop :=
  TradeParty.contact p = None
  /\ TradePartyAddress.additionalStreet (TradeParty.address p) = None
  /\ TradePartyAddress.stateOrProvince (TradeParty.address p) = None.

End ParsedSpec.

Module ReportSpec.

Import JsString JsNumber Js Validator ValidatorSpec.

(** The warning on the seller's identification. *)
Definition seller_warning (inv : Invoice.t) : list string :=
  let given (o : option string) :=
    match o with
    | Some s => negb (String.eqb s "")
    | None => false
    end in
  if negb (given (TradeParty.vatNumber (Invoice.seller inv)))
     && negb (given (TradeParty.id (Invoice.seller inv)))
  then ["BT-31/BT-29 : Numéro de TVA ou identifiant vendeur recommandé pour le profil EN 16931"]
  else [].

(** The warnings on the totals of the lines [ls], the first of which
    has index [i]. *)
Fixpoint line_warnings (i : nat) (ls : list InvoiceLine.t) : list string :=
  match ls with
  | [] => []
  | l :: r =>
      (if exceeds_tolerance l then [line_warning i l] else [])
        ++ line_warnings (S i) r
  end.

(** The warning on the account number. *)
Definition iban_warning (inv : Invoice.t) : list string :=
  match Invoice.payment inv with
  | Some p =>
      match PaymentInfo.iban p with
      | Some iban =>
          if negb (String.eqb iban "") && negb (IBAN_RE (remove_ws iban))
          then ["BT-84 : Format IBAN potentiellement invalide"]
          else []
      | None => []
      end
  | None => []
  end.

(** The message on a line identifier that an earlier line has. *)
Definition duplicate_error (i : nat) (l : InvoiceLine.t) : string :=
  line_ref i l ++ " : Identifiant de ligne dupliqué (BT-126)".

End ReportSpec.

Module UsageSpec.

Import Usage.

(** The file does not date from the day [todayStr]. *)
Definition stale (f : file) (todayStr : string) : bool :=
  negb (String.eqb (date (readUsage f)) todayStr).

(** The file after [n] generations counted on the day [todayStr]. *)
Definition after_generations (n : nat) (f : file) (todayStr : string) : file :=
  Nat.iter n (fun f => incrementFreeUsage f todayStr) f.

End UsageSpec.

Module LicenseSpec.

Import JsString License.

(** A key [FTRX-<payload>.<signature>] whose parts are not empty and
    whose signature holds no point; the signature verifies on the
    payload text, the payload decodes, and its expiry date is not
    before [now] (an expiry date that is no date never is). *)
Definition acceptable (verify : string -> string -> option bool)
  (decode : string -> option LicensePayload) (date_of : string -> Date)
  (key : string) (now : Z) (payload : LicensePayload) : Prop :=
  exists p s : string,
    key = "FTRX-" ++ p ++ "." ++ s
    /\ p <> "" /\ s <> "" /\ includes s "." = false
    /\ verify p s = Some true
    /\ decode p = Some payload
    /\ match date_of (expiresAt payload) with
       | Some t => now <= t
       | None => True
       end.

End LicenseSpec.

Module MoreSamples.

Import Js Samples.

(** A request: the sample invoice with a property the model of the
    data does not know, without type code and without profile. *)
Definition request_without_defaults : list (string * value) :=
  match ToJs.invoice
          (sample_invoice "EN_16931" [sample_line "1" 10 150 1500 20 "S"])
  with
  | JObject ps =>
      ("source", JString "erp")
        :: filter (fun e => negb (String.eqb (fst e) "typeCode")
                            && negb (String.eqb (fst e) "profile")) ps
  | _ => []
  end.

(** A request with everything, and one more property. *)
Definition request_with_more : value :=
  match ToJs.invoice
          (sample_invoice "EN_16931" [sample_line "1" 10 150 1500 20 "S"])
  with
  | JObject ps => JObject (("source", JString "erp") :: rev ps)
  | v => v
  end.

(** The sample invoice with a second line that repeats the identifier
    of the first. *)
Definition invoice_with_duplicate : Invoice.t :=
  sample_invoice "EN_16931"
    [sample_line "1" 10 150 1500 20 "S"; sample_line "1" 1 20 20 20 "S"].

(** A licence runtime: the one signature that verifies, a payload, the
    date of its expiry. *)
Definition sample_verify (payloadB64 signatureB64 : string) : option bool :=
  Some (String.eqb payloadB64 "cGF5bG9hZA" && String.eqb signatureB64 "c2ln").

Definition sample_decode (payloadB64 : string)
  : option License.LicensePayload :=
  if String.eqb payloadB64 "cGF5bG9hZA" then
    Some (License.mk_payload "lic-1" "client@example.com" "pro"
            "2024-01-01" "2025-01-01")
  else None.

Definition sample_date_of (text : string) : License.Date :=
  if String.eqb text "2025-01-01" then Some 1735689600000 else None.

End MoreSamples.

(* ================================================================== *)
(** * Properties *)
(* ================================================================== *)

(** Case analysis on the computations a result was bound from. *)
Ltac bind_inversion H :=
  repeat match type of H with
  | Js.bind ?m _ = Js.Ok _ =>
      let E := fresh "E" in
      destruct m eqn:E; cbn [Js.bind] in H; [|discriminate H]
  end.

Module NumberFacts.

Import JsString JsNumber NumberSpec.
#[local] Open Scope list_scope.

Lemma digit_char_cases (d : Z) :
  0 <= d < 10 ->
  In (digit_char d)
     ["0"; "1"; "2"; "3"; "4"; "5"; "6"; "7"; "8"; "9"]%char
  /\ digit_val (digit_char d) = d.
Proof.
  intros H.
  assert (Hd : d = 0 \/ d = 1 \/ d = 2 \/ d = 3 \/ d = 4 \/ d = 5 \/ d = 6
               \/ d = 7 \/ d = 8 \/ d = 9) by lia.
  repeat (destruct Hd as [-> | Hd]; [split; [cbn; tauto|reflexivity]|]).
  subst d. split; [cbn; tauto|reflexivity].
Qed.

Lemma digits_aux_digits (fuel : nat) :
  forall n acc, 0 <= n -> Forall digit acc ->
  Forall digit (digits_aux fuel n acc).
Proof.
  induction fuel as [|f IH]; intros n acc Hn Hacc; cbn [digits_aux];
    [exact Hacc|].
  assert (Hd : digit (digit_char (n mod 10))).
  { apply digit_char_cases. apply Z.mod_pos_bound. lia. }
  destruct (n <? 10); [now constructor|].
  apply IH; [apply Z.div_pos; lia|now constructor].
Qed.

Lemma digit_list_digits (n : Z) : 0 <= n -> Forall digit (digit_list n).
Proof. intros H. now apply digits_aux_digits. Qed.

Lemma digits_value_app (acc : Z) (l1 l2 : list ascii) :
  digits_value acc (l1 ++ l2) = digits_value (digits_value acc l1) l2.
Proof. unfold digits_value. apply fold_left_app. Qed.

Lemma digits_value_shift (l : list ascii) :
  forall acc,
  digits_value acc l = acc * 10 ^ Z.of_nat (List.length l) + digits_value 0 l.
Proof.
  induction l as [|c l IH]; intros acc.
  - cbn. lia.
  - change (digits_value acc (c :: l))
      with (digits_value (10 * acc + digit_val c) l).
    change (digits_value 0 (c :: l))
      with (digits_value (10 * 0 + digit_val c) l).
    rewrite (IH (10 * acc + digit_val c)), (IH (10 * 0 + digit_val c)).
    cbn [List.length]. rewrite Nat2Z.inj_succ, Z.pow_succ_r by lia. ring.
Qed.

Lemma digits_aux_value (fuel : nat) :
  forall n acc, 0 <= n < 2 ^ Z.of_nat fuel ->
  digits_value 0 (digits_aux fuel n acc)
  = n * 10 ^ Z.of_nat (List.length acc) + digits_value 0 acc.
Proof.
  induction fuel as [|f IH]; intros n acc Hn; cbn [digits_aux].
  - cbn in Hn. assert (n = 0) by lia. subst n. lia.
  - assert (Hmod : 0 <= n mod 10 < 10) by (apply Z.mod_pos_bound; lia).
    destruct (Z.ltb_spec n 10) as [Hlt|Hge].
    + change (digits_value 0 (digit_char (n mod 10) :: acc))
        with (digits_value (10 * 0 + digit_val (digit_char (n mod 10))) acc).
      rewrite (proj2 (digit_char_cases _ Hmod)), digits_value_shift.
      rewrite Z.mod_small by lia. lia.
    + rewrite IH.
      * change (digits_value 0 (digit_char (n mod 10) :: acc))
          with (digits_value (10 * 0 + digit_val (digit_char (n mod 10)))
                  acc).
        rewrite (proj2 (digit_char_cases _ Hmod)), digits_value_shift.
        cbn [List.length]. rewrite Nat2Z.inj_succ, Z.pow_succ_r by lia.
        pose proof (Z.div_mod n 10 ltac:(lia)) as Hdm. nia.
      * rewrite Nat2Z.inj_succ, Z.pow_succ_r in Hn by lia.
        split; [apply Z.div_pos; lia|].
        apply Z.div_lt_upper_bound; lia.
Qed.

Lemma digit_list_value (n : Z) : 0 <= n -> digits_value 0 (digit_list n) = n.
Proof.
  intros Hn. unfold digit_list. rewrite digits_aux_value.
  - cbn. lia.
  - split; [exact Hn|]. rewrite Nat2Z.inj_succ, Z2Nat.id by apply Z.log2_nonneg.
    destruct (Z.eq_dec n 0) as [->|Hne]; [cbn; lia|].
    apply Z.log2_spec. lia.
Qed.

Lemma digit_list_nonempty (n : Z) : digit_list n <> [].
Proof.
  unfold digit_list. generalize (Z.to_nat (Z.log2 n)) as f. intros f.
  cbn [digits_aux]. destruct (n <? 10); [discriminate|].
  assert (H : forall f q a, a <> [] -> digits_aux f q a <> []).
  { clear. induction f as [|f IHf]; intros q a Ha; cbn [digits_aux];
      [exact Ha|].
    destruct (q <? 10); [discriminate|]. apply IHf. discriminate. }
  apply H. discriminate.
Qed.

Lemma digits_value_zeros (j : nat) (acc : Z) :
  digits_value acc (zero_list j) = acc * 10 ^ Z.of_nat j.
Proof.
  revert acc. induction j as [|j IH]; intros acc.
  - cbn. lia.
  - change (digits_value acc (zero_list (S j)))
      with (digits_value (10 * acc + digit_val "0") (zero_list j)).
    rewrite IH, Nat2Z.inj_succ, Z.pow_succ_r by lia.
    change (digit_val "0") with 0. ring.
Qed.

Lemma zero_list_digits (j : nat) : Forall digit (zero_list j).
Proof.
  induction j; constructor; [cbn; tauto|assumption].
Qed.

Lemma zero_list_length (j : nat) : List.length (zero_list j) = j.
Proof. apply repeat_length. Qed.

(** *** Reading digits *)





(** *** Trailing zeros *)



Lemma Forall_firstn {A : Type} (P : A -> Prop) (l : list A) :
  forall n, Forall P l -> Forall P (firstn n l).
Proof.
  induction l as [|a l IH]; intros [|n] H; cbn [firstn]; try constructor.
  - now inversion H.
  - apply IH. now inversion H.
Qed.

Lemma Forall_skipn {A : Type} (P : A -> Prop) (l : list A) :
  forall n, Forall P l -> Forall P (skipn n l).
Proof.
  induction l as [|a l IH]; intros [|n] H; cbn [skipn]; try assumption.
  apply IH. now inversion H.
Qed.

(** *** A rendered decimal is read back *)

















End NumberFacts.

Module CalculatorFacts.

Import JsNumber Calculator NumberSpec NumberFacts CalculatorSpec.

#[local] Open Scope list_scope.

Lemma first_occurrences_in (l : list string) (k : string) :
  In k (first_occurrences l) <-> In k l.
Proof.
  induction l as [|a l IH]; simpl; [tauto|].
  rewrite filter_In, IH.
  destruct (String.eqb_spec k a) as [->|Hne]; simpl; intuition congruence.
Qed.

Lemma existsb_eqb_in (k : string) (l : list string) :
  existsb (String.eqb k) l = true <-> In k l.
Proof.
  rewrite existsb_exists. split.
  - intros [x [Hin Heq]]. apply String.eqb_eq in Heq. now subst.
  - intros Hin. exists k. split; [exact Hin|apply String.eqb_refl].
Qed.

Lemma first_occurrences_has (k : string) (l : list string) :
  existsb (String.eqb k) (first_occurrences l) = existsb (String.eqb k) l.
Proof.
  apply eq_true_iff_eq. rewrite !existsb_eqb_in. apply first_occurrences_in.
Qed.

Lemma filter_not_in (p : string -> bool) (l : list string) :
  (forall x, In x l -> p x = true) -> filter p l = l.
Proof.
  induction l as [|a l IH]; simpl; intros H; [reflexivity|].
  rewrite (H a) by auto. f_equal. apply IH. auto.
Qed.

Lemma first_occurrences_snoc (l : list string) (k : string) :
  first_occurrences (l ++ [k]) =
  if existsb (String.eqb k) l then first_occurrences l
  else first_occurrences l ++ [k].
Proof.
  induction l as [|a l IH]; simpl; [reflexivity|].
  rewrite IH. destruct (String.eqb_spec k a) as [->|Hne]; simpl.
  - destruct (existsb (String.eqb a) l); [reflexivity|].
    rewrite filter_app. simpl. rewrite String.eqb_refl. simpl.
    now rewrite app_nil_r.
  - destruct (existsb (String.eqb k) l); [reflexivity|].
    rewrite filter_app. simpl.
    destruct (String.eqb_spec k a); [congruence|reflexivity].
Qed.

Lemma map_has_keys (k : string) (m : vat_map) :
  map_has k m = existsb (String.eqb k) (map fst m).
Proof.
  induction m as [|[k' v] m IH]; simpl; [reflexivity|].
  rewrite IH. now rewrite (String.eqb_sym k' k).
Qed.

Lemma map_get_none (k : string) (m : vat_map) :
  map_has k m = false -> map_get k m = None.
Proof.
  induction m as [|[k' v] m IH]; simpl; [reflexivity|].
  destruct (String.eqb k' k); simpl; [discriminate|exact IH].
Qed.

Lemma map_set_keys (k : string) (v : VatSummary.t) (m : vat_map) :
  map_has k m = false -> map_set k v m = m ++ [(k, v)].
Proof.
  induction m as [|[k' w] m IH]; simpl; [reflexivity|].
  destruct (String.eqb k' k); simpl; [discriminate|].
  intros H. now rewrite IH.
Qed.

Lemma map_add_taxable_keys (k : string) (a : float) (m : vat_map) :
  map fst (map_add_taxable k a m) = map fst m.
Proof.
  induction m as [|[k' w] m IH]; simpl; [reflexivity|].
  destruct (String.eqb k' k); simpl; [reflexivity|now rewrite IH].
Qed.

Lemma map_get_add_taxable (k k' : string) (a : float) (m : vat_map) :
  map_get k (map_add_taxable k' a m) =
  if String.eqb k k' then
    option_map
      (fun w => VatSummary.mk (VatSummary.categoryCode w) (VatSummary.rate w)
                  (VatSummary.taxableAmount w + a) (VatSummary.taxAmount w))
      (map_get k m)
  else map_get k m.
Proof.
  induction m as [|[k0 w] m IH]; simpl.
  - now destruct (String.eqb k k').
  - destruct (String.eqb_spec k0 k') as [->|Hne]; simpl.
    + rewrite (String.eqb_sym k' k).
      destruct (String.eqb_spec k k') as [->|Hne']; simpl; reflexivity.
    + destruct (String.eqb_spec k0 k) as [->|Hne'].
      * destruct (String.eqb_spec k k'); [congruence|reflexivity].
      * exact IH.
Qed.

Lemma map_get_app (k : string) (m m' : vat_map) :
  map_get k (m ++ m') =
  match map_get k m with
  | Some v => Some v
  | None => map_get k m'
  end.
Proof.
  induction m as [|[k0 w] m IH]; simpl; [reflexivity|].
  destruct (String.eqb k0 k); [reflexivity|exact IH].
Qed.

Lemma sum_rounded_snoc (ls : list InvoiceLine.t) (l : InvoiceLine.t) :
  sum_rounded (ls ++ [l]) =
  (sum_rounded ls + round2 (InvoiceLine.totalAmount l))%float.
Proof. unfold sum_rounded. now rewrite fold_left_app. Qed.

Lemma group_lines_snoc (k : string) (ls : list InvoiceLine.t)
  (l : InvoiceLine.t) :
  group_lines k (ls ++ [l]) =
  if String.eqb (line_key l) k then group_lines k ls ++ [l]
  else group_lines k ls.
Proof.
  unfold group_lines. rewrite filter_app. simpl.
  destruct (String.eqb (line_key l) k); [reflexivity|apply app_nil_r].
Qed.

Lemma group_lines_nil (k : string) (ls : list InvoiceLine.t) :
  group_lines k ls = [] <-> existsb (String.eqb k) (map line_key ls) = false.
Proof.
  induction ls as [|l ls IH]; simpl; [tauto|].
  rewrite (String.eqb_sym k).
  destruct (String.eqb (line_key l) k); simpl; [|exact IH].
  split; discriminate.
Qed.

Lemma after_snoc (ls : list InvoiceLine.t) (l : InvoiceLine.t) :
  after (ls ++ [l]) = add_line (after ls) l.
Proof. unfold after. now rewrite fold_left_app. Qed.

(** The invariant of the first loop. *)
Lemma after_spec (ls : list InvoiceLine.t) :
  map fst (snd (after ls)) = first_occurrences (map line_key ls)
  /\ forall k, map_get k (snd (after ls)) = open_group k ls.
Proof.
  induction ls as [|l ls [IHk IHg]] using rev_ind.
  - split; [reflexivity|]. intros k. reflexivity.
  - rewrite after_snoc. destruct (after ls) as [total m]. simpl in IHk, IHg.
    unfold add_line. simpl snd.
    rewrite map_app. change (map line_key [l]) with [line_key l].
    rewrite first_occurrences_snoc.
    rewrite <- first_occurrences_has, <- IHk, <- map_has_keys.
    destruct (map_has (line_key l) m) eqn:Hhas; simpl negb; cbv iota.
    + split; [now rewrite map_add_taxable_keys|].
      intros k. rewrite map_get_add_taxable, IHg.
      unfold open_group. rewrite group_lines_snoc.
      rewrite (String.eqb_sym k).
      destruct (String.eqb_spec (line_key l) k) as [<-|Hne]; [|reflexivity].
      destruct (group_lines (line_key l) ls) as [|l0 g] eqn:Hg.
      * apply group_lines_nil in Hg.
        rewrite map_has_keys, IHk in Hhas.
        rewrite first_occurrences_has in Hhas. congruence.
      * simpl. change (l0 :: g ++ [l]) with ((l0 :: g) ++ [l]).
        now rewrite sum_rounded_snoc.
    + rewrite (map_set_keys _ _ _ Hhas).
      split.
      * now rewrite map_add_taxable_keys, map_app.
      * intros k. rewrite map_get_add_taxable, map_get_app, IHg.
        unfold open_group. rewrite group_lines_snoc.
        rewrite (String.eqb_sym k).
        destruct (String.eqb_spec (line_key l) k) as [<-|Hne].
        -- assert (Hg : group_lines (line_key l) ls = []).
           { apply group_lines_nil.
             rewrite map_has_keys, IHk, first_occurrences_has in Hhas.
             exact Hhas. }
           rewrite Hg. simpl. rewrite String.eqb_refl. simpl.
           unfold sum_rounded. simpl. reflexivity.
        -- destruct (group_lines k ls); [|reflexivity].
           simpl. destruct (String.eqb_spec (line_key l) k); [congruence|].
           reflexivity.
Qed.

Lemma first_occurrences_NoDup (l : list string) :
  NoDup (first_occurrences l).
Proof.
  induction l as [|k l IH]; simpl; constructor.
  - rewrite filter_In. intros [_ H]. now rewrite String.eqb_refl in H.
  - now apply NoDup_filter.
Qed.

Lemma map_get_in (k : string) (w : VatSummary.t) (m : vat_map) :
  NoDup (map fst m) -> In (k, w) m -> map_get k m = Some w.
Proof.
  induction m as [|[k0 w0] m IH]; simpl; intros Hnd Hin; [contradiction|].
  inversion Hnd as [|? ? Hnotin Hnd']; subst.
  destruct Hin as [Heq|Hin].
  - inversion Heq; subst. now rewrite String.eqb_refl.
  - destruct (String.eqb_spec k0 k) as [->|Hne]; [|now apply IH].
    exfalso. apply Hnotin. now apply (in_map fst) in Hin.
Qed.

Lemma map_get_some_in (k : string) (w : VatSummary.t) (m : vat_map) :
  map_get k m = Some w -> In (k, w) m.
Proof.
  induction m as [|[k0 w0] m IH]; simpl; [discriminate|].
  destruct (String.eqb_spec k0 k) as [->|Hne].
  - intros H. inversion H. now left.
  - intros H. right. now apply IH.
Qed.

Lemma group_lines_head (k : string) (ls : list InvoiceLine.t)
  (l : InvoiceLine.t) (g : list InvoiceLine.t) :
  group_lines k ls = l :: g -> line_key l = k /\ In l ls.
Proof.
  intros H. assert (Hin : In l (group_lines k ls)) by (rewrite H; now left).
  apply filter_In in Hin. destruct Hin as [Hin Hk].
  apply String.eqb_eq in Hk. now split.
Qed.


(** The entries of the map after the first loop, one by one. *)
Lemma after_entry (ls : list InvoiceLine.t) (k : string) (w : VatSummary.t) :
  In (k, w) (snd (after ls)) <-> open_group k ls = Some w.
Proof.
  destruct (after_spec ls) as [Hk Hg]. rewrite <- Hg. split.
  - apply map_get_in. rewrite Hk. apply first_occurrences_NoDup.
  - apply map_get_some_in.
Qed.

Lemma open_group_key (ls : list InvoiceLine.t) (k : string)
  (w : VatSummary.t) :
  open_group k ls = Some w -> summary_key w = k.
Proof.
  unfold open_group.
  destruct (group_lines k ls) as [|l g] eqn:Hg; [discriminate|].
  intros H. inversion H. unfold summary_key. simpl.
  now destruct (group_lines_head _ _ _ _ Hg).
Qed.

Lemma summary_key_close_group (w : VatSummary.t) :
  summary_key (close_group w) = summary_key w.
Proof. reflexivity. Qed.

Lemma vatSummaries_after (invoice : Invoice.t) :
  InvoiceTotals.vatSummaries (calculateTotals invoice) =
  map close_group (map snd (snd (after (Invoice.lines invoice)))).
Proof.
  unfold calculateTotals, after.
  destruct (fold_left add_line (Invoice.lines invoice) (0%float, []))
    as [total m].
  simpl. unfold map_values. now rewrite !map_map.
Qed.


(** Usual rates, fractional ones included, are declared pairs. *)
Example declared_pair_samples :
  forallb (fun r => declared_pair "S" r)
    [20; 5.5; 2.1; 0; 19.6; 0.1; 1e21; 1e-7]%float = true.
Proof. vm_compute. reflexivity. Qed.


End CalculatorFacts.


Module RoundingFacts.

Import JsNumber CalculatorSpec DecimalSpec.

#[local] Open Scope Z_scope.
#[local] Open Scope list_scope.







End RoundingFacts.

Module TaxFacts.

Import JsNumber Calculator CalculatorSpec CalculatorFacts.
Import DecimalSpec RoundingFacts TaxSpec.

#[local] Open Scope Z_scope.
#[local] Open Scope list_scope.


End TaxFacts.

Module ValidatorFacts.
Import JsString JsNumber Js Validator ValidatorSpec.
#[local] Open Scope list_scope.

Lemma validateInvoice_valid (v : value) (r : ValidationResult.t) :
  validateInvoice v = Ok r ->
  ValidationResult.valid r = Nat.eqb (List.length (ValidationResult.errors r)) 0.
Proof.
  unfold validateInvoice. intros H.
  bind_inversion H.
  inversion H. reflexivity.
Qed.

(** *** The error list only grows *)

Lemma push_if_keeps (c : bool) (m x : string) (l : list string) :
  In x l -> In x (push_if c m l).
Proof.
  unfold push_if. destruct c; [|trivial]. intros H. apply in_or_app. now left.
Qed.

Lemma push_if_pushed (m : string) (l : list string) :
  In m (push_if true m l).
Proof. unfold push_if. apply in_or_app. right. now left. Qed.

Lemma validate_line_keeps (i : nat) (line : value) (st st' : loop_state)
  (x : string) :
  validate_line i line st = Ok st' ->
  In x (st_errors st) -> In x (st_errors st').
Proof.
  unfold validate_line. intros H Hx. bind_inversion H.
  inversion H; subst st'. cbn [st_errors].
  repeat apply push_if_keeps. exact Hx.
Qed.

Lemma validate_lines_keeps (items : list value) :
  forall (i : nat) (st st' : loop_state) (x : string),
  validate_lines i items st = Ok st' ->
  In x (st_errors st) -> In x (st_errors st').
Proof.
  induction items as [|line items IH]; intros i st st' x H Hx; cbn in H.
  - inversion H; now subst.
  - bind_inversion H. apply (IH _ _ _ _ H).
    now apply (validate_line_keeps _ _ _ _ _ E).
Qed.

(** An error pushed by the header checks is in the result. *)
Lemma header_error_kept (v : value) (r : ValidationResult.t) :
  validateInvoice v = Ok r ->
  (blank (prop v "number") = Ok true ->
   In "BT-1 : Numéro de facture requis"%string (ValidationResult.errors r))
  /\ (has_length (prop v "lines") = false ->
      In "Au moins une ligne de facture est requise"%string
        (ValidationResult.errors r)).
Proof.
  unfold validateInvoice. intros H.
  destruct (get v "number") as [number|] eqn:Hget; [|discriminate H].
  unfold get in Hget. destruct (nullish v); [discriminate|].
  inversion Hget; subst number; clear Hget. cbn [Js.bind] in H.
  destruct (blank (prop v "number")) as [b|] eqn:Hblank; [|discriminate H].
  cbn [Js.bind] in H.
  bind_inversion H. inversion H; subst r; clear H.
  cbn [ValidationResult.errors].
  match goal with
  | Hst : (if negb (has_length _) then _ else _) = Ok ?st |- _ =>
      destruct (has_length (prop v "lines")) eqn:Hlen; cbn [negb] in Hst;
      [ bind_inversion Hst | inversion Hst; subst st; clear Hst ]
  end.
  - split; [|discriminate]. intros Hb. inversion Hb; subst b.
    match goal with
    | Hl : validate_lines _ _ _ = Ok _ |- _ =>
        apply (validate_lines_keeps _ _ _ _ _ Hl)
    end.
    cbn [st_errors]. repeat first [apply push_if_pushed | apply push_if_keeps].
  - cbn [st_errors]. split.
    + intros Hb. inversion Hb; subst b. apply in_or_app. left.
      repeat first [apply push_if_pushed | apply push_if_keeps].
    + intros _. apply in_or_app. right. now left.
Qed.

(** *** No exception on well-typed values *)

Lemma blank_ok (x : value) :
  absent_or_string x = true -> exists b, blank x = Ok b.
Proof. destruct x; try discriminate; intros _; cbn; eauto. Qed.

Lemma opt_match_ok (re : string -> bool) (x : value) :
  absent_or_string x = true -> exists b, opt_match re x = Ok b.
Proof. destruct x; try discriminate; intros _; cbn; eauto. Qed.

Lemma guarded_match_ok (re : string -> bool) (x : value) :
  falsy_or_string x = true ->
  exists b, (if truthy x then call_match re x else Ok true) = Ok b.
Proof.
  destruct x; cbn; intros H; try discriminate;
    try (rewrite negb_true_iff in H; rewrite H); eauto.
  destruct (negb (s =? "")%string); eauto.
Qed.

Lemma guarded_remove_ws_ok (x : value) (w : list string) :
  falsy_or_string x = true ->
  exists w',
    (if truthy x then
       stripped <- call_remove_ws x ;;
       Ok (push_if (negb (IBAN_RE stripped))
             "BT-84 : Format IBAN potentiellement invalide"%string w)
     else Ok w) = Ok w'.
Proof.
  destruct x; cbn; intros H; try discriminate;
    try (rewrite negb_true_iff in H; rewrite H); eauto.
  destruct (negb (s =? "")%string); eauto.
Qed.

Lemma ToString_primitive (x : value) :
  primitive x = true -> exists s, ToString x = Ok s.
Proof. destruct x; try discriminate; intros _; cbn; eauto. Qed.

Lemma ToNumber_primitive (x : value) :
  primitive x = true -> exists n, ToNumber x = Ok n.
Proof. destruct x; try discriminate; intros _; cbn; eauto. Qed.

Ltac split_andb H :=
  repeat (apply andb_prop in H;
          let H' := fresh "Hwt" in destruct H as [H H']).

Ltac use_ok lem :=
  let x := fresh "x" in
  let Hx := fresh "Hx" in
  destruct lem as [x Hx]; [assumption|]; rewrite Hx; clear Hx;
  cbn [Js.bind].

Lemma validate_line_ok (i : nat) (line : value) (st : loop_state) :
  well_typed_line line = true -> exists st', validate_line i line st = Ok st'.
Proof.
  unfold well_typed_line. intros H. split_andb H.
  unfold validate_line, get. cbv zeta.
  rewrite negb_true_iff in H. rewrite H. cbn [Js.bind].
  assert (Hshown : exists s,
    (if truthy (prop line "id") then ToString (prop line "id")
     else Ok (digits (Z.of_nat i + 1))) = Ok s).
  { destruct (truthy (prop line "id")); [|eauto].
    apply ToString_primitive. assumption. }
  destruct Hshown as [s ->]. cbn [Js.bind].
  use_ok (blank_ok (prop line "description")).
  use_ok (blank_ok (prop line "unitCode")).
  use_ok (ToNumber_primitive (prop line "quantity")).
  use_ok (ToNumber_primitive (prop line "unitPrice")).
  use_ok (ToNumber_primitive (prop line "totalAmount")).
  eauto.
Qed.

Lemma validate_lines_ok (items : list value) :
  forallb well_typed_line items = true ->
  forall (i : nat) (st : loop_state),
  exists st', validate_lines i items st = Ok st'.
Proof.
  induction items as [|line items IH]; cbn [forallb validate_lines];
    intros H i st; [eauto|].
  apply andb_prop in H. destruct H as [Hl Hr].
  destruct (validate_line_ok i line st Hl) as [st1 ->]. cbn [Js.bind].
  apply IH. exact Hr.
Qed.

Lemma well_typed_char (c : string) : well_typed_line (JString c) = true.
Proof. reflexivity. Qed.

Lemma loop_ok (lines : value) (st : loop_state) :
  well_typed_lines lines = true ->
  exists st',
    (items <- loop_items lines ;; validate_lines 0 items st) = Ok st'.
Proof.
  destruct lines; cbn [well_typed_lines loop_items Js.bind validate_lines];
    intros H; try discriminate; eauto.
  - apply validate_lines_ok. apply forallb_forall. intros x Hx.
    apply in_map_iff in Hx. destruct Hx as [c [<- _]]. apply well_typed_char.
  - now apply validate_lines_ok.
Qed.

(** The validator returns on every well-typed value. *)
Lemma validateInvoice_total (v : value) :
  well_typed_invoice v = true -> exists r, validateInvoice v = Ok r.
Proof.
  unfold well_typed_invoice. cbv zeta. intros H. split_andb H.
  unfold validateInvoice, get. cbv zeta.
  rewrite negb_true_iff in H. rewrite H. cbn [Js.bind].
  use_ok (blank_ok (prop v "number")).
  use_ok (opt_match_ok DATE_RE (prop v "date")).
  use_ok (opt_match_ok CURRENCY_RE (prop v "currency")).
  use_ok (guarded_match_ok DATE_RE (prop v "dueDate")).
  use_ok (guarded_match_ok DATE_RE (prop v "deliveryDate")).
  use_ok (blank_ok (oget (prop v "seller") "name")).
  use_ok (blank_ok (oget (oget (prop v "seller") "address") "street")).
  use_ok (blank_ok (oget (oget (prop v "seller") "address") "city")).
  use_ok (blank_ok (oget (oget (prop v "seller") "address") "postalCode")).
  use_ok (opt_match_ok COUNTRY_RE
            (oget (oget (prop v "seller") "address") "countryCode")).
  use_ok (blank_ok (oget (prop v "buyer") "name")).
  use_ok (opt_match_ok COUNTRY_RE
            (oget (oget (prop v "buyer") "address") "countryCode")).
  match goal with
  | |- context [if negb (has_length ?l) then Ok ?a else ?b] =>
      assert (Hst : exists st,
        (if negb (has_length l) then Ok a else b) = Ok st)
  end.
  { destruct (negb (has_length (prop v "lines"))); [eauto|].
    now apply loop_ok. }
  destruct Hst as [st ->]. cbn [Js.bind].
  match goal with
  | |- context [if truthy ?x then ?a else Ok ?w] =>
      destruct (guarded_remove_ws_ok x w) as [w' ->]; [assumption|]
  end.
  cbn [Js.bind]. eauto.
Qed.

(** *** The validator on typed invoices *)

Lemma push_if_nil (c : bool) (m : string) (l : list string) :
  push_if c m l = [] <-> c = false /\ l = [].
Proof.
  unfold push_if. destruct c.
  - split; [|intros [H _]; discriminate].
    intros H. now apply app_eq_nil in H.
  - tauto.
Qed.

Lemma set_has_strings (seen : list string) (s : string) :
  set_has (map JString seen) (JString s) = existsb (String.eqb s) seen.
Proof.
  unfold set_has. induction seen as [|a seen IH]; [reflexivity|].
  cbn. now rewrite <- IH.
Qed.

Lemma validate_typed_line (i : nat) (l : InvoiceLine.t) (st : loop_state) :
  validate_line i (ToJs.line l) st = Ok (line_state i l st).
Proof.
  unfold validate_line, line_state, line_ref, blank_text. cbn.
  rewrite !negb_involutive.
  destruct (InvoiceLine.id l =? "")%string; reflexivity.
Qed.

Lemma validate_typed_lines (ls : list InvoiceLine.t) :
  forall (i : nat) (st : loop_state),
  validate_lines i (map ToJs.line ls) st = Ok (lines_state i ls st).
Proof.
  induction ls as [|l ls IH]; intros i st; cbn [map validate_lines lines_state];
    [reflexivity|].
  rewrite validate_typed_line. cbn [Js.bind]. apply IH.
Qed.

Lemma line_state_no_error (i : nat) (l : InvoiceLine.t) (st : loop_state)
  (seen : list string) :
  st_lineIds st = map JString seen ->
  st_errors (line_state i l st) = [] <->
  st_errors st = []
  /\ existsb (String.eqb (InvoiceLine.id l)) seen = false
  /\ line_rules l = true.
Proof.
  intros Hids. unfold line_state, line_rules. cbn [st_errors].
  rewrite !push_if_nil, Hids, set_has_strings.
  rewrite !andb_true_iff, !negb_true_iff, !negb_false_iff.
  tauto.
Qed.

Lemma line_state_ids (i : nat) (l : InvoiceLine.t) (st : loop_state)
  (seen : list string) :
  st_lineIds st = map JString seen ->
  st_lineIds (line_state i l st) = map JString (seen ++ [InvoiceLine.id l]).
Proof. intros H. cbn. now rewrite H, map_app. Qed.

Lemma lines_state_no_error (ls : list InvoiceLine.t) :
  forall (i : nat) (st : loop_state) (seen : list string),
  st_lineIds st = map JString seen ->
  st_errors (lines_state i ls st) = [] <->
  st_errors st = [] /\ lines_rules seen ls = true.
Proof.
  induction ls as [|l ls IH]; intros i st seen Hids;
    cbn [lines_state lines_rules]; [tauto|].
  rewrite (IH _ _ _ (line_state_ids i l st seen Hids)).
  rewrite (line_state_no_error i l st seen Hids).
  rewrite !andb_true_iff, negb_true_iff. tauto.
Qed.

Lemma lines_state_keeps_warning (ls : list InvoiceLine.t) :
  forall (i : nat) (st : loop_state) (x : string),
  In x (st_warnings st) -> In x (st_warnings (lines_state i ls st)).
Proof.
  induction ls as [|l ls IH]; intros i st x Hx; cbn [lines_state];
    [exact Hx|].
  apply IH. unfold line_state. cbn [st_warnings]. now apply push_if_keeps.
Qed.

Lemma lines_state_warns (ls : list InvoiceLine.t) :
  forall (i j : nat) (st : loop_state) (l : InvoiceLine.t),
  nth_error ls j = Some l -> exceeds_tolerance l = true ->
  In (line_warning (i + j) l) (st_warnings (lines_state i ls st)).
Proof.
  induction ls as [|l0 ls IH]; intros i j st l Hnth Hex.
  - destruct j; discriminate.
  - destruct j as [|j]; cbn in Hnth.
    + inversion Hnth; subst l0. cbn [lines_state].
      apply lines_state_keeps_warning. unfold line_state.
      cbn [st_warnings]. rewrite Hex, Nat.add_0_r.
      apply push_if_pushed.
    + cbn [lines_state]. rewrite <- Nat.add_succ_comm. now apply IH.
Qed.

Lemma typed_line_well_typed (l : InvoiceLine.t) :
  well_typed_line (ToJs.line l) = true.
Proof. reflexivity. Qed.

Lemma typed_invoice_well_typed (inv : Invoice.t) :
  well_typed_invoice (ToJs.invoice inv) = true.
Proof.
  assert (Hl : forallb well_typed_line (map ToJs.line (Invoice.lines inv))
               = true).
  { apply forallb_forall. intros x Hx. apply in_map_iff in Hx.
    destruct Hx as [l [<- _]]. apply typed_line_well_typed. }
  unfold well_typed_invoice, ToJs.invoice.
  destruct (Invoice.dueDate inv), (Invoice.deliveryDate inv),
    (Invoice.payment inv) as [[means [iban|] bic ref terms]|];
    cbn; rewrite Hl; reflexivity.
Qed.

Lemma guarded_date (o : option string) :
  (if truthy (ToJs.opt o) then call_match DATE_RE (ToJs.opt o) else Ok true)
  = Ok (date_ok o).
Proof.
  destruct o as [s|]; [|reflexivity]. cbn.
  destruct (s =? "")%string; reflexivity.
Qed.

Lemma guarded_remove_ws_keeps (x : value) (w w' : list string) (m : string) :
  (if truthy x then
     stripped <- call_remove_ws x ;;
     Ok (push_if (negb (IBAN_RE stripped))
           "BT-84 : Format IBAN potentiellement invalide"%string w)
   else Ok w) = Ok w' ->
  In m w -> In m w'.
Proof.
  destruct (truthy x); intros H Hm.
  - bind_inversion H. inversion H; subst w'. now apply push_if_keeps.
  - inversion H; now subst w'.
Qed.

(** The result on a typed invoice: the validity is the conjunction of
    the mandatory rules, and each line beyond the tolerance has its
    warning. *)
Lemma validate_typed_invoice (inv : Invoice.t) :
  exists r,
    validateInvoice (ToJs.invoice inv) = Ok r
    /\ ValidationResult.valid r = mandatory_rules inv
    /\ forall i l,
         nth_error (Invoice.lines inv) i = Some l ->
         exceeds_tolerance l = true ->
         In (line_warning i l) (ValidationResult.warnings r).
Proof.
  destruct (validateInvoice_total _ (typed_invoice_well_typed inv))
    as [r Hr].
  exists r. split; [exact Hr|].
  unfold validateInvoice in Hr. cbn in Hr.
  rewrite !guarded_date in Hr. cbn [Js.bind] in Hr.
  rewrite validate_typed_lines, length_map, !negb_involutive in Hr.
  destruct (Nat.eqb (List.length (Invoice.lines inv)) 0) eqn:Hlen;
    cbn [Js.bind st_errors st_warnings] in Hr;
    bind_inversion Hr; inversion Hr; subst r; clear Hr;
    cbn [ValidationResult.valid ValidationResult.warnings].
  - split.
    + unfold mandatory_rules. rewrite Hlen. cbn [negb].
      rewrite andb_false_r. cbn [andb].
      apply Nat.eqb_neq. rewrite length_app. cbn. lia.
    + intros i l Hnth. apply Nat.eqb_eq in Hlen.
      apply length_zero_iff_nil in Hlen. rewrite Hlen in Hnth.
      destruct i; discriminate.
  - split.
    + apply eq_true_iff_eq.
      rewrite Nat.eqb_eq, length_zero_iff_nil.
      rewrite lines_state_no_error with (seen := []) by reflexivity.
      cbn [st_errors]. rewrite !push_if_nil.
      unfold mandatory_rules, blank_text, INVOICE_TYPE_CODES.
      cbn [existsb]. rewrite Hlen.
      rewrite !andb_true_iff, !negb_true_iff, !negb_false_iff.
      tauto.
    + intros i l Hnth Hex.
      match goal with
      | Hw : (if truthy _ then _ else _) = Ok _ |- _ =>
          apply (guarded_remove_ws_keeps _ _ _ _ Hw)
      end.
      now apply (lines_state_warns _ 0 i).
Qed.

End ValidatorFacts.

Module ParserFacts.
Import JsString Js Parser ParserSpec Generator.
#[local] Open Scope list_scope.

Lemma parsed_profile (parsed : value) (inv : Invoice.t) :
  parseFacturXXml parsed = Ok inv ->
  Invoice.profile inv = infer_profile (guideline_of (root_of parsed)).
Proof.
  unfold parseFacturXXml, root_of. intros H.
  destruct (get parsed "CrossIndustryInvoice") as [r|] eqn:Hr;
    [|discriminate H].
  unfold get in Hr. destruct (nullish parsed); [discriminate|].
  inversion Hr; subst r; clear Hr. cbn [Js.bind] in H. cbv zeta in H.
  destruct (negb (truthy _)) in H; [discriminate|].
  destruct (negb (truthy _) || negb (truthy _)) in H; [discriminate|].
  bind_inversion H. inversion H. reflexivity.
Qed.

Lemma strip_prefix_app (p q s : list ascii) (r : list ascii) :
  strip_prefix (p ++ q) s = Some r -> exists r', strip_prefix p s = Some r'.
Proof.
  revert s. induction p as [|a p IH]; intros s H; cbn; [eauto|].
  destruct s as [|b s]; cbn in H; [discriminate|].
  destruct (Ascii.eqb a b); [|discriminate]. now apply IH.
Qed.

Lemma includes_prefix (g p q : string) :
  includes g (p ++ q) = true -> includes g p = true.
Proof.
  unfold includes, chars.
  replace (list_ascii_of_string (p ++ q)%string)
    with (list_ascii_of_string p ++ list_ascii_of_string q).
  2:{ induction p as [|c p IH]; cbn; [reflexivity|]. now rewrite IH. }
  generalize (list_ascii_of_string p) as lp, (list_ascii_of_string q) as lq,
    (list_ascii_of_string g) as lg.
  intros lp lq lg. induction lg as [|c lg IH]; cbn [includes_aux].
  - destruct (strip_prefix (lp ++ lq) []) eqn:E; [|discriminate].
    intros _. destruct (strip_prefix_app _ _ _ _ E) as [r' ->]. reflexivity.
  - destruct (strip_prefix (lp ++ lq) (c :: lg)) eqn:E.
    + intros _. destruct (strip_prefix_app _ _ _ _ E) as [r' ->]. reflexivity.
    + intros H. destruct (strip_prefix lp (c :: lg)); [reflexivity|].
      now apply IH.
Qed.

(** The [basicwl] test comes after the [basic] test, which every
    identifier that contains [basicwl] passes: the parser never answers
    [BASIC_WL]. *)
Lemma infer_profile_never_basic_wl (g : string) :
  infer_profile g <> "BASIC_WL"%string.
Proof.
  unfold infer_profile.
  destruct (includes g "en16931"); [discriminate|].
  destruct (includes g "extended"); [discriminate|].
  destruct (includes g "basic") eqn:Hb; [discriminate|].
  destruct (includes g "basicwl") eqn:Hw.
  - apply (includes_prefix g "basic" "wl") in Hw. congruence.
  - destruct (includes g "minimum"); discriminate.
Qed.

Lemma append_empty (s : string) : (s ++ "")%string = s.
Proof. induction s as [|c s IH]; cbn; [reflexivity|now rewrite IH]. Qed.

(** The profile read back from a generated document is the inference
    applied to the identifier the generator wrote. *)
Lemma round_trip_profile (inv inv' : Invoice.t) :
  parseFacturXXml (Xml.parse (generateFacturX inv)) = Ok inv' ->
  Invoice.profile inv' = infer_profile (profile_urn (Invoice.profile inv)).
Proof.
  intros H. rewrite (parsed_profile _ _ H). f_equal.
  unfold generateFacturX, root_of, guideline_of.
  cbn -[profile_urn Calculator.calculateTotals]. apply append_empty.
Qed.

Lemma structural_bind (A B : Type) (m : result A) (k : A -> result B) :
  structural A m = false -> (forall a, structural B (k a) = false) ->
  structural B (bind m k) = false.
Proof. destruct m as [a|e]; cbn; intros Hm Hk; [apply Hk|exact Hm]. Qed.

Lemma structural_get (v : value) (k : string) :
  structural value (get v k) = false.
Proof. unfold get. now destruct (nullish v). Qed.

Lemma structural_parseParty (raw : value) :
  structural TradeParty.t (parseParty raw) = false.
Proof.
  unfold parseParty. apply structural_bind; [apply structural_get|].
  reflexivity.
Qed.

Lemma structural_parseLine (l : value) :
  structural InvoiceLine.t (parseLine l) = false.
Proof.
  unfold parseLine. apply structural_bind; [apply structural_get|].
  intros d. cbv zeta. apply structural_bind; [|reflexivity].
  destruct (is_object _); [|reflexivity].
  apply structural_bind; [apply structural_get|reflexivity].
Qed.

Lemma structural_map_result (A B : Type) (f : A -> result B) (l : list A) :
  (forall a, structural B (f a) = false) ->
  structural (list B) (map_result f l) = false.
Proof.
  intros Hf. induction l as [|x l IH]; cbn [map_result]; [reflexivity|].
  apply structural_bind; [apply Hf|]. intros y.
  apply structural_bind; [exact IH|reflexivity].
Qed.

(** The parser raises an error of its own exactly when the root
    element or one of the two mandatory sections is missing. *)
Lemma structural_error_iff (parsed : value) :
  nullish parsed = false ->
  structural Invoice.t (parseFacturXXml parsed)
  = negb (has_mandatory_sections parsed).
Proof.
  intros Hn. unfold parseFacturXXml, has_mandatory_sections, root_of, get.
  rewrite Hn. cbn [bind]. cbv zeta.
  destruct (truthy (coalesce (prop parsed "CrossIndustryInvoice") _));
    [|reflexivity].
  cbn [negb andb].
  destruct (truthy (coalesce (prop _ "ExchangedDocument") _));
    [|reflexivity].
  destruct (truthy (coalesce (prop _ "SupplyChainTradeTransaction") _));
    [|reflexivity].
  cbn [negb orb andb].
  apply structural_bind;
    [apply structural_map_result, structural_parseLine|]. intros lines.
  apply structural_bind; [apply structural_get|]. intros pm.
  apply structural_bind; [apply structural_get|]. intros sr.
  apply structural_bind; [apply structural_parseParty|]. intros seller.
  apply structural_bind; [apply structural_parseParty|]. intros buyer.
  reflexivity.
Qed.

(** Without payment means, payment terms, delivery event, note and
    references, a document that has the trade agreement with its
    parties and the settlement section is read, each missing part as an
    absent value. *)
Example parse_without_optional_sections :
  let empty := TradePartyAddress.mk "" None "" "" "" None in
  parseFacturXXml (Xml.parse Samples.document_without_optional_sections)
  = Ok (Invoice.mk "F-2024-001" "380" "" None None "EUR" "EN_16931"
          (TradeParty.mk "ACME SAS" None None None empty None)
          (TradeParty.mk "CLIENT SA" None None None empty None)
          [] None None None None None).
Proof. vm_compute. reflexivity. Qed.

End ParserFacts.

Module ServerFacts.
Import Js Server ServerSpec.

Lemma lookup_assign (k k' : string) (v : value) (ps : list (string * value)) :
  lookup k (assign k' v ps) =
  if String.eqb k k' then Some v else lookup k ps.
Proof.
  induction ps as [|[k0 w] ps IH]; cbn.
  - reflexivity.
  - destruct (String.eqb_spec k' k0) as [->|Hne]; cbn.
    + destruct (String.eqb k k0); reflexivity.
    + rewrite IH. destruct (String.eqb_spec k k0) as [->|Hne'].
      * destruct (String.eqb_spec k0 k'); [congruence|reflexivity].
      * reflexivity.
Qed.

Lemma facturx_generate_state (quota_allowed : bool)
  (args : list (string * value)) :
  snd (facturx_generate quota_allowed args) =
  if quota_allowed then with_defaults args else args.
Proof.
  unfold facturx_generate, with_defaults.
  destruct quota_allowed; cbn [negb]; [|reflexivity]. cbv zeta.
  destruct (Validator.validateInvoice _) as [r|]; [|reflexivity].
  destruct (negb (ValidationResult.valid r)); [reflexivity|].
  destruct (FromJs.invoice _); reflexivity.
Qed.

(** A default is written under its own name only. *)
Lemma lookup_default (k k' : string) (d : value) (filled : bool)
  (ps : list (string * value)) :
  lookup k (if filled then assign k' d ps else ps) =
  if String.eqb k k' && filled then Some d else lookup k ps.
Proof.
  destruct filled; [|now rewrite andb_false_r].
  rewrite lookup_assign. now rewrite andb_true_r.
Qed.

Lemma with_defaults_lookup (k : string) (args : list (string * value)) :
  lookup k (with_defaults args) =
  if String.eqb k "profile"
     && negb (truthy (prop (JObject args) "profile"))
  then Some (JString "EN_16931")
  else if String.eqb k "typeCode"
          && negb (truthy (prop (JObject args) "typeCode"))
  then Some (JString "380")
  else lookup k args.
Proof.
  unfold with_defaults. cbv zeta. rewrite !lookup_default.
  replace (prop (JObject (if negb (truthy (prop (JObject args) "typeCode"))
                          then assign "typeCode" (JString "380") args
                          else args)) "profile")
    with (prop (JObject args) "profile"); [reflexivity|].
  cbn [prop]. rewrite lookup_default.
  change (String.eqb "profile" "typeCode") with false. reflexivity.
Qed.

End ServerFacts.


Module GuidelineFacts.

Import JsString Js Parser ParserSpec Server ServerFacts GuidelineSpec.

#[local] Open Scope list_scope.





End GuidelineFacts.

Module StringFacts.

Import JsString.

#[local] Open Scope list_scope.

Lemma of_chars_chars (s : string) : of_chars (chars s) = s.
Proof. apply string_of_list_ascii_of_string. Qed.

Lemma chars_of_chars (l : list ascii) : chars (of_chars l) = l.
Proof. apply list_ascii_of_string_of_list_ascii. Qed.

Lemma chars_app (a b : string) : chars (a ++ b)%string = chars a ++ chars b.
Proof.
  unfold chars. induction a as [|c a IH]; cbn; [reflexivity|].
  now rewrite IH.
Qed.

Lemma of_chars_app (a b : list ascii) :
  of_chars (a ++ b) = (of_chars a ++ of_chars b)%string.
Proof.
  unfold of_chars. induction a as [|c a IH]; cbn; [reflexivity|].
  now rewrite IH.
Qed.

Lemma strip_prefix_refl (p s : list ascii) : strip_prefix p (p ++ s) = Some s.
Proof.
  induction p as [|a p IH]; cbn; [reflexivity|].
  now rewrite Ascii.eqb_refl.
Qed.

Lemma strip_prefix_some (p s r : list ascii) :
  strip_prefix p s = Some r <-> s = p ++ r.
Proof.
  split.
  - revert s. induction p as [|a p IH]; intros s H; cbn in H.
    + now inversion H.
    + destruct s as [|b s]; [discriminate|].
      destruct (Ascii.eqb_spec a b); [|discriminate].
      subst b. cbn. f_equal. now apply IH.
  - intros ->. apply strip_prefix_refl.
Qed.

(** A prefix that fits in the first [n] characters is seen there. *)
Lemma strip_prefix_within (p : list ascii) :
  forall (l : list ascii) (n : nat),
  (List.length p <= n)%nat ->
  strip_prefix p (firstn n l) = None -> strip_prefix p l = None.
Proof.
  induction p as [|c p IH]; intros l n Hlen H; [discriminate H|].
  destruct n as [|n]; [cbn in Hlen; lia|].
  destruct l as [|x l]; [reflexivity|].
  cbn [firstn strip_prefix] in *. destruct (Ascii.eqb c x); [|reflexivity].
  apply (IH l n); [cbn [List.length] in Hlen; lia|exact H].
Qed.

Lemma strip_prefix_firstn (p a b : list ascii) (k : nat) :
  (List.length p <= List.length a + k)%nat ->
  strip_prefix p (a ++ firstn k b) = None -> strip_prefix p (a ++ b) = None.
Proof.
  intros Hlen H. apply (strip_prefix_within p _ (List.length a + k) Hlen).
  now rewrite firstn_app_2.
Qed.

(** A decimal digit is a one-byte character, of one code unit, and is
    not the dash. *)
Lemma is_digit_plain (c : ascii) :
  is_digit c = true ->
  units c = 1%nat
  /\ ((128 <=? code c) && (code c <? 192))%N = false
  /\ Ascii.eqb c "-" = false.
Proof.
  destruct c as [[] [] [] [] [] [] [] []]; try discriminate;
    intros _; repeat split.
Qed.

End StringFacts.

Module SearchFacts.

Import JsString JsSearch StringFacts.

#[local] Open Scope list_scope.

Lemma indexOf_from_none (needle s : list ascii) :
  forall pos, indexOf_from needle s pos = None <-> includes_aux needle s = false.
Proof.
  induction s as [|c s IH]; intros pos; cbn [indexOf_from includes_aux].
  - destruct (strip_prefix needle []); split; congruence.
  - destruct (strip_prefix needle (c :: s)); [split; congruence|].
    apply IH.
Qed.

Lemma lastIndexOf_from_none (needle s : list ascii) :
  forall pos,
  lastIndexOf_from needle s pos = None <-> includes_aux needle s = false.
Proof.
  induction s as [|c s IH]; intros pos; cbn [lastIndexOf_from includes_aux].
  - destruct needle; cbn; split; congruence.
  - specialize (IH (S pos)).
    destruct (lastIndexOf_from needle s (S pos)) as [i|].
    + destruct (strip_prefix needle (c :: s)); [split; congruence|].
      split; [discriminate|]. intros H. apply IH in H. discriminate.
    + destruct (strip_prefix needle (c :: s)); [split; congruence|].
      split; [intros _; now apply IH|reflexivity].
Qed.

(** The first occurrence is where the text before it, with all but the
    last character of the needle, holds none. *)
Lemma indexOf_from_app (needle pre s : list ascii) (k : nat) :
  (List.length needle <= S k)%nat ->
  includes_aux needle (pre ++ firstn k s) = false ->
  forall pos,
  indexOf_from needle (pre ++ s) pos
  = match strip_prefix needle s with
    | Some _ => Some (pos + List.length pre)%nat
    | None =>
        match s with
        | [] => None
        | _ :: r => indexOf_from needle r (S (pos + List.length pre))
        end
    end.
Proof.
  intros Hk. induction pre as [|c pre IH]; intros H pos.
  - cbn [app List.length]. rewrite Nat.add_0_r.
    destruct s; reflexivity.
  - cbn [app] in *. cbn [includes_aux] in H.
    destruct (strip_prefix needle (c :: pre ++ firstn k s)) eqn:E;
      [discriminate H|].
    cbn [indexOf_from].
    change (c :: pre ++ s) with ((c :: pre) ++ s) at 1.
    rewrite (strip_prefix_firstn needle (c :: pre) s k);
      [|cbn [List.length]; lia|exact E].
    cbn [app].
    rewrite IH by exact H. cbn [List.length].
    replace (S pos + List.length pre)%nat
      with (pos + S (List.length pre))%nat by lia.
    reflexivity.
Qed.

(** The last occurrence is the one no other follows. *)
Lemma lastIndexOf_from_app (needle pre s r : list ascii) :
  strip_prefix needle s = Some r ->
  includes_aux needle (tl s) = false ->
  forall pos,
  lastIndexOf_from needle (pre ++ s) pos = Some (pos + List.length pre)%nat.
Proof.
  intros Hs Hn. induction pre as [|c pre IH]; intros pos.
  - cbn [app List.length]. rewrite Nat.add_0_r.
    destruct s as [|x s].
    + cbn. destruct needle; [reflexivity|discriminate].
    + cbn [lastIndexOf_from tl] in *.
      apply (lastIndexOf_from_none needle s (S pos)) in Hn.
      now rewrite Hn, Hs.
  - cbn [app lastIndexOf_from List.length]. rewrite IH. f_equal. lia.
Qed.

Lemma slice_units_middle (pre doc post : list ascii) :
  slice_units (pre ++ doc ++ post) (List.length pre)
    (List.length pre + List.length doc) = doc.
Proof.
  unfold slice_units. rewrite skipn_app, skipn_all, Nat.sub_diag.
  cbn [skipn app].
  replace (List.length pre + List.length doc - List.length pre)%nat
    with (List.length doc + 0)%nat by lia.
  rewrite firstn_app_2. cbn [firstn]. apply app_nil_r.
Qed.

(** Where the last occurrence is. *)
Lemma lastIndexOf_from_some (x : ascii) (needle s : list ascii) :
  forall pos i,
  lastIndexOf_from (x :: needle) s pos = Some i ->
  exists a r,
    s = a ++ (x :: needle) ++ r
    /\ i = (pos + List.length a)%nat
    /\ includes_aux (x :: needle) (needle ++ r) = false.
Proof.
  induction s as [|c s IH]; intros pos i H; cbn [lastIndexOf_from] in H;
    [discriminate|].
  destruct (lastIndexOf_from (x :: needle) s (S pos)) as [j|] eqn:E.
  - inversion H; subst j. destruct (IH _ _ E) as [a [r [Hs [Hi Hn]]]].
    exists (c :: a), r. subst s. repeat split; [cbn; lia|exact Hn].
  - destruct (strip_prefix (x :: needle) (c :: s)) as [r|] eqn:Ep;
      [|discriminate].
    inversion H; subst i. apply strip_prefix_some in Ep.
    exists [], r. rewrite Ep. repeat split; [cbn; lia|].
    cbn [app] in Ep. inversion Ep; subst.
    apply (lastIndexOf_from_none _ _ (S pos)). exact E.
Qed.

Lemma slice_units_prefix (a b : list ascii) :
  slice_units (a ++ b) 0 (List.length a) = a.
Proof.
  unfold slice_units. cbn [skipn]. rewrite Nat.sub_0_r.
  replace (List.length a) with (List.length a + 0)%nat by lia.
  rewrite firstn_app_2. cbn [firstn]. apply app_nil_r.
Qed.

Lemma slice_units_suffix (a b : list ascii) (x : ascii) :
  slice_units (a ++ x :: b) (List.length a + 1) (List.length (a ++ x :: b))
  = b.
Proof.
  unfold slice_units.
  replace (a ++ x :: b) with ((a ++ [x]) ++ b) by now rewrite <- app_assoc.
  replace (List.length a + 1)%nat with (List.length (a ++ [x]))
    by (rewrite length_app; reflexivity).
  rewrite skipn_app, skipn_all, Nat.sub_diag. cbn [skipn app].
  rewrite length_app.
  replace (List.length (a ++ [x]) + List.length b
           - List.length (a ++ [x]))%nat with (List.length b) by lia.
  apply firstn_all.
Qed.

Lemma indexOf_none (s needle : list ascii) :
  indexOf s needle = None <-> includes_aux needle s = false.
Proof. apply indexOf_from_none. Qed.

Lemma lastIndexOf_none (s needle : list ascii) :
  lastIndexOf s needle = None <-> includes_aux needle s = false.
Proof. apply lastIndexOf_from_none. Qed.

End SearchFacts.

Module AmountFacts.

Import JsString JsNumber Js Parser Generator.
Import NumberSpec NumberFacts AmountSpec StringFacts.

#[local] Open Scope list_scope.

Lemma digit_is_digit (c : ascii) : digit c -> is_digit c = true.
Proof.
  unfold digit. cbn. intros H.
  repeat (destruct H as [<- | H]; [reflexivity|]). contradiction.
Qed.

Lemma digits_forallb (l : list ascii) :
  Forall digit l -> forallb is_digit l = true.
Proof.
  intros H. apply forallb_forall. rewrite Forall_forall in H.
  intros c Hc. now apply digit_is_digit, H.
Qed.

Lemma digit_not_minus (c : ascii) : digit c -> Ascii.eqb c "-" = false.
Proof.
  unfold digit. cbn. intros H.
  repeat (destruct H as [<- | H]; [reflexivity|]). contradiction.
Qed.

(** The digits with a point before the last two are an amount. *)
Lemma amount_layout (padded : list ascii) (neg : bool) :
  Forall digit padded -> (3 <= List.length padded)%nat ->
  let len := List.length padded in
  let body := firstn (len - 2) padded ++ "."%char :: skipn (len - 2) padded in
  amount_text (of_chars (if neg then "-"%char :: body else body)) = true.
Proof.
  intros Hd Hlen len body. unfold amount_text.
  unfold chars, of_chars. rewrite list_ascii_of_string_of_list_ascii.
  assert (Hbody : exists c r, body = c :: r /\ digit c).
  { unfold body. destruct padded as [|c r]; [cbn in Hlen; lia|].
    subst len. cbn [List.length].
    replace (S (List.length r) - 2)%nat with (S (List.length r - 2))
      by (cbn in Hlen; lia).
    cbn [firstn app]. exists c. eexists. split; [reflexivity|].
    exact (Forall_inv Hd). }
  destruct Hbody as [c [r [Hb Hc]]].
  assert (Hcs : (match (if neg then "-"%char :: body else body) with
                 | c :: r => if Ascii.eqb c "-" then r else c :: r
                 | [] => []
                 end) = body).
  { destruct neg; [reflexivity|]. rewrite Hb.
    now rewrite (digit_not_minus c Hc). }
  rewrite Hcs. clear Hcs Hb Hc c r.
  assert (Hf : List.length (firstn (len - 2) padded) = (len - 2)%nat)
    by (apply firstn_length_le; subst len; lia).
  assert (Hn : List.length body = S len).
  { unfold body. rewrite length_app. cbn [List.length].
    rewrite Hf, length_skipn. subst len. lia. }
  rewrite Hn.
  replace (S len - 3)%nat with (len - 2)%nat by lia.
  replace (S len - 2)%nat with (S (len - 2)) by lia.
  unfold body.
  rewrite <- Hf at 1. rewrite firstn_app, firstn_all, Nat.sub_diag.
  cbn [firstn]. rewrite app_nil_r.
  rewrite app_nth2 by lia. rewrite Hf at 1. rewrite Nat.sub_diag.
  cbn [nth].
  replace (S (len - 2)) with (List.length (firstn (len - 2) padded) + 1)%nat
    by lia.
  rewrite skipn_app, skipn_all2 by lia.
  replace (List.length (firstn (len - 2) padded) + 1
           - List.length (firstn (len - 2) padded))%nat with 1%nat by lia.
  cbn [skipn app].
  rewrite (digits_forallb _ (Forall_firstn _ _ _ Hd)).
  rewrite (digits_forallb _ (Forall_skipn _ _ _ Hd)).
  cbn [forallb andb Ascii.eqb Bool.eqb].
  rewrite !andb_true_r. apply Nat.leb_le. lia.
Qed.

Lemma frac_of_positive (m : positive) (e : Z) :
  0 < fst (frac_of m e) /\ 0 < snd (frac_of m e).
Proof.
  unfold frac_of.
  assert (Hp : forall k, 0 <= k -> 0 < 2 ^ k)
    by (intros k Hk; apply Z.pow_pos_nonneg; lia).
  destruct (Z.leb_spec 0 e); cbn [fst snd]; split;
    first [ lia
          | apply Z.mul_pos_pos; [lia|]; now apply Hp
          | apply Hp; lia ].
Qed.

Lemma toFixed2_amount (x : float) :
  fixed_range x = true -> amount_text (toFixed2 x) = true.
Proof.
  unfold fixed_range, toFixed2.
  destruct (Prim2SF x) as [s| s| |s m e]; try discriminate.
  - intros _. reflexivity.
  - pose proof (frac_of_positive m e) as [Hn Hd].
    destruct (frac_of m e) as [vn vd]. cbn [fst snd] in Hn, Hd.
    intros H. apply negb_true_iff in H. rewrite H. cbv zeta.
    set (n := (200 * vn + vd) / (2 * vd)).
    assert (Hn0 : 0 <= n) by (apply Z.div_pos; lia).
    pose proof (digit_list_digits n Hn0) as Hds.
    pose proof (digit_list_nonempty n) as Hne.
    set (padded := zero_list (3 - List.length (digit_list n)) ++ digit_list n).
    assert (Hp : Forall digit padded).
    { apply Forall_app. split; [apply zero_list_digits|exact Hds]. }
    assert (Hl : (3 <= List.length padded)%nat).
    { unfold padded. rewrite length_app, zero_list_length. lia. }
    pose proof (amount_layout padded s Hp Hl) as Ha. cbv zeta in Ha.
    destruct s; exact Ha.
Qed.

Lemma date_round_trip_chars (s : string) :
  DATE_RE s = true -> toIsoDate (JString (toDate8 s)) = s.
Proof.
  unfold DATE_RE. intros H. rewrite <- (of_chars_chars s).
  destruct (chars s) as [|y1 [|y2 [|y3 [|y4 [|d1 [|m1 [|m2 [|d2 [|j1 [|j2
    [|x r]]]]]]]]]]]; try discriminate H.
  do 9 (apply andb_prop in H; destruct H as [H ?]).
  repeat match goal with
         | Hd : is_digit _ = true |- _ =>
             apply is_digit_plain in Hd; destruct Hd as [? [? ?]]
         | He : Ascii.eqb _ "-" = true |- _ =>
             apply Ascii.eqb_eq in He; subst
         end.
  unfold toIsoDate, toDate8, remove_dashes, str, utf16_length, slice.
  rewrite !chars_of_chars.
  cbn [filter].
  repeat match goal with
         | He : Ascii.eqb _ "-" = false |- _ => rewrite He; clear He
         end.
  cbn [negb filter].
  repeat (progress
            (cbn [fold_right slice_aux filter Nat.add Nat.leb Nat.ltb Nat.eqb
                  Ascii.eqb Bool.eqb andb negb];
             repeat match goal with
                    | Hu : units ?c = 1%nat |- context [units ?c] =>
                        rewrite !Hu
                    | Hu : (_ && (code ?c <? 192)%N)%bool = false
                      |- context [(code ?c <? 192)%N] => rewrite !Hu
                    end)).
  cbn. reflexivity.
Qed.

Lemma date_digits (s : string) :
  DATE_RE s = true -> eight_digits (toDate8 s) = true.
Proof.
  unfold DATE_RE, eight_digits. intros H.
  rewrite <- (of_chars_chars s).
  destruct (chars s) as [|y1 [|y2 [|y3 [|y4 [|d1 [|m1 [|m2 [|d2 [|j1 [|j2
    [|x r]]]]]]]]]]]; try discriminate H.
  do 9 (apply andb_prop in H; destruct H as [H ?]).
  repeat match goal with
         | He : Ascii.eqb _ "-" = true |- _ =>
             apply Ascii.eqb_eq in He; subst
         end.
  unfold toDate8, remove_dashes. rewrite !chars_of_chars.
  repeat match goal with
         | Hd : is_digit ?c = true |- _ =>
             let Hp := fresh "Hp" in
             pose proof (is_digit_plain c Hd) as [_ [_ Hp]];
             revert Hd
         end.
  intros.
  cbn [filter].
  repeat match goal with
         | He : Ascii.eqb _ "-" = false |- _ => rewrite He; clear He
         end.
  cbn [negb filter Ascii.eqb Bool.eqb List.length Nat.eqb forallb andb].
  repeat match goal with
         | Hd : is_digit _ = true |- _ => rewrite Hd; clear Hd
         end.
  reflexivity.
Qed.

End AmountFacts.


Module AmountValueFacts.

Import JsString JsNumber Js Generator.
Import NumberSpec NumberFacts AmountSpec StringFacts AmountFacts.
Import DecimalSpec AmountValueSpec.

#[local] Open Scope Z_scope.
#[local] Open Scope list_scope.

Lemma filter_digits (l : list ascii) :
  Forall digit l -> filter is_digit l = l.
Proof.
  induction 1 as [|c l Hc _ IH]; [reflexivity|].
  cbn [filter]. now rewrite (digit_is_digit c Hc), IH.
Qed.

(** The digits of the fixed notation, and how it starts. *)
Lemma layout_digits (padded : list ascii) :
  Forall digit padded -> (3 <= List.length padded)%nat ->
  let len := List.length padded in
  let body := firstn (len - 2) padded ++ "."%char :: skipn (len - 2) padded in
  filter is_digit body = padded
  /\ exists c r, body = c :: r /\ digit c.
Proof.
  intros Hd Hlen len body. split.
  - unfold body. rewrite filter_app. cbn [filter].
    change (is_digit ".") with false. cbv iota.
    rewrite (filter_digits _ (Forall_firstn _ _ _ Hd)).
    rewrite (filter_digits _ (Forall_skipn _ _ _ Hd)).
    apply firstn_skipn.
  - unfold body. destruct padded as [|c r]; [cbn in Hlen; lia|].
    subst len. cbn [List.length].
    replace (S (List.length r) - 2)%nat with (S (List.length r - 2))
      by (cbn in Hlen; lia).
    cbn [firstn app]. exists c. eexists. split; [reflexivity|].
    exact (Forall_inv Hd).
Qed.

Lemma negative_finite (x : float) (s : bool) (m : positive) (e : Z) :
  Prim2SF x = S754_finite s m e -> (x <? 0)%float = s.
Proof.
  intros Hx. rewrite ltb_spec, Hx.
  change (Prim2SF 0) with (S754_zero false). now destruct s.
Qed.

Lemma negative_zero (x : float) (s : bool) :
  Prim2SF x = S754_zero s -> (x <? 0)%float = false.
Proof.
  intros Hx. rewrite ltb_spec, Hx.
  change (Prim2SF 0) with (S754_zero false). reflexivity.
Qed.

(** The sign and the value of the fixed notation with two decimals. *)
Lemma toFixed2_value (x : float) :
  fixed_range x = true ->
  String.prefix "-" (toFixed2 x) = (x <? 0)%float
  /\ exists num den k,
       exact_value x = Some (num, den)
       /\ nearest_half_up (100 * Z.abs num) den k
       /\ amount_cents (toFixed2 x) = k.
Proof.
  unfold fixed_range, toFixed2, exact_value.
  destruct (Prim2SF x) as [s| s| |s m e] eqn:Hx; try discriminate.
  - intros _. rewrite (negative_zero x s Hx). split; [reflexivity|].
    exists 0, 1, 0. split; [reflexivity|].
    split; [unfold nearest_half_up; lia|reflexivity].
  - rewrite (negative_finite x s m e Hx).
    pose proof (frac_of_positive m e) as [Hn Hd].
    destruct (frac_of m e) as [vn vd]. cbn [fst snd] in Hn, Hd.
    intros H. apply negb_true_iff in H. rewrite H. cbv zeta.
    set (n := (200 * vn + vd) / (2 * vd)).
    assert (Hn0 : 0 <= n) by (apply Z.div_pos; lia).
    pose proof (digit_list_digits n Hn0) as Hds.
    set (padded := zero_list (3 - List.length (digit_list n)) ++ digit_list n).
    assert (Hp : Forall digit padded).
    { apply Forall_app. split; [apply zero_list_digits|exact Hds]. }
    assert (Hl : (3 <= List.length padded)%nat).
    { unfold padded. rewrite length_app, zero_list_length. lia. }
    destruct (layout_digits padded Hp Hl) as [Hf [c [r [Hb Hc]]]].
    cbv zeta in Hf, Hb.
    assert (Hv : digits_value 0 padded = n).
    { unfold padded. rewrite digits_value_app, digits_value_zeros.
      rewrite digits_value_shift. rewrite (digit_list_value n Hn0). lia. }
    split.
    + destruct s.
      * cbn [append String.prefix].
        destruct (ascii_dec "-" "-") as [_|E]; [|now elim E].
        now destruct (of_chars _).
      * change ("" ++ ?t)%string with t. rewrite Hb.
        cbn [of_chars string_of_list_ascii String.prefix].
        destruct (ascii_dec "-" c) as [E|E]; [|reflexivity].
        subst c. exfalso. cbn in Hc.
        repeat (destruct Hc as [Hc|Hc]; [discriminate Hc|]). contradiction.
    + exists (if s then - vn else vn), vd, n. split; [reflexivity|]. split.
      * replace (Z.abs (if s then - vn else vn)) with vn
          by (destruct s; lia).
        unfold nearest_half_up, n.
        pose proof (Z.mul_div_le (200 * vn + vd) (2 * vd) ltac:(lia)).
        pose proof (Z.mul_succ_div_gt (200 * vn + vd) (2 * vd) ltac:(lia)).
        lia.
      * unfold amount_cents. destruct s.
        -- rewrite chars_app, chars_of_chars.
           change (chars "-") with ["-"%char]. cbn [app filter].
           change (is_digit "-") with false. cbv iota.
           now rewrite Hf.
        -- change ("" ++ ?t)%string with t. now rewrite chars_of_chars, Hf.
Qed.

End AmountValueFacts.

Module TotalsFacts.

Import JsNumber Calculator CalculatorSpec CalculatorFacts.

#[local] Open Scope list_scope.

Lemma summary_keys (invoice : Invoice.t) :
  map summary_key (InvoiceTotals.vatSummaries (calculateTotals invoice))
  = first_occurrences (map line_key (Invoice.lines invoice)).
Proof.
  rewrite vatSummaries_after.
  destruct (after_spec (Invoice.lines invoice)) as [Hk _]. rewrite <- Hk.
  rewrite !map_map. apply map_ext_in. intros [k w] Hin. simpl.
  apply after_entry in Hin. rewrite summary_key_close_group.
  now apply open_group_key in Hin.
Qed.

Lemma first_occurrences_length (l : list string) :
  (List.length (first_occurrences l) <= List.length l)%nat.
Proof.
  induction l as [|k l IH]; cbn [first_occurrences List.length]; [lia|].
  pose proof (filter_length_le (fun x => negb (String.eqb x k))
                (first_occurrences l)). lia.
Qed.

End TotalsFacts.

Module ParsedFacts.

Import JsString JsNumber Js Parser ParserSpec ParsedSpec.

#[local] Open Scope list_scope.

Lemma or_zero_not_nan (x : float) : is_nan (or_zero x) = false.
Proof.
  unfold or_zero. destruct ((x =? 0)%float || is_nan x) eqn:E.
  - reflexivity.
  - now apply orb_false_elim in E.
Qed.

Lemma or_undefined_not_empty (s : string) : not_empty (or_undefined s).
Proof.
  unfold not_empty, or_undefined. destruct (String.eqb_spec s "").
  - discriminate.
  - intros H. inversion H. contradiction.
Qed.

Lemma or_default_not_empty (s d : string) : d <> "" -> or_default s d <> "".
Proof.
  unfold or_default. intros Hd. now destruct (String.eqb_spec s "").
Qed.

Ltac case_truthy :=
  match goal with
  | |- context [if truthy ?v then _ else _] => destruct (truthy v)
  end.

Lemma map_result_Forall (A B : Type) (f : A -> result B) (P : B -> Prop)
  (l : list A) :
  (forall x y, f x = Ok y -> P y) ->
  forall ys, map_result f l = Ok ys -> Forall P ys.
Proof.
  intros Hf. induction l as [|x l IH]; cbn [map_result]; intros ys H.
  - inversion H. constructor.
  - bind_inversion H. inversion H; subst ys. constructor.
    + eapply Hf; eassumption.
    + now apply IH.
Qed.

Lemma map_result_length (A B : Type) (f : A -> result B) (l : list A) :
  forall ys, map_result f l = Ok ys -> List.length ys = List.length l.
Proof.
  induction l as [|x l IH]; cbn [map_result]; intros ys H.
  - now inversion H.
  - bind_inversion H. inversion H; subst ys. cbn. f_equal. now apply IH.
Qed.

(** What a successful parse was built from. *)
Lemma parseFacturXXml_ok (parsed : value) (inv : Invoice.t) :
  parseFacturXXml parsed = Ok inv ->
  exists items rawSeller rawBuyer,
    map_result parseLine items = Ok (Invoice.lines inv)
    /\ parseParty rawSeller = Ok (Invoice.seller inv)
    /\ parseParty rawBuyer = Ok (Invoice.buyer inv)
    /\ Invoice.typeCode inv <> ""
    /\ not_empty (Invoice.purchaseOrderRef inv)
    /\ not_empty (Invoice.contractRef inv)
    /\ not_empty (Invoice.notes inv)
    /\ not_empty (Invoice.buyerRef inv)
    /\ (forall p, Invoice.payment inv = Some p ->
          PaymentInfo.meansCode p <> ""
          /\ not_empty (PaymentInfo.iban p)
          /\ PaymentInfo.bic p = None
          /\ not_empty (PaymentInfo.reference p)
          /\ not_empty (PaymentInfo.terms p)).
Proof.
  unfold parseFacturXXml. intros H.
  destruct (get parsed "CrossIndustryInvoice") as [r|] eqn:Hr;
    [|discriminate H].
  cbn [Js.bind] in H. cbv zeta in H.
  destruct (negb (truthy _)) in H; [discriminate|].
  destruct (negb (truthy _) || negb (truthy _)) in H; [discriminate|].
  bind_inversion H. inversion H; subst inv; clear H.
  cbn [Invoice.lines Invoice.seller Invoice.buyer Invoice.typeCode
       Invoice.purchaseOrderRef Invoice.contractRef Invoice.notes
       Invoice.buyerRef Invoice.payment].
  do 3 eexists.
  repeat match goal with
         | |- _ /\ _ => split
         end;
    try eassumption; try reflexivity;
    try apply or_undefined_not_empty;
    try (apply or_default_not_empty; discriminate);
    try (case_truthy; [apply or_undefined_not_empty | discriminate]).
  intros p Hp.
  match type of Hp with
  | (if truthy ?v then _ else _) = _ =>
      destruct (truthy v); [|discriminate Hp]
  end.
  inversion Hp; subst p; clear Hp.
  cbn [PaymentInfo.meansCode PaymentInfo.iban PaymentInfo.bic
       PaymentInfo.reference PaymentInfo.terms].
  repeat split;
    try apply or_undefined_not_empty;
    try (apply or_default_not_empty; discriminate);
    try (case_truthy; [apply or_undefined_not_empty | discriminate]).
Qed.

Lemma parseLine_ok (x : value) (l : InvoiceLine.t) :
  parseLine x = Ok l ->
  numeric_line l = true
  /\ InvoiceLine.unitCode l <> ""
  /\ InvoiceLine.vatCategory l <> ""
  /\ not_empty (InvoiceLine.productId l)
  /\ InvoiceLine.buyerProductId l = None
  /\ not_empty (InvoiceLine.note l).
Proof.
  unfold parseLine. intros H. bind_inversion H. cbv zeta in H.
  bind_inversion H. inversion H; subst l; clear H.
  unfold numeric_line, isNaN, num.
  cbn [InvoiceLine.quantity InvoiceLine.unitPrice InvoiceLine.totalAmount
       InvoiceLine.vatRate InvoiceLine.unitCode InvoiceLine.vatCategory
       InvoiceLine.productId InvoiceLine.buyerProductId InvoiceLine.note].
  rewrite !or_zero_not_nan.
  repeat split;
    try apply or_undefined_not_empty;
    try (apply or_default_not_empty; discriminate).
Qed.

Lemma parseParty_ok (raw : value) (p : TradeParty.t) :
  parseParty raw = Ok p ->
  not_empty (TradeParty.id p)
  /\ not_empty (TradeParty.vatNumber p)
  /\ not_empty (TradeParty.legalId p)
  /\ TradeParty.contact p = None
  /\ TradePartyAddress.additionalStreet (TradeParty.address p) = None
  /\ TradePartyAddress.stateOrProvince (TradeParty.address p) = None.
Proof.
  unfold parseParty. intros H. bind_inversion H. cbv zeta in H.
  inversion H; subst p; clear H.
  cbn [TradeParty.id TradeParty.vatNumber TradeParty.legalId
       TradeParty.contact TradeParty.address
       TradePartyAddress.additionalStreet TradePartyAddress.stateOrProvince].
  repeat split;
    try apply or_undefined_not_empty;
    try (case_truthy; [apply or_undefined_not_empty | discriminate]).
Qed.

Lemma parseFacturXXml_lines (parsed : value) (inv : Invoice.t) :
  parseFacturXXml parsed = Ok inv ->
  map_result parseLine (line_items parsed) = Ok (Invoice.lines inv).
Proof.
  unfold parseFacturXXml, get. intros H.
  destruct (nullish parsed); [discriminate H|].
  cbn [Js.bind] in H. cbv zeta in H.
  unfold line_items, trx_of, root_of.
  destruct (negb (truthy _)) in H; [discriminate|].
  destruct (negb (truthy _) || negb (truthy _)) in H; [discriminate|].
  match type of H with
  | Js.bind (map_result parseLine ?items) _ = _ =>
      destruct (map_result parseLine items) as [ls|e] eqn:Hl;
        [|discriminate H]
  end.
  cbn [Js.bind] in H. bind_inversion H. inversion H; subst inv; clear H.
  cbn [Invoice.lines]. rewrite <- Hl. clear. f_equal.
  match goal with
  | |- context [prop ?t "IncludedSupplyChainTradeLineItem"] =>
      generalize (prop t "IncludedSupplyChainTradeLineItem")
  end.
  intros x. destruct x; reflexivity.
Qed.

End ParsedFacts.

Module ViewFacts.

Import JsString JsNumber Js Validator ValidatorSpec ValidatorFacts.

#[local] Open Scope list_scope.

Lemma text_inv (v : value) (k s : string) :
  FromJs.text v k = Some s -> prop v k = JString s.
Proof. unfold FromJs.text. destruct (prop v k); congruence. Qed.

Lemma amount_inv (v : value) (k : string) (n : float) :
  FromJs.amount v k = Some n -> prop v k = JNumber n.
Proof. unfold FromJs.amount. destruct (prop v k); congruence. Qed.

Lemma opt_text_inv (v : value) (k : string) (o : option string) :
  FromJs.opt_text v k = Some o -> prop v k = ToJs.opt o.
Proof.
  unfold FromJs.opt_text. destruct (prop v k); try discriminate;
    intros H; inversion H; reflexivity.
Qed.

Ltac obind_inversion H :=
  repeat match type of H with
  | FromJs.obind ?o _ = Some _ =>
      let E := fresh "E" in
      destruct o eqn:E; cbn [FromJs.obind] in H; [|discriminate H]
  end.

Lemma line_view (x : value) (l : InvoiceLine.t) :
  FromJs.line x = Some l ->
  nullish x = false
  /\ forall k, In k ["id"; "description"; "quantity"; "unitCode"; "unitPrice";
                     "totalAmount"; "vatRate"; "vatCategory"] ->
     prop x k = prop (ToJs.line l) k.
Proof.
  unfold FromJs.line. intros H. obind_inversion H.
  inversion H; subst l; clear H.
  split.
  - destruct x; try reflexivity; discriminate.
  - intros k Hk. cbn in Hk.
    repeat (destruct Hk as [<- | Hk];
            [ first [ now apply text_inv | now apply amount_inv ] |]).
    contradiction.
Qed.

Lemma validate_line_view (i : nat) (x : value) (l : InvoiceLine.t)
  (st : loop_state) :
  FromJs.line x = Some l ->
  validate_line i x st = validate_line i (ToJs.line l) st.
Proof.
  intros H. destruct (line_view x l H) as [Hn Hp].
  unfold validate_line, get. rewrite Hn.
  rewrite !Hp by (cbn; tauto). reflexivity.
Qed.

Lemma validate_lines_view (xs : list value) :
  forall (ls : list InvoiceLine.t) (i : nat) (st : loop_state),
  FromJs.all FromJs.line xs = Some ls ->
  validate_lines i xs st = validate_lines i (map ToJs.line ls) st.
Proof.
  induction xs as [|x xs IH]; intros ls i st H; cbn [FromJs.all] in H.
  - inversion H. reflexivity.
  - obind_inversion H. inversion H; subst ls; clear H.
    cbn [map validate_lines].
    match goal with
    | E : FromJs.line x = Some _ |- _ => rewrite (validate_line_view _ _ _ _ E)
    end.
    destruct (validate_line _ _ _); cbn [Js.bind]; [|reflexivity].
    now apply IH.
Qed.

Lemma all_length (A : Type) (f : value -> option A) (xs : list value) :
  forall ys, FromJs.all f xs = Some ys -> List.length ys = List.length xs.
Proof.
  induction xs as [|x xs IH]; intros ys H; cbn [FromJs.all] in H.
  - now inversion H.
  - obind_inversion H. inversion H. cbn. f_equal. now apply IH.
Qed.

Lemma address_view (x : value) (a : TradePartyAddress.t) :
  FromJs.address x = Some a ->
  forall k, In k ["street"; "city"; "postalCode"; "countryCode"] ->
  prop x k = prop (ToJs.address a) k.
Proof.
  unfold FromJs.address. intros H. obind_inversion H.
  inversion H; subst a; clear H. intros k Hk. cbn in Hk.
  repeat (destruct Hk as [<- | Hk]; [now apply text_inv|]).
  contradiction.
Qed.

Lemma party_view (x : value) (p : TradeParty.t) :
  FromJs.party x = Some p ->
  (forall k, In k ["name"; "id"; "vatNumber"] ->
     oget x k = oget (ToJs.party p) k)
  /\ (forall k, In k ["street"; "city"; "postalCode"; "countryCode"] ->
        oget (oget x "address") k = oget (oget (ToJs.party p) "address") k).
Proof.
  unfold FromJs.party. intros H. obind_inversion H.
  inversion H; subst p; clear H.
  assert (Hn : nullish x = false)
    by (destruct x; try reflexivity; discriminate).
  unfold oget at 1 3 4. rewrite Hn. cbn [nullish ToJs.party].
  split.
  - intros k Hk. cbn in Hk.
    repeat (destruct Hk as [<- | Hk];
            [ first [ now apply text_inv | now apply opt_text_inv ] |]).
    contradiction.
  - intros k Hk.
    destruct (prop x "address") as [| | | | | |aps] eqn:Ha; try discriminate.
    match goal with
    | E : FromJs.address _ = Some ?a |- _ =>
        pose proof (address_view _ _ E k Hk) as Hp
    end.
    cbn [prop lookup String.eqb Ascii.eqb Bool.eqb].
    unfold oget. cbn [nullish ToJs.address]. exact Hp.
Qed.

Lemma payment_view (x : value) (o : option PaymentInfo.t) :
  FromJs.opt_record FromJs.payment x "payment" = Some o ->
  oget (prop x "payment") "iban"
  = oget (match o with
          | Some p => ToJs.payment p
          | None => JUndefined
          end) "iban".
Proof.
  unfold FromJs.opt_record.
  destruct (prop x "payment") as [| | | | | |ps]; try discriminate.
  - intros H. inversion H. reflexivity.
  - destruct (FromJs.payment (JObject ps)) as [p|] eqn:Hp; [|discriminate].
    cbn [option_map]. intros H. inversion H; subst o; clear H.
    unfold FromJs.payment in Hp. obind_inversion Hp.
    inversion Hp; subst p; clear Hp.
    unfold oget. cbn [nullish ToJs.payment].
    now apply opt_text_inv.
Qed.

(** The validator reads its argument along these paths only. *)
Lemma validateInvoice_ext (v w : value) :
  nullish v = nullish w ->
  (forall k, In k ["number"; "date"; "typeCode"; "currency"; "profile";
                   "dueDate"; "deliveryDate"] -> prop v k = prop w k) ->
  (forall k, In k ["name"; "id"; "vatNumber"] ->
     oget (prop v "seller") k = oget (prop w "seller") k) ->
  (forall k, In k ["street"; "city"; "postalCode"; "countryCode"] ->
     oget (oget (prop v "seller") "address") k
     = oget (oget (prop w "seller") "address") k) ->
  oget (prop v "buyer") "name" = oget (prop w "buyer") "name" ->
  oget (oget (prop v "buyer") "address") "countryCode"
  = oget (oget (prop w "buyer") "address") "countryCode" ->
  has_length (prop v "lines") = has_length (prop w "lines") ->
  (forall st,
     (items <- loop_items (prop v "lines") ;; validate_lines 0 items st)
     = (items <- loop_items (prop w "lines") ;; validate_lines 0 items st)) ->
  oget (prop v "payment") "iban" = oget (prop w "payment") "iban" ->
  validateInvoice v = validateInvoice w.
Proof.
  intros Hn Hh Hs Ha Hbn Hbc Hl Hls Hp.
  unfold validateInvoice, get. rewrite Hn.
  rewrite (Hh "number"), (Hh "date"), (Hh "typeCode"), (Hh "currency"),
    (Hh "profile"), (Hh "dueDate"), (Hh "deliveryDate") by (cbn; tauto).
  rewrite (Hs "name"), (Hs "id"), (Hs "vatNumber") by (cbn; tauto).
  rewrite (Ha "street"), (Ha "city"), (Ha "postalCode"), (Ha "countryCode")
    by (cbn; tauto).
  rewrite Hbn, Hbc, Hl, Hp.
  destruct (nullish w); [reflexivity|]. cbn [Js.bind].
  repeat match goal with
         | |- Js.bind ?m _ = Js.bind ?m _ =>
             destruct m; cbn [Js.bind]; [|reflexivity]
         end.
  rewrite Hls. reflexivity.
Qed.

(** The validator reads the declared fields only: on a request whose
    declared fields have their types it answers as on the typed
    invoice, whatever else the request holds. *)
Lemma validateInvoice_view (v : value) (inv : Invoice.t) :
  FromJs.invoice v = Some inv ->
  validateInvoice v = validateInvoice (ToJs.invoice inv).
Proof.
  unfold FromJs.invoice. intros H. obind_inversion H.
  inversion H; subst inv; clear H.
  assert (Hn : nullish v = false)
    by (destruct v; try reflexivity; discriminate).
  destruct (prop v "seller") as [| | | | | |sps] eqn:Hs; try discriminate.
  destruct (prop v "buyer") as [| | | | | |bps] eqn:Hb; try discriminate.
  destruct (prop v "lines") as [| | | | |xs|] eqn:Hl; try discriminate.
  repeat match goal with
         | E : FromJs.text _ _ = Some _ |- _ => apply text_inv in E
         | E : FromJs.opt_text _ _ = Some _ |- _ => apply opt_text_inv in E
         | E : FromJs.party _ = Some _ |- _ =>
             apply party_view in E; destruct E
         | E : FromJs.opt_record _ _ _ = Some _ |- _ => apply payment_view in E
         end.
  apply validateInvoice_ext; try rewrite Hs; try rewrite Hb; try rewrite Hl;
    cbn [ToJs.invoice prop lookup String.eqb Ascii.eqb Bool.eqb
         Invoice.seller Invoice.buyer Invoice.lines Invoice.payment];
    try assumption; try reflexivity.
  - intros k Hk. cbn in Hk.
    repeat (destruct Hk as [<- | Hk]; [cbn; assumption|]). contradiction.
  - auto with datatypes.
  - auto with datatypes.
  - cbn [has_length]. rewrite length_map.
    match goal with
    | E : FromJs.all _ _ = Some _ |- _ => now rewrite (all_length _ _ _ _ E)
    end.
  - intros st. cbn [loop_items Js.bind]. now apply validate_lines_view.
Qed.

End ViewFacts.

Module ReportFacts.

Import JsString JsNumber Js Validator ValidatorSpec ValidatorFacts ReportSpec.

#[local] Open Scope list_scope.

Lemma push_if_app (c : bool) (m : string) (l : list string) :
  push_if c m l = l ++ (if c then [m] else []).
Proof. destruct c; cbn; [reflexivity|now rewrite app_nil_r]. Qed.

Lemma lines_state_warnings (ls : list InvoiceLine.t) :
  forall (i : nat) (st : loop_state),
  st_warnings (lines_state i ls st) = st_warnings st ++ line_warnings i ls.
Proof.
  induction ls as [|l ls IH]; intros i st; cbn [lines_state line_warnings].
  - now rewrite app_nil_r.
  - rewrite IH. unfold line_state. cbn [st_warnings].
    rewrite push_if_app, <- app_assoc. reflexivity.
Qed.

Lemma lines_state_keeps_error (ls : list InvoiceLine.t) :
  forall (i : nat) (st : loop_state) (x : string),
  In x (st_errors st) -> In x (st_errors (lines_state i ls st)).
Proof.
  induction ls as [|l ls IH]; intros i st x H; cbn [lines_state];
    [exact H|].
  apply IH. unfold line_state. cbn [st_errors].
  repeat apply push_if_keeps. exact H.
Qed.

Lemma lines_state_ids (ls : list InvoiceLine.t) :
  forall (i : nat) (st : loop_state),
  st_lineIds (lines_state i ls st)
  = st_lineIds st ++ map (fun l => JString (InvoiceLine.id l)) ls.
Proof.
  induction ls as [|l ls IH]; intros i st; cbn [lines_state map].
  - now rewrite app_nil_r.
  - rewrite IH. unfold line_state. cbn [st_lineIds].
    now rewrite <- app_assoc.
Qed.

Lemma set_has_app (a b : list value) (x : value) :
  set_has (a ++ b) x = set_has a x || set_has b x.
Proof. unfold set_has. apply existsb_app. Qed.

Lemma same_value_zero_string (s : string) :
  same_value_zero (JString s) (JString s) = true.
Proof. cbn. apply String.eqb_refl. Qed.

(** A line whose identifier an earlier line has leaves the message. *)
Lemma lines_state_duplicate (ls : list InvoiceLine.t) :
  forall (k i j : nat) (st : loop_state) (l l' : InvoiceLine.t),
  (i < j)%nat ->
  nth_error ls i = Some l -> nth_error ls j = Some l' ->
  InvoiceLine.id l = InvoiceLine.id l' ->
  In (duplicate_error (k + j) l') (st_errors (lines_state k ls st)).
Proof.
  intros k i j st l l' Hij Hi Hj Hid.
  apply nth_error_split in Hj. destruct Hj as [a [b [Hls Hlen]]].
  subst ls.
  assert (Hl : In l a).
  { rewrite nth_error_app1 in Hi by lia. eapply nth_error_In. exact Hi. }
  clear Hi.
  assert (Hsplit : forall (xs ys : list InvoiceLine.t) (n : nat) (s : loop_state),
             lines_state n (xs ++ ys) s
             = lines_state (n + List.length xs) ys (lines_state n xs s)).
  { induction xs as [|x xs IH]; intros ys n s; cbn [app lines_state List.length].
    - now rewrite Nat.add_0_r.
    - rewrite IH. f_equal. lia. }
  rewrite Hsplit, Hlen. cbn [lines_state].
  apply lines_state_keeps_error.
  unfold line_state at 1. cbn [st_errors].
  do 7 apply push_if_keeps.
  rewrite lines_state_ids, set_has_app.
  replace (set_has (map (fun l0 => JString (InvoiceLine.id l0)) a)
             (JString (InvoiceLine.id l'))) with true.
  - rewrite orb_true_r. apply push_if_pushed.
  - symmetry. unfold set_has. apply existsb_exists.
    exists (JString (InvoiceLine.id l)). split.
    + apply in_map_iff. now exists l.
    + rewrite Hid. cbn. apply String.eqb_refl.
Qed.

Lemma truthy_opt (o : option string) :
  truthy (ToJs.opt o)
  = match o with
    | Some s => negb (String.eqb s "")
    | None => false
    end.
Proof. now destruct o. Qed.

(** The result on a typed invoice that has lines. *)
Lemma validate_typed_report (inv : Invoice.t) :
  Invoice.lines inv <> [] ->
  exists header,
    validateInvoice (ToJs.invoice inv)
    = Ok (let st := lines_state 0 (Invoice.lines inv)
                      (mk_state header (seller_warning inv) []) in
          ValidationResult.mk (Nat.eqb (List.length (st_errors st)) 0)
            (st_errors st) (st_warnings st ++ iban_warning inv)).
Proof.
  intros Hne. unfold validateInvoice. cbn.
  rewrite !guarded_date. cbn [Js.bind].
  rewrite validate_typed_lines, length_map.
  destruct (Nat.eqb_spec (List.length (Invoice.lines inv)) 0) as [Hz|_];
    [apply length_zero_iff_nil in Hz; contradiction|].
  cbn [negb Js.bind st_errors st_warnings].
  assert (Hw : push_if
                 (negb (truthy (ToJs.opt (TradeParty.vatNumber (Invoice.seller inv))))
                  && negb (truthy (ToJs.opt (TradeParty.id (Invoice.seller inv)))))
                 "BT-31/BT-29 : Numéro de TVA ou identifiant vendeur recommandé pour le profil EN 16931"
                 [] = seller_warning inv).
  { unfold seller_warning. rewrite !truthy_opt.
    now destruct (_ && _). }
  rewrite Hw. clear Hw.
  unfold iban_warning.
  destruct (Invoice.payment inv) as [p|]; cbn;
    [destruct (PaymentInfo.iban p) as [iban|]; cbn;
     [destruct (String.eqb iban ""); cbn|]|];
    eexists; cbv zeta; rewrite ?app_nil_r;
    try rewrite (push_if_app (negb (IBAN_RE (remove_ws iban))));
    reflexivity.
Qed.

(** The warnings on a typed invoice without lines. *)
Lemma validate_without_lines (inv : Invoice.t) :
  Invoice.lines inv = [] ->
  exists r,
    validateInvoice (ToJs.invoice inv) = Ok r
    /\ ValidationResult.warnings r
       = seller_warning inv ++ line_warnings 0 [] ++ iban_warning inv.
Proof.
  intros Hl. unfold validateInvoice. cbn.
  rewrite !guarded_date. cbn [Js.bind].
  rewrite Hl. cbn [map List.length Nat.eqb negb Js.bind st_errors st_warnings].
  assert (Hw : push_if
                 (negb (truthy (ToJs.opt (TradeParty.vatNumber (Invoice.seller inv))))
                  && negb (truthy (ToJs.opt (TradeParty.id (Invoice.seller inv)))))
                 "BT-31/BT-29 : Numéro de TVA ou identifiant vendeur recommandé pour le profil EN 16931"
                 [] = seller_warning inv).
  { unfold seller_warning. rewrite !truthy_opt.
    now destruct (_ && _). }
  rewrite Hw. clear Hw.
  unfold iban_warning.
  destruct (Invoice.payment inv) as [p|]; cbn;
    [destruct (PaymentInfo.iban p) as [iban|]; cbn;
     [destruct (String.eqb iban ""); cbn|]|];
    eexists; (split; [reflexivity|]);
    cbn [ValidationResult.warnings]; rewrite ?app_nil_r;
    try rewrite (push_if_app (negb (IBAN_RE (remove_ws iban))));
    reflexivity.
Qed.

(** The warnings on a typed invoice. *)
Lemma typed_warnings (inv : Invoice.t) :
  exists r,
    validateInvoice (ToJs.invoice inv) = Ok r
    /\ ValidationResult.warnings r
       = seller_warning inv ++ line_warnings 0 (Invoice.lines inv)
           ++ iban_warning inv.
Proof.
  destruct (Invoice.lines inv) as [|l0 ls] eqn:Hl.
  - apply validate_without_lines. exact Hl.
  - assert (Hne : Invoice.lines inv <> []) by (rewrite Hl; discriminate).
    destruct (validate_typed_report inv Hne) as [header Hr].
    eexists. split; [exact Hr|]. cbv zeta.
    cbn [ValidationResult.warnings].
    rewrite lines_state_warnings. cbn [st_warnings].
    now rewrite <- app_assoc, Hl.
Qed.

End ReportFacts.

Module RequestFacts.

Import JsString JsNumber Js Validator ValidatorSpec ValidatorFacts.
Import Server ServerSpec ServerFacts ViewFacts.

#[local] Open Scope list_scope.

Lemma facturx_generate_with_defaults (args : list (string * value)) :
  facturx_generate true args =
  let invoice := with_defaults args in
  match validateInvoice (JObject invoice) with
  | Throw e => (Failed e, invoice)
  | Ok validation =>
      if negb (ValidationResult.valid validation)
      then (Invalid validation, invoice)
      else
        match FromJs.invoice (JObject invoice) with
        | Some typed =>
            (Generated (Generator.generateFacturX typed)
               (Calculator.calculateTotals typed)
               (ValidationResult.warnings validation), invoice)
        | None => (Untyped, invoice)
        end
  end.
Proof. reflexivity. Qed.

(** On a request whose declared fields have their types, the handler
    decides by the mandatory rules. *)
Lemma facturx_generate_typed (args : list (string * value))
  (inv : Invoice.t) :
  FromJs.invoice (JObject (with_defaults args)) = Some inv ->
  exists r,
    validateInvoice (JObject (with_defaults args)) = Ok r
    /\ ValidationResult.valid r = mandatory_rules inv
    /\ fst (facturx_generate true args)
       = if mandatory_rules inv
         then Generated (Generator.generateFacturX inv)
                (Calculator.calculateTotals inv) (ValidationResult.warnings r)
         else Invalid r.
Proof.
  intros Hv. destruct (validate_typed_invoice inv) as [r [Hr [Hm _]]].
  exists r. rewrite (validateInvoice_view _ _ Hv).
  split; [exact Hr|]. split; [exact Hm|].
  rewrite facturx_generate_with_defaults. cbv zeta.
  rewrite (validateInvoice_view _ _ Hv), Hr, Hv, Hm.
  now destruct (mandatory_rules inv).
Qed.

(** A type code that is falsy is none of the codes. *)
Lemma falsy_is_no_code (x : value) (codes : list string) :
  truthy x = false -> existsb (String.eqb "") codes = false ->
  has codes x = false.
Proof.
  unfold has, set_has. intros Hx Hc.
  destruct x;
    try (clear Hx Hc; induction codes as [|c codes IH];
         [reflexivity | cbn; exact IH]).
  cbn [truthy] in Hx. apply negb_false_iff, String.eqb_eq in Hx. subst s.
  induction codes as [|c codes IH]; [reflexivity|].
  cbn [existsb map] in *. apply orb_false_elim in Hc.
  destruct Hc as [Hc1 Hc2]. cbn [same_value_zero].
  rewrite Hc1. now apply IH.
Qed.

Lemma type_code_error_kept (v : value) (r : ValidationResult.t) :
  validateInvoice v = Ok r ->
  has INVOICE_TYPE_CODES (prop v "typeCode") = false ->
  In "BT-3 : Code type facture invalide (valeurs : 380, 381, 389, 384)"%string
    (ValidationResult.errors r).
Proof.
  unfold validateInvoice. intros H Hc.
  destruct (get v "number") as [number|] eqn:Hget; [|discriminate H].
  cbn [Js.bind] in H. rewrite Hc in H. cbn [negb] in H.
  bind_inversion H. inversion H; subst r; clear H.
  cbn [ValidationResult.errors].
  match goal with
  | Hst : (if negb (has_length _) then _ else _) = Ok ?st |- _ =>
      destruct (has_length (prop v "lines")); cbn [negb] in Hst;
      [ bind_inversion Hst | inversion Hst; subst st; clear Hst ]
  end.
  - match goal with
    | Hl : validate_lines _ _ _ = Ok _ |- _ =>
        apply (validate_lines_keeps _ _ _ _ _ Hl)
    end.
    cbn [st_errors]. repeat first [apply push_if_pushed | apply push_if_keeps].
  - cbn [st_errors]. apply in_or_app. left.
    repeat first [apply push_if_pushed | apply push_if_keeps].
Qed.

(** Case analysis on the computations a result was bound from, carried
    out in the goal as well. *)
Ltac bind_inversion_goal H :=
  repeat match type of H with
  | Js.bind ?m _ = Js.Ok _ =>
      let E := fresh "E" in
      destruct m eqn:E; cbn [Js.bind] in H |- *; [|discriminate H]
  end.

(** Whether the loop body returns does not depend on the state. *)
Lemma validate_line_returns (i : nat) (line : value) (st st2 : loop_state) :
  (exists st', validate_line i line st = Ok st') ->
  exists st', validate_line i line st2 = Ok st'.
Proof.
  unfold validate_line. intros [st' H]. bind_inversion_goal H. eauto.
Qed.

Lemma validate_lines_returns (items : list value) :
  forall (i : nat) (st st2 : loop_state),
  (exists st', validate_lines i items st = Ok st') ->
  exists st', validate_lines i items st2 = Ok st'.
Proof.
  induction items as [|line items IH]; intros i st st2 [st' H];
    cbn [validate_lines] in *; [eauto|].
  destruct (validate_line i line st) as [st1|] eqn:E; [|discriminate H].
  cbn [Js.bind] in H.
  destruct (validate_line_returns i line st st2 (ex_intro _ st1 E))
    as [st3 ->].
  cbn [Js.bind]. apply (IH (S i) st1 st3). exists st'. exact H.
Qed.

(** The validator returns on a request when it does once the defaults
    are filled in: the type code and the profile are only compared. *)
Lemma validateInvoice_returns_without_defaults
  (args : list (string * value)) :
  (exists r, validateInvoice (JObject (with_defaults args)) = Ok r) ->
  exists r, validateInvoice (JObject args) = Ok r.
Proof.
  intros [r H].
  assert (Hk : forall k,
            String.eqb k "profile" = false ->
            String.eqb k "typeCode" = false ->
            prop (JObject (with_defaults args)) k = prop (JObject args) k).
  { intros k H1 H2. cbn [prop]. rewrite with_defaults_lookup, H1, H2.
    reflexivity. }
  unfold validateInvoice, get in *. cbn [nullish] in *. cbv zeta in *.
  rewrite !(Hk "number" eq_refl eq_refl), !(Hk "date" eq_refl eq_refl),
    !(Hk "currency" eq_refl eq_refl), !(Hk "dueDate" eq_refl eq_refl),
    !(Hk "deliveryDate" eq_refl eq_refl), !(Hk "seller" eq_refl eq_refl),
    !(Hk "buyer" eq_refl eq_refl), !(Hk "lines" eq_refl eq_refl),
    !(Hk "payment" eq_refl eq_refl) in H.
  cbn [Js.bind] in *.
  bind_inversion_goal H.
  match goal with
  | E : (if negb (has_length ?l) then _ else _) = Ok ?st |- _ =>
      destruct (has_length l); cbn [negb] in E |- *;
      [ bind_inversion_goal E;
        match goal with
        | |- context [validate_lines 0 ?items ?st2] =>
            destruct (validate_lines_returns items 0 _ st2
                        (ex_intro _ st E)) as [st3 ->]
        end
      | ];
      cbn [Js.bind]
  end;
    match goal with
    | E : (if truthy (oget (prop _ "payment") "iban") then _ else _) = Ok _
      |- _ =>
        destruct (truthy (oget (prop (JObject args) "payment") "iban"));
        [ bind_inversion_goal E | ]
    end;
    cbn [Js.bind]; eauto.
Qed.

End RequestFacts.

Module UsageFacts.

Import JsNumber Usage UsageSpec.

#[local] Open Scope list_scope.

Lemma incrementFreeUsage_same_day (d : string) (c : float) :
  incrementFreeUsage (Some (mk_usage d c)) d = Some (mk_usage d (c + 1)%float).
Proof.
  unfold incrementFreeUsage, readUsage, writeUsage. cbn [date count].
  now rewrite String.eqb_refl.
Qed.

Lemma incrementFreeUsage_new_day (f : file) (d : string) :
  stale f d = true -> incrementFreeUsage f d = Some (mk_usage d 1).
Proof.
  unfold stale, incrementFreeUsage, writeUsage. intros H.
  apply negb_true_iff in H. now rewrite H.
Qed.

Lemma checkFreeQuota_same_day (d : string) (c : float) :
  checkFreeQuota (Some (mk_usage d c)) d
  = if (10 <=? c)%float then Denied c 10 else Allowed c (10 - c)%float.
Proof.
  unfold checkFreeQuota, readUsage. cbn [date count].
  now rewrite String.eqb_refl.
Qed.

(** The count after [n] generations of a day, [n] at most 11. *)
Lemma after_generations_count (n : nat) (f : file) (d : string) :
  stale f d = true -> (0 < n <= 11)%nat ->
  after_generations n f d = Some (mk_usage d (of_nat n)).
Proof.
  intros Hs Hn. unfold after_generations.
  destruct n as [|n]; [lia|].
  do 11 (destruct n as [|n];
         [ cbn [Nat.iter nat_rect];
           rewrite (incrementFreeUsage_new_day f d Hs);
           rewrite ?incrementFreeUsage_same_day;
           reflexivity |]).
  lia.
Qed.

(** The answer after [n] generations of a day, [n] at most 10. *)
Lemma checkFreeQuota_after (f : file) (todayStr : string) (n : nat) :
  stale f todayStr = true -> (n <= 10)%nat ->
  checkFreeQuota (after_generations n f todayStr) todayStr
  = if Nat.ltb n 10
    then Allowed (of_nat n) (of_nat (10 - n))
    else Denied 10 10.
Proof.
  intros Hs Hn. destruct n as [|n].
  - cbn [Nat.ltb Nat.leb]. unfold after_generations. cbn [Nat.iter nat_rect].
    unfold stale in Hs. apply negb_true_iff in Hs.
    unfold checkFreeQuota. rewrite Hs. reflexivity.
  - rewrite (after_generations_count (S n) f todayStr Hs) by lia.
    rewrite checkFreeQuota_same_day.
    do 10 (destruct n as [|n]; [reflexivity|]).
    lia.
Qed.

End UsageFacts.

Module LicenseFacts.

Import JsString JsSearch License LicenseSpec StringFacts SearchFacts.

#[local] Open Scope list_scope.

Section Runtime.

Variable verify : string -> string -> option bool.
Variable decode : string -> option LicensePayload.
Variable date_of : string -> Date.

(** The key, cut. *)
Lemma _validate_cut (p s : list ascii) (now : Z) :
  includes_aux (chars ".") s = false ->
  _validate verify decode date_of
    ("FTRX-" ++ of_chars p ++ "." ++ of_chars s) now
  = check_parts verify decode date_of (of_chars p) (of_chars s) now.
Proof.
  intros Hs. unfold _validate.
  rewrite !chars_app, strip_prefix_refl, !chars_of_chars.
  change (chars ".") with ["."%char]. cbn [app].
  unfold lastIndexOf.
  rewrite (lastIndexOf_from_app ["."%char] p ("."%char :: s) s);
    [|reflexivity|exact Hs].
  cbn [Nat.add]. rewrite slice_units_prefix, slice_units_suffix.
  reflexivity.
Qed.

Lemma key_cut (key : string) (body : list ascii) (i : nat) :
  strip_prefix (chars "FTRX-") (chars key) = Some body ->
  lastIndexOf body (chars ".") = Some i ->
  exists p s,
    key = ("FTRX-" ++ of_chars p ++ "." ++ of_chars s)%string
    /\ includes_aux (chars ".") s = false.
Proof.
  intros Hp Hl. apply strip_prefix_some in Hp.
  change (chars ".") with ["."%char] in *.
  apply lastIndexOf_from_some in Hl.
  destruct Hl as [p [s [Hb [_ Hn]]]]. cbn [app] in Hb, Hn. exists p, s.
  split; [|exact Hn].
  rewrite <- (of_chars_chars key), Hp, Hb.
  now rewrite !of_chars_app.
Qed.

(** What [_validate] accepts, and the plan it gives. *)
Lemma _validate_accepted (key : string) (now : Z) :
  let r := _validate verify decode date_of key now in
  (valid r = true <->
   exists payload, acceptable verify decode date_of key now payload)
  /\ (forall payload, acceptable verify decode date_of key now payload ->
        result_plan r = plan payload)
  /\ (valid r = false -> result_plan r = "free"%string /\ error r <> None).
Proof.
  cbv zeta.
  assert (Hcut : forall p s,
            includes (of_chars s) "." = false ->
            _validate verify decode date_of
              ("FTRX-" ++ of_chars p ++ "." ++ of_chars s) now
            = check_parts verify decode date_of (of_chars p) (of_chars s) now).
  { intros p s Hs. apply _validate_cut.
    unfold includes in Hs. now rewrite chars_of_chars in Hs. }
  assert (Hacc : forall payload,
            acceptable verify decode date_of key now payload ->
            _validate verify decode date_of key now
            = mk_result true (plan payload) (Some (email payload))
                (Some (id payload)) (Some (date_of (expiresAt payload)))
                (Some (option_map (fun t => (t - now) / 86400000)
                         (date_of (expiresAt payload))))
                None).
  { intros payload [p [s [Hk [Hp [Hs [Hdot [Hv [Hd He]]]]]]]].
    rewrite Hk, <- (of_chars_chars p), <- (of_chars_chars s).
    rewrite Hcut by now rewrite of_chars_chars.
    rewrite !of_chars_chars. unfold check_parts.
    destruct (String.eqb_spec p ""); [contradiction|].
    destruct (String.eqb_spec s ""); [contradiction|].
    cbn [orb]. rewrite Hv, Hd. cbv zeta.
    destruct (date_of (expiresAt payload)) as [t|]; [|reflexivity].
    destruct (Z.ltb_spec t now); [lia|reflexivity]. }
  split; [split|split].
  - intros H.
    assert (Hk : exists p s,
              key = ("FTRX-" ++ of_chars p ++ "." ++ of_chars s)%string
              /\ includes_aux (chars ".") s = false).
    { unfold _validate in H.
      destruct (strip_prefix (chars "FTRX-") (chars key)) as [body|] eqn:Hp;
        [|discriminate H].
      destruct (lastIndexOf body (chars ".")) as [i|] eqn:Hl;
        [|discriminate H].
      eapply key_cut; eassumption. }
    destruct Hk as [p [s [-> Hs]]].
    rewrite _validate_cut in H by exact Hs. unfold check_parts in H.
    destruct (String.eqb_spec (of_chars p) ""); [discriminate H|].
    destruct (String.eqb_spec (of_chars s) ""); [discriminate H|].
    cbn [orb] in H.
    destruct (verify (of_chars p) (of_chars s)) as [[|]|] eqn:Hv;
      try discriminate H.
    destruct (decode (of_chars p)) as [payload|] eqn:Hd; [|discriminate H].
    cbv zeta in H. exists payload, (of_chars p), (of_chars s).
    repeat split; try assumption.
    + unfold includes. now rewrite chars_of_chars.
    + destruct (date_of (expiresAt payload)) as [t|]; [|exact I].
      destruct (Z.ltb_spec t now); [discriminate H|lia].
  - intros [payload Ha]. now rewrite (Hacc payload Ha).
  - intros payload Ha. now rewrite (Hacc payload Ha).
  - intros H. unfold _validate in *.
    destruct (strip_prefix (chars "FTRX-") (chars key)) as [body|];
      [|split; [reflexivity|discriminate]].
    destruct (lastIndexOf body (chars ".")) as [i|];
      [|split; [reflexivity|discriminate]].
    unfold check_parts in *.
    destruct (_ || _); [split; [reflexivity|discriminate]|].
    destruct (verify _ _) as [[|]|];
      try (split; [reflexivity|discriminate]).
    destruct (decode _) as [payload|];
      [|split; [reflexivity|discriminate]].
    cbv zeta in *.
    destruct (match date_of (expiresAt payload) with
              | Some t => t <? now
              | None => false
              end); [split; [reflexivity|discriminate]|discriminate H].
Qed.

End Runtime.

End LicenseFacts.

(* ================================================================== *)
(** * The claims *)
(* ================================================================== *)

Import JsString JsNumber Js.
Import Calculator CalculatorSpec CalculatorFacts.
Import Validator ValidatorSpec ValidatorFacts.
Import Generator Parser ParserSpec ParserFacts.
Import Server ServerSpec ServerFacts.
Import Samples.
Import DecimalSpec TaxSpec DiscrepancySpec GuidelineSpec GuidelineSamples.
Import RoundingFacts TaxFacts GuidelineFacts.

#[local] Open Scope list_scope.

(** C1 (the code departs from the claim): an invoice of profile
    BASIC_WL that the validator accepts without error or warning is
    read back from its generated document with profile BASIC; every
    other field is read back as it was. *)
Theorem round_trip_changes_profile :
  let invoice :=
    sample_invoice "BASIC_WL" [sample_line "1" 10 150 1500 20 "S"] in
  validateInvoice (ToJs.invoice invoice) = Ok (ValidationResult.mk true [] [])
  /\ parseFacturXXml (Xml.parse (generateFacturX invoice))
     = Ok (sample_invoice "BASIC" [sample_line "1" 10 150 1500 20 "S"]).
Proof. vm_compute. split; reflexivity. Qed.

(** C2 (the code departs from the claim): a document that has the
    root element and the two mandatory sections, and no settlement
    section (or no trade agreement section), makes the parser throw a
    TypeError. *)
Theorem parse_without_settlement_throws :
  parseFacturXXml (Xml.parse document_without_settlement) = Throw TypeError
  /\ parseFacturXXml (Xml.parse document_without_agreement) = Throw TypeError.
Proof. vm_compute. split; reflexivity. Qed.




(** C4 as stated fails: a number that is not a string, or a line
    that is null, makes the validator throw. *)
Lemma validateInvoice_throws_on_ill_typed :
  validateInvoice (JObject [("number", JNumber 5)]) = Throw TypeError
  /\ validateInvoice (JObject [("lines", JArray [JNull])]) = Throw TypeError.
Proof. vm_compute. split; reflexivity. Qed.

(** C4, amended: on every invoice value whose parts, where present,
    have their declared types (any of them may be absent or malformed
    in content), the validator returns a result made of a validity
    flag, a list of errors and a list of warnings. *)
Theorem validateInvoice_returns (v : value) :
  well_typed_invoice v = true ->
  exists valid errors warnings,
    validateInvoice v = Ok (ValidationResult.mk valid errors warnings).
Proof.
  intros H. destruct (validateInvoice_total v H) as [[valid errors warnings] Hr].
  now exists valid, errors, warnings.
Qed.

Lemma validateInvoice_returns_witness :
  well_typed_invoice (JObject [("seller", JString "ACME")]) = true
  /\ exists valid errors warnings,
       validateInvoice (JObject [("seller", JString "ACME")])
       = Ok (ValidationResult.mk valid errors warnings).
Proof.
  split; [reflexivity|].
  apply (validateInvoice_returns (JObject [("seller", JString "ACME")])).
  reflexivity.
Defined.

(** C5: an invoice whose number is empty or made of white space is
    rejected with an error that names the number field (BT-1); an
    invoice without lines is rejected. *)
Theorem rejects_blank_number_and_no_lines (v : value) :
  well_typed_invoice v = true ->
  (forall s, prop v "number" = JString s -> trim s = ""%string ->
     exists r,
       validateInvoice v = Ok r
       /\ ValidationResult.valid r = false
       /\ ValidationResult.errors r <> []
       /\ In "BT-1 : Numéro de facture requis"%string
            (ValidationResult.errors r))
  /\ (prop v "lines" = JArray [] ->
      exists r, validateInvoice v = Ok r /\ ValidationResult.valid r = false).
Proof.
  intros Hwt. destruct (validateInvoice_total v Hwt) as [r Hr].
  pose proof (validateInvoice_valid v r Hr) as Hvalid.
  destruct (header_error_kept v r Hr) as [Hnumber Hlines].
  split.
  - intros s Hs Htrim. exists r.
    assert (Hin : In "BT-1 : Numéro de facture requis"%string
                    (ValidationResult.errors r)).
    { apply Hnumber. rewrite Hs. cbn. now rewrite Htrim. }
    repeat split; [exact Hr| |intros Hnil; now rewrite Hnil in Hin|exact Hin].
    rewrite Hvalid. destruct (ValidationResult.errors r); [contradiction|].
    reflexivity.
  - intros Hl. exists r. split; [exact Hr|].
    assert (Hin : In "Au moins une ligne de facture est requise"%string
                    (ValidationResult.errors r)).
    { apply Hlines. now rewrite Hl. }
    rewrite Hvalid. destruct (ValidationResult.errors r); [contradiction|].
    reflexivity.
Qed.

Lemma rejects_blank_number_and_no_lines_witness :
  let v := JObject [("number", JString "   "); ("lines", JArray [])] in
  well_typed_invoice v = true
  /\ (exists r,
        validateInvoice v = Ok r
        /\ ValidationResult.valid r = false
        /\ ValidationResult.errors r <> []
        /\ In "BT-1 : Numéro de facture requis"%string
             (ValidationResult.errors r))
  /\ (exists r, validateInvoice v = Ok r /\ ValidationResult.valid r = false).
Proof.
  intros v.
  assert (Hwt : well_typed_invoice v = true) by reflexivity.
  destruct (rejects_blank_number_and_no_lines v Hwt) as [Hnumber Hlines].
  split; [exact Hwt|]. split.
  - apply (Hnumber "   "%string); reflexivity.
  - apply Hlines. reflexivity.
Defined.

(** C6 as stated fails: a line of quantity -1 at 8.375 billed -8.35
    differs from the product by 0.025, and by 3 cents once each side
    is rounded to two decimals, a half going away from zero or to the
    even digit; the validator gives no warning. *)
Lemma amount_mismatch_unflagged :
  let l := sample_line "1" (-1) 8.375 (-8.35) 20 "S" in
  validateInvoice (ToJs.invoice (sample_invoice "EN_16931" [l]))
  = Ok (ValidationResult.mk true [] [])
  /\ above_tolerance (exact_gap l) = true
  /\ decimal_gap half_away l = Some 3%Z
  /\ decimal_gap half_even l = Some 3%Z.
Proof. vm_compute. repeat split; reflexivity. Qed.

(** C6, amended: for every line where the binary64 difference between
    [Math.round(x * 100) / 100] of quantity times unit price and of the
    total exceeds 0.02 in magnitude, the validator adds the warning
    that names the line and cites both rounded amounts and their
    difference, and no error: the validity is that of the mandatory
    rules, of which this consistency is none.  So an invoice that meets
    the mandatory rules and has such a line is valid, without error and
    with a warning. *)
Theorem amount_mismatch_warns (inv : Invoice.t) (i : nat)
  (l : InvoiceLine.t) :
  nth_error (Invoice.lines inv) i = Some l ->
  exceeds_tolerance l = true ->
  exists r,
    validateInvoice (ToJs.invoice inv) = Ok r
    /\ In (discrepancy_warning i l) (ValidationResult.warnings r)
    /\ ValidationResult.valid r = mandatory_rules inv
    /\ (mandatory_rules inv = true ->
        ValidationResult.valid r = true
        /\ ValidationResult.errors r = []
        /\ ValidationResult.warnings r <> []).
Proof.
  intros Hl He.
  destruct (validate_typed_invoice inv) as [r [Hr [Hvalid Hwarn]]].
  pose proof (Hwarn i l Hl He) as Hin.
  exists r. split; [exact Hr|]. split; [exact Hin|]. split; [exact Hvalid|].
  intros Hm. split; [congruence|]. split.
  - pose proof (validateInvoice_valid _ _ Hr) as Hv.
    rewrite Hvalid, Hm in Hv. symmetry in Hv. apply Nat.eqb_eq in Hv.
    now apply length_zero_iff_nil.
  - intros Hnil. now rewrite Hnil in Hin.
Qed.

Lemma amount_mismatch_warns_witness :
  let l := sample_line "1" 10 15 151 20 "S" in
  let inv := sample_invoice "EN_16931" [l] in
  nth_error (Invoice.lines inv) 0 = Some l
  /\ exceeds_tolerance l = true
  /\ mandatory_rules inv = true
  /\ discrepancy_warning 0 l
     = "Ligne 1 : Montant total (151) ≠ quantité × prix unitaire (150) — écart de 1.00 €"%string
  /\ exists r,
       validateInvoice (ToJs.invoice inv) = Ok r
       /\ In (discrepancy_warning 0 l) (ValidationResult.warnings r)
       /\ ValidationResult.valid r = true
       /\ ValidationResult.errors r = [].
Proof.
  intros l inv.
  assert (Hl : nth_error (Invoice.lines inv) 0 = Some l) by reflexivity.
  assert (He : exceeds_tolerance l = true) by (vm_compute; reflexivity).
  assert (Hm : mandatory_rules inv = true) by (vm_compute; reflexivity).
  destruct (amount_mismatch_warns inv 0 l Hl He)
    as [r [Hr [Hin [_ Hok]]]].
  destruct (Hok Hm) as [Hv [Hn _]].
  split; [exact Hl|]. split; [exact He|]. split; [exact Hm|].
  split; [vm_compute; reflexivity|].
  exists r. repeat split; assumption.
Defined.




(** C9, amended: the handler leaves every property of the caller's
    invoice as it was, except that a type code that is absent or
    falsy (empty) is set to 380 and a profile that is absent or falsy
    is set to EN_16931, before validation, when the quota check lets
    the request through. *)
Theorem generate_only_fills_defaults (quota_allowed : bool)
  (args : list (string * value)) :
  let final := snd (facturx_generate quota_allowed args) in
  let filled (k : string) :=
    quota_allowed && negb (truthy (prop (JObject args) k)) in
  (forall k, k <> "typeCode"%string -> k <> "profile"%string ->
             lookup k final = lookup k args)
  /\ lookup "typeCode" final =
     (if filled "typeCode" then Some (JString "380")
      else lookup "typeCode" args)
  /\ lookup "profile" final =
     (if filled "profile" then Some (JString "EN_16931")
      else lookup "profile" args).
Proof.
  intros final filled. unfold final, filled.
  rewrite facturx_generate_state.
  destruct quota_allowed; cbn [andb]; [|now repeat split].
  repeat split.
  - intros k Ht Hp. rewrite with_defaults_lookup.
    apply String.eqb_neq in Ht, Hp. now rewrite Ht, Hp.
  - rewrite with_defaults_lookup.
    change (String.eqb "typeCode" "profile") with false.
    change (String.eqb "typeCode" "typeCode") with true. reflexivity.
  - rewrite with_defaults_lookup.
    change (String.eqb "profile" "profile") with true. cbn [andb].
    destruct (negb (truthy (prop (JObject args) "profile")));
      [reflexivity|].
    change (String.eqb "profile" "typeCode") with false. reflexivity.
Qed.

(** C9 as stated fails: a type code that is present and empty is
    overwritten. *)
Lemma generate_overwrites_empty_type_code :
  let args := [("typeCode", JString ""); ("number", JString "F-2024-001")] in
  lookup "typeCode" args = Some (JString "")
  /\ lookup "typeCode" (snd (facturx_generate true args))
     = Some (JString "380").
Proof. vm_compute. split; reflexivity. Qed.

(** C10: the validity flag of a result is true exactly when its list
    of errors is empty; two results with the same errors have the same
    flag, whatever their warnings. *)
Theorem valid_iff_no_error (v : value) (r : ValidationResult.t) :
  validateInvoice v = Ok r ->
  (ValidationResult.valid r = true <-> ValidationResult.errors r = [])
  /\ (forall v' r',
        validateInvoice v' = Ok r' ->
        ValidationResult.errors r' = ValidationResult.errors r ->
        ValidationResult.valid r' = ValidationResult.valid r).
Proof.
  intros Hr. pose proof (validateInvoice_valid v r Hr) as Hv. split.
  - rewrite Hv, Nat.eqb_eq. apply length_zero_iff_nil.
  - intros v' r' Hr' He. rewrite Hv, (validateInvoice_valid v' r' Hr').
    now rewrite He.
Qed.

Lemma valid_iff_no_error_witness :
  let v := ToJs.invoice
             (sample_invoice "EN_16931" [sample_line "1" 10 15 151 20 "S"]) in
  let r := ValidationResult.mk true []
             ["Ligne 1 : Montant total (151) ≠ quantité × prix unitaire (150) — écart de 1.00 €"%string] in
  validateInvoice v = Ok r
  /\ (ValidationResult.valid r = true <-> ValidationResult.errors r = []).
Proof.
  intros v r.
  assert (Hr : validateInvoice v = Ok r) by (vm_compute; reflexivity).
  split; [exact Hr|]. apply (valid_iff_no_error v r Hr).
Defined.

(* ================================================================== *)
(** * Further properties of the code *)
(* ================================================================== *)

Import JsSearch Pdf Request AmountSpec AmountValueSpec ParsedSpec ReportSpec UsageSpec
  LicenseSpec MoreSamples.
Import StringFacts SearchFacts AmountFacts AmountValueFacts TotalsFacts ParsedFacts
  ViewFacts ReportFacts RequestFacts UsageFacts LicenseFacts.


(** X2: there is at most one summary per line, and none exactly when
    the invoice has no line; every total is then 0. *)
Theorem summaries_at_most_lines (invoice : Invoice.t) :
  let t := calculateTotals invoice in
  (List.length (InvoiceTotals.vatSummaries t)
   <= List.length (Invoice.lines invoice))%nat
  /\ (InvoiceTotals.vatSummaries t = [] <-> Invoice.lines invoice = [])
  /\ (Invoice.lines invoice = [] ->
      t = InvoiceTotals.mk 0 0 0 0 0 []).
Proof.
  cbv zeta. pose proof (summary_keys invoice) as Hk.
  pose proof (first_occurrences_length (map line_key (Invoice.lines invoice)))
    as Hlen.
  rewrite <- Hk, !length_map in Hlen.
  split; [exact Hlen|]. split.
  - split.
    + intros He. rewrite He in Hk. cbn in Hk.
      destruct (Invoice.lines invoice); [reflexivity|discriminate].
    + intros He. rewrite He in Hlen. cbn in Hlen.
      apply length_zero_iff_nil. lia.
  - intros He. unfold calculateTotals. rewrite He. vm_compute. reflexivity.
Qed.

(** X3: an amount that is finite and below 10^21 in magnitude is
    written with digits, a point and exactly two decimals, after a
    minus sign exactly when it is below zero; its digits are the whole
    number of cents nearest to a hundred times its magnitude, a half
    going up. *)
Theorem fmt_two_decimals (n : float) :
  fixed_range n = true ->
  amount_text (fmt n) = true
  /\ String.prefix "-" (fmt n) = (n <? 0)%float
  /\ exists num den k,
       exact_value n = Some (num, den)
       /\ nearest_half_up (100 * Z.abs num)%Z den k
       /\ amount_cents (fmt n) = k.
Proof.
  intros H. unfold fmt. split; [now apply toFixed2_amount|].
  now apply toFixed2_value.
Qed.

Lemma fmt_two_decimals_witness :
  fixed_range (-1234.505)%float = true
  /\ fmt (-1234.505)%float = "-1234.51"%string
  /\ amount_text (fmt (-1234.505)%float) = true
  /\ String.prefix "-" (fmt (-1234.505)%float) = true.
Proof.
  assert (H : fixed_range (-1234.505)%float = true) by (vm_compute; reflexivity).
  destruct (fmt_two_decimals (-1234.505)%float H) as [Ha [Hs _]].
  split; [exact H|]. split; [vm_compute; reflexivity|].
  split; [exact Ha|]. rewrite Hs. vm_compute. reflexivity.
Defined.

(** X4: a date of the form YYYY-MM-DD is written as eight digits, from
    which the parser reads the same date back. *)
Theorem date_round_trip (iso : string) :
  DATE_RE iso = true ->
  eight_digits (toDate8 iso) = true
  /\ toIsoDate (JString (toDate8 iso)) = iso.
Proof.
  intros H. split; [now apply date_digits|now apply date_round_trip_chars].
Qed.

Lemma date_round_trip_witness :
  DATE_RE "2024-01-15" = true
  /\ eight_digits (toDate8 "2024-01-15") = true
  /\ toIsoDate (JString (toDate8 "2024-01-15")) = "2024-01-15"%string.
Proof.
  split; [reflexivity|]. apply (date_round_trip "2024-01-15"). reflexivity.
Defined.





(** X7: the parser never reads a bank identifier code, a buyer's
    product identifier, a contact, a second address line or a state:
    they are absent from every parsed invoice. *)
Theorem parsed_fields_never_read (parsed : value) (inv : Invoice.t) :
  parseFacturXXml parsed = Ok inv ->
  party_unread (Invoice.seller inv)
  /\ party_unread (Invoice.buyer inv)
  /\ Forall (fun l => InvoiceLine.buyerProductId l = None) (Invoice.lines inv)
  /\ (forall p, Invoice.payment inv = Some p -> PaymentInfo.bic p = None).
Proof.
  intros H. pose proof (parseFacturXXml_lines parsed inv H) as Hl.
  destruct (parseFacturXXml_ok parsed inv H)
    as [items [rs [rb [_ [Hs [Hb [_ [_ [_ [_ [_ Hp]]]]]]]]]]].
  apply parseParty_ok in Hs. apply parseParty_ok in Hb.
  unfold party_unread. repeat split; try tauto.
  - apply (map_result_Forall _ _ parseLine _ (line_items parsed)); [|exact Hl].
    intros x y Hxy. apply parseLine_ok in Hxy. tauto.
  - intros p Hpay. specialize (Hp p Hpay). tauto.
Qed.

Lemma parsed_fields_never_read_witness :
  let sent :=
    Invoice.mk "F-2024-001" "380" "2024-01-15" None None "EUR" "EN_16931"
      (TradeParty.mk "ACME SAS" (Some "12345678900017") None None
         sample_address (Some (Contact.mk None (Some "a@acme.fr") None)))
      (TradeParty.mk "CLIENT SA" None None None sample_address None)
      [sample_line "1" 10 150 1500 20 "S"]
      (Some (PaymentInfo.mk "30" (Some "FR7630006000011234567890189")
               (Some "AGRIFRPP") None None))
      None None None None in
  let read :=
    Invoice.mk "F-2024-001" "380" "2024-01-15" None None "EUR" "EN_16931"
      (TradeParty.mk "ACME SAS" (Some "12345678900017") None None
         sample_address None)
      (TradeParty.mk "CLIENT SA" None None None sample_address None)
      [sample_line "1" 10 150 1500 20 "S"]
      (Some (PaymentInfo.mk "30" (Some "FR7630006000011234567890189")
               None None None))
      None None None None in
  parseFacturXXml (Xml.parse (generateFacturX sent)) = Ok read
  /\ party_unread (Invoice.seller read).
Proof.
  intros sent read.
  assert (H : parseFacturXXml (Xml.parse (generateFacturX sent)) = Ok read)
    by (vm_compute; reflexivity).
  split; [exact H|]. exact (proj1 (parsed_fields_never_read _ read H)).
Defined.

(** X8: the lines of a parsed invoice are the line items of the trade
    transaction, each read by the same function, in their order: as
    many as the array holds, one when the entry is a lone item, none
    when it is missing. *)
Theorem parsed_lines_in_order (parsed : value) (inv : Invoice.t) :
  parseFacturXXml parsed = Ok inv ->
  map_result parseLine (line_items parsed) = Ok (Invoice.lines inv)
  /\ List.length (Invoice.lines inv) = List.length (line_items parsed).
Proof.
  intros H. pose proof (parseFacturXXml_lines parsed inv H) as Hl.
  split; [exact Hl|]. now apply map_result_length in Hl.
Qed.

Lemma parsed_lines_in_order_witness :
  let inv := sample_invoice "EN_16931" [sample_line "1" 10 150 1500 20 "S"] in
  let parsed := Xml.parse (generateFacturX inv) in
  parseFacturXXml parsed = Ok inv
  /\ List.length (Invoice.lines inv) = List.length (line_items parsed).
Proof.
  intros inv parsed.
  assert (H : parseFacturXXml parsed = Ok inv) by (vm_compute; reflexivity).
  split; [exact H|]. exact (proj2 (parsed_lines_in_order parsed inv H)).
Defined.

(** X9: on an object that reads as a typed invoice, the validator
    answers as on that invoice alone: properties the invoice model does
    not have, and the order of the properties, change nothing. *)
Theorem validator_reads_declared_fields (v : value) (inv : Invoice.t) :
  FromJs.invoice v = Some inv ->
  validateInvoice v = validateInvoice (ToJs.invoice inv).
Proof. apply validateInvoice_view. Qed.

Lemma validator_reads_declared_fields_witness :
  let inv := sample_invoice "EN_16931" [sample_line "1" 10 150 1500 20 "S"] in
  FromJs.invoice request_with_more = Some inv
  /\ request_with_more <> ToJs.invoice inv
  /\ validateInvoice request_with_more = validateInvoice (ToJs.invoice inv).
Proof.
  intros inv.
  assert (H : FromJs.invoice request_with_more = Some inv)
    by (vm_compute; reflexivity).
  split; [exact H|]. split; [vm_compute; discriminate|].
  exact (validator_reads_declared_fields request_with_more inv H).
Defined.

(** X10: a typed invoice in which a line has the identifier of an
    earlier line is not valid: the errors hold the message on the
    duplicated identifier, for the later line. *)
Theorem duplicate_line_id_rejected (inv : Invoice.t) (i j : nat)
  (l l' : InvoiceLine.t) :
  (i < j)%nat ->
  nth_error (Invoice.lines inv) i = Some l ->
  nth_error (Invoice.lines inv) j = Some l' ->
  InvoiceLine.id l = InvoiceLine.id l' ->
  exists r,
    validateInvoice (ToJs.invoice inv) = Ok r
    /\ ValidationResult.valid r = false
    /\ In (duplicate_error j l') (ValidationResult.errors r).
Proof.
  intros Hij Hi Hj Hid.
  assert (Hne : Invoice.lines inv <> []).
  { intros He. rewrite He in Hi. destruct i; discriminate. }
  destruct (validate_typed_report inv Hne) as [header Hr].
  eexists. split; [exact Hr|]. cbv zeta.
  cbn [ValidationResult.valid ValidationResult.errors].
  pose proof (lines_state_duplicate (Invoice.lines inv) 0 i j
                (mk_state header (seller_warning inv) []) l l'
                Hij Hi Hj Hid) as Hin.
  cbn [Nat.add] in Hin. split; [|exact Hin].
  destruct (st_errors _); [destruct Hin|reflexivity].
Qed.

Lemma duplicate_line_id_rejected_witness :
  let l := sample_line "1" 10 150 1500 20 "S" in
  let l' := sample_line "1" 1 20 20 20 "S" in
  (0 < 1)%nat
  /\ nth_error (Invoice.lines invoice_with_duplicate) 0 = Some l
  /\ nth_error (Invoice.lines invoice_with_duplicate) 1 = Some l'
  /\ InvoiceLine.id l = InvoiceLine.id l'
  /\ exists r,
       validateInvoice (ToJs.invoice invoice_with_duplicate) = Ok r
       /\ ValidationResult.valid r = false
       /\ In (duplicate_error 1 l') (ValidationResult.errors r).
Proof.
  intros l l'. repeat (split; [first [lia | reflexivity]|]).
  apply (duplicate_line_id_rejected invoice_with_duplicate 0 1 l l');
    first [lia | reflexivity].
Defined.

(** X11: the warnings on a typed invoice are, in this order: the one on
    the seller's identification when the seller has neither a VAT number
    nor an identifier, one for each line whose total is away from
    quantity times price, in the order of the lines, and the one on the
    account number when it is given and ill-formed; there is no other. *)
Theorem warnings_of_typed_invoice (inv : Invoice.t) :
  exists r,
    validateInvoice (ToJs.invoice inv) = Ok r
    /\ ValidationResult.warnings r
       = seller_warning inv ++ line_warnings 0 (Invoice.lines inv)
           ++ iban_warning inv.
Proof.
  destruct (Invoice.lines inv) as [|l0 ls] eqn:Hl.
  - apply validate_without_lines. exact Hl.
  - assert (Hne : Invoice.lines inv <> []) by (rewrite Hl; discriminate).
    destruct (validate_typed_report inv Hne) as [header Hr].
    eexists. split; [exact Hr|]. cbv zeta.
    cbn [ValidationResult.warnings].
    rewrite lines_state_warnings. cbn [st_warnings].
    now rewrite <- app_assoc, Hl.
Qed.

(** X12: for a request that, once the type code and the profile are
    filled in, is a typed invoice, and when the quota allows it, the
    handler generates a document exactly when the invoice meets every
    mandatory rule: the document and the totals are then those of the
    invoice and the warnings those of the validator, which are the
    warnings on the seller, the lines and the account number; else it
    answers with the validator's result and generates nothing. *)
Theorem generate_decided_by_rules (args : list (string * value))
  (inv : Invoice.t) :
  FromJs.invoice (JObject (with_defaults args)) = Some inv ->
  exists r,
    validateInvoice (JObject (with_defaults args)) = Ok r
    /\ ValidationResult.valid r = mandatory_rules inv
    /\ ValidationResult.warnings r
       = seller_warning inv ++ line_warnings 0 (Invoice.lines inv)
           ++ iban_warning inv
    /\ fst (facturx_generate true args)
       = if mandatory_rules inv
         then Generated (generateFacturX inv) (calculateTotals inv)
                (ValidationResult.warnings r)
         else Invalid r.
Proof.
  intros Hv.
  destruct (facturx_generate_typed args inv Hv) as [r [Hr [Hm Hout]]].
  exists r. split; [exact Hr|]. split; [exact Hm|]. split; [|exact Hout].
  rewrite (ViewFacts.validateInvoice_view _ _ Hv) in Hr.
  destruct (typed_warnings inv) as [r' [Hr' Hw]].
  rewrite Hr in Hr'. inversion Hr'; subst r'. exact Hw.
Qed.

Lemma generate_decided_by_rules_witness :
  let inv := sample_invoice "EN_16931" [sample_line "1" 10 150 1500 20 "S"] in
  FromJs.invoice (JObject (with_defaults request_without_defaults)) = Some inv
  /\ mandatory_rules inv = true
  /\ fst (facturx_generate true request_without_defaults)
     = Generated (generateFacturX inv) (calculateTotals inv) [].
Proof.
  intros inv.
  assert (Hv : FromJs.invoice
                 (JObject (with_defaults request_without_defaults))
               = Some inv) by (vm_compute; reflexivity).
  assert (Hm : mandatory_rules inv = true) by (vm_compute; reflexivity).
  destruct (generate_decided_by_rules request_without_defaults inv Hv)
    as [r [_ [_ [Hw Hout]]]].
  split; [exact Hv|]. split; [exact Hm|].
  rewrite Hout, Hm, Hw. vm_compute. reflexivity.
Defined.

(** X13: a request without type code that is otherwise a typed invoice
    meeting the mandatory rules is generated, with the type code 380,
    while the validator on the request as it is, which is what the
    validation tool calls, returns and reports it as not valid, with
    the error on the type code. *)
Theorem validate_stricter_than_generate (args : list (string * value))
  (inv : Invoice.t) :
  truthy (prop (JObject args) "typeCode") = false ->
  FromJs.invoice (JObject (with_defaults args)) = Some inv ->
  mandatory_rules inv = true ->
  (exists warnings,
     fst (facturx_generate true args)
     = Generated (generateFacturX inv) (calculateTotals inv) warnings)
  /\ Invoice.typeCode inv = "380"%string
  /\ (exists r,
        validateInvoice (JObject args) = Ok r
        /\ ValidationResult.valid r = false
        /\ In "BT-3 : Code type facture invalide (valeurs : 380, 381, 389, 384)"%string
             (ValidationResult.errors r)).
Proof.
  intros Hfalsy Hv Hm. split; [|split].
  - destruct (facturx_generate_typed args inv Hv) as [r [_ [_ Hout]]].
    rewrite Hm in Hout. eauto.
  - assert (Ht : lookup "typeCode" (with_defaults args)
                 = Some (JString "380")).
    { rewrite with_defaults_lookup. rewrite Hfalsy. cbn.
      now destruct (truthy _). }
    unfold FromJs.invoice in Hv.
    destruct (FromJs.text _ "number"); [|discriminate Hv].
    cbn [FromJs.obind] in Hv.
    unfold FromJs.text at 1 in Hv. cbn [prop] in Hv. rewrite Ht in Hv.
    cbn [FromJs.obind] in Hv.
    repeat match type of Hv with
           | FromJs.obind ?o _ = Some _ =>
               destruct o; cbn [FromJs.obind] in Hv; [|discriminate Hv]
           end.
    now inversion Hv.
  - destruct (facturx_generate_typed args inv Hv) as [r0 [Hr0 _]].
    destruct (validateInvoice_returns_without_defaults args
                (ex_intro _ r0 Hr0)) as [r Hr].
    exists r. split; [exact Hr|].
    assert (Hin : In "BT-3 : Code type facture invalide (valeurs : 380, 381, 389, 384)"%string
                    (ValidationResult.errors r)).
    { apply (type_code_error_kept _ _ Hr).
      now apply falsy_is_no_code. }
    split; [|exact Hin].
    rewrite (validateInvoice_valid _ _ Hr).
    destruct (ValidationResult.errors r); [destruct Hin|reflexivity].
Qed.

Lemma validate_stricter_than_generate_witness :
  let inv := sample_invoice "EN_16931" [sample_line "1" 10 150 1500 20 "S"] in
  truthy (prop (JObject request_without_defaults) "typeCode") = false
  /\ FromJs.invoice (JObject (with_defaults request_without_defaults))
     = Some inv
  /\ mandatory_rules inv = true
  /\ Invoice.typeCode inv = "380"%string
  /\ exists r, validateInvoice (JObject request_without_defaults) = Ok r
               /\ ValidationResult.valid r = false.
Proof.
  intros inv.
  assert (H1 : truthy (prop (JObject request_without_defaults) "typeCode")
               = false) by (vm_compute; reflexivity).
  assert (H2 : FromJs.invoice
                 (JObject (with_defaults request_without_defaults))
               = Some inv) by (vm_compute; reflexivity).
  assert (H3 : mandatory_rules inv = true) by (vm_compute; reflexivity).
  pose proof (validate_stricter_than_generate request_without_defaults inv
                H1 H2 H3) as [_ [Ht [r [Hr [Hvalid _]]]]].
  repeat (split; [assumption|]).
  exists r. split; assumption.
Defined.

(** X14: from a usage file that does not date from the day, after n
    generations counted on that day (n at most 10) the quota answers
    with n used and 10 - n remaining while n is below 10, and refuses
    at 10. *)
Theorem daily_quota_counts_generations (f : Usage.file) (todayStr : string)
  (n : nat) :
  stale f todayStr = true -> (n <= 10)%nat ->
  Usage.checkFreeQuota (after_generations n f todayStr) todayStr
  = if Nat.ltb n 10
    then Usage.Allowed (of_nat n) (of_nat (10 - n))
    else Usage.Denied 10 10.
Proof. apply checkFreeQuota_after. Qed.

Lemma daily_quota_counts_generations_witness :
  stale None "2024-01-15" = true /\ (3 <= 10)%nat
  /\ Usage.checkFreeQuota (after_generations 3 None "2024-01-15") "2024-01-15"
     = Usage.Allowed 3 7.
Proof.
  split; [reflexivity|]. split; [lia|].
  apply (daily_quota_counts_generations None "2024-01-15" 3);
    [reflexivity|lia].
Defined.

(** X15: without a valid licence the request that follows ten
    generations of the day is refused, whatever it holds, and leaves the
    usage file as it is; and a request that the validator rejects never
    changes the usage file, with or without a licence. *)
Theorem free_tier_stops_at_ten (f : Usage.file)
  (todayStr at_increment : string) (args : list (string * value)) :
  stale f todayStr = true ->
  let spent := after_generations 10 f todayStr in
  facturx_generate_request false spent todayStr at_increment args
  = (QuotaExceeded, args, Some spent)
  /\ (forall (usage : Usage.file) (license_valid : bool)
             (r : ValidationResult.t),
        validateInvoice (JObject (with_defaults args)) = Ok r ->
        ValidationResult.valid r = false ->
        snd (facturx_generate_request license_valid usage todayStr
               at_increment args) = Some usage).
Proof.
  intros Hs spent. split.
  - unfold facturx_generate_request. cbn [negb].
    unfold spent.
    rewrite (checkFreeQuota_after f todayStr 10 Hs) by lia.
    reflexivity.
  - intros usage license_valid r Hr Hvalid.
    unfold facturx_generate_request.
    destruct (if negb license_valid
              then Usage.allowed (Usage.checkFreeQuota usage todayStr)
              else true).
    + rewrite facturx_generate_with_defaults. cbv zeta.
      rewrite Hr, Hvalid. reflexivity.
    + reflexivity.
Qed.

Lemma free_tier_stops_at_ten_witness :
  stale None "2024-01-15" = true
  /\ facturx_generate_request false
       (after_generations 10 None "2024-01-15") "2024-01-15" "2024-01-15"
       request_without_defaults
     = (QuotaExceeded, request_without_defaults,
        Some (after_generations 10 None "2024-01-15")).
Proof.
  split; [reflexivity|].
  apply (free_tier_stops_at_ten None "2024-01-15" "2024-01-15"
           request_without_defaults).
  reflexivity.
Defined.

(** X16: the first call of the licence check, the cache being empty,
    answers valid exactly when the key, trimmed, is FTRX-, a payload, a
    point and a signature without point, both non-empty, such that the
    signature verifies, the payload decodes and its expiry date is not
    before the time of the check (an expiry date that is no date never
    is); the plan is then the payload's, and otherwise the free one,
    with an error message. *)
Theorem license_accepted_iff (verify : string -> string -> option bool)
  (decode : string -> option License.LicensePayload)
  (date_of : string -> License.Date)
  (rawKey : string) (at_lookup now at_store : Z) :
  let r := fst (License.validateLicenseKey verify decode date_of
                  License.empty_cache rawKey at_lookup now at_store) in
  let key := trim rawKey in
  (License.valid r = true <->
   exists payload, acceptable verify decode date_of key now payload)
  /\ (forall payload, acceptable verify decode date_of key now payload ->
        License.result_plan r = License.plan payload)
  /\ (License.valid r = false ->
      License.result_plan r = "free"%string /\ License.error r <> None).
Proof.
  cbv zeta. unfold License.validateLicenseKey, License.empty_cache.
  cbn [License.cachedResult fst]. cbv zeta. cbn [fst].
  apply _validate_accepted.
Qed.

Lemma license_accepted_iff_witness :
  let r := fst (License.validateLicenseKey sample_verify sample_decode
                  sample_date_of License.empty_cache
                  "  FTRX-cGF5bG9hZA.c2ln " 1700000000000 1700000000000
                  1700000000000) in
  License.valid r = true /\ License.result_plan r = "pro"%string
  /\ exists payload,
       acceptable sample_verify sample_decode sample_date_of
         (trim "  FTRX-cGF5bG9hZA.c2ln ") 1700000000000 payload.
Proof.
  intros r. split; [reflexivity|]. split; [reflexivity|].
  apply (proj1 (proj1 (license_accepted_iff sample_verify sample_decode
                         sample_date_of "  FTRX-cGF5bG9hZA.c2ln "
                         1700000000000 1700000000000 1700000000000))).
  reflexivity.
Defined.

(** X17: nothing is extracted exactly when the bytes do not hold the
    XML declaration or hold neither of the two closing tags. *)
Theorem extract_none_iff (pdfBytes : string) :
  extractXmlFromPdf pdfBytes = None <->
  includes pdfBytes "<?xml" = false
  \/ (includes pdfBytes "</rsm:CrossIndustryInvoice>" = false
      /\ includes pdfBytes "</CrossIndustryInvoice>" = false).
Proof.
  unfold extractXmlFromPdf, includes. cbv zeta.
  pose proof (indexOf_none (chars pdfBytes) (chars "<?xml")) as Hd.
  pose proof (lastIndexOf_none (chars pdfBytes)
                (chars "</rsm:CrossIndustryInvoice>")) as Hr.
  pose proof (lastIndexOf_none (chars pdfBytes)
                (chars "</CrossIndustryInvoice>")) as Hc.
  unfold closingTags. cbn [first_closing].
  destruct (indexOf (chars pdfBytes) (chars "<?xml")) as [xmlStart|];
    [|intuition congruence].
  destruct (lastIndexOf (chars pdfBytes) (chars "</rsm:CrossIndustryInvoice>"));
    [cbn [option_map]; intuition congruence|].
  destruct (lastIndexOf (chars pdfBytes) (chars "</CrossIndustryInvoice>"));
    cbn [option_map]; intuition congruence.
Qed.

(** X18: a document that starts with the XML declaration and ends with
    the prefixed closing tag, embedded as it is after bytes that do not
    show the declaration and before bytes that do not show that tag, is
    extracted whole. *)
Theorem extract_embedded_document (pre body post : string) :
  let doc := ("<?xml" ++ body ++ "</rsm:CrossIndustryInvoice>")%string in
  includes (pre ++ "<?xm") "<?xml" = false ->
  includes ("/rsm:CrossIndustryInvoice>" ++ post)
    "</rsm:CrossIndustryInvoice>" = false ->
  extractXmlFromPdf (pre ++ doc ++ post) = Some doc.
Proof.
  intros doc Hpre Hpost. unfold extractXmlFromPdf, includes in *. cbv zeta.
  rewrite chars_app in Hpre, Hpost.
  set (tag := chars "</rsm:CrossIndustryInvoice>") in *.
  set (decl := chars "<?xml") in *.
  assert (Hraw : chars (pre ++ doc ++ post)
                 = chars pre ++ (decl ++ chars body ++ tag) ++ chars post).
  { unfold doc. now rewrite !chars_app. }
  rewrite Hraw.
  unfold indexOf.
  rewrite (indexOf_from_app decl (chars pre) _ 4);
    [|cbn; lia|exact Hpre].
  rewrite <- !app_assoc, strip_prefix_refl. cbn [Nat.add].
  unfold closingTags. cbn [first_closing]. fold tag.
  unfold lastIndexOf.
  replace (chars pre ++ decl ++ chars body ++ tag ++ chars post)
    with ((chars pre ++ decl ++ chars body) ++ tag ++ chars post)
    by now rewrite <- !app_assoc.
  rewrite (lastIndexOf_from_app tag _ (tag ++ chars post) (chars post));
    [|apply strip_prefix_refl|exact Hpost].
  cbn [Nat.add option_map]. f_equal.
  replace ((chars pre ++ decl ++ chars body) ++ tag ++ chars post)
    with (chars pre ++ (decl ++ chars body ++ tag) ++ chars post)
    by now rewrite <- !app_assoc.
  replace (List.length (chars pre ++ decl ++ chars body) + List.length tag)%nat
    with (List.length (chars pre)
          + List.length (decl ++ chars body ++ tag))%nat
    by (rewrite !length_app; lia).
  rewrite slice_units_middle.
  unfold doc, decl, tag. now rewrite !of_chars_app, !of_chars_chars.
Qed.

Lemma extract_embedded_document_witness :
  let pre := "%PDF-1.7 stream " in
  let body := " version='1.0'?><rsm:CrossIndustryInvoice>" in
  let post := " endstream %%EOF" in
  includes (pre ++ "<?xm") "<?xml" = false
  /\ includes ("/rsm:CrossIndustryInvoice>" ++ post)
       "</rsm:CrossIndustryInvoice>" = false
  /\ extractXmlFromPdf
       (pre ++ ("<?xml" ++ body ++ "</rsm:CrossIndustryInvoice>") ++ post)
     = Some ("<?xml" ++ body ++ "</rsm:CrossIndustryInvoice>")%string.
Proof.
  intros pre body post.
  split; [reflexivity|]. split; [reflexivity|].
  apply (extract_embedded_document pre body post); reflexivity.
Defined.

(** X19: when the only closing tag ends before the only declaration,
    the extraction gives the empty text, which the tool reports as no
    document found. *)
Theorem extract_empty_when_tag_precedes (a b c : string) :
  let raw :=
    (a ++ "</rsm:CrossIndustryInvoice>" ++ b ++ "<?xml" ++ c)%string in
  includes (a ++ "</rsm:CrossIndustryInvoice>" ++ b ++ "<?xm") "<?xml"
  = false ->
  includes ("/rsm:CrossIndustryInvoice>" ++ b ++ "<?xml" ++ c)
    "</rsm:CrossIndustryInvoice>" = false ->
  extractXmlFromPdf raw = Some ""%string /\ extracted raw = None.
Proof.
  intros raw Hpre Hpost.
  assert (He : extractXmlFromPdf raw = Some ""%string).
  { unfold extractXmlFromPdf, includes in *. cbv zeta.
    set (tag := chars "</rsm:CrossIndustryInvoice>") in *.
    set (decl := chars "<?xml") in *.
    unfold raw. rewrite !chars_app in *. fold tag decl.
    unfold indexOf.
    replace (chars a ++ tag ++ chars b ++ decl ++ chars c)
      with ((chars a ++ tag ++ chars b) ++ decl ++ chars c)
      by now rewrite <- !app_assoc.
    rewrite (indexOf_from_app decl _ _ 4); [|cbn; lia|].
    2:{ rewrite <- !app_assoc. exact Hpre. }
    rewrite strip_prefix_refl. cbn [Nat.add].
    unfold closingTags. cbn [first_closing]. fold tag. unfold lastIndexOf.
    replace ((chars a ++ tag ++ chars b) ++ decl ++ chars c)
      with (chars a ++ tag ++ chars b ++ decl ++ chars c)
      by now rewrite <- !app_assoc.
    rewrite (lastIndexOf_from_app tag (chars a)
               (tag ++ chars b ++ decl ++ chars c)
               (chars b ++ decl ++ chars c));
      [|apply strip_prefix_refl|exact Hpost].
    cbn [Nat.add option_map]. f_equal. unfold slice_units.
    replace (List.length (chars a) + List.length tag
             - List.length (chars a ++ tag ++ chars b))%nat with 0%nat
      by (rewrite !length_app; lia).
    reflexivity. }
  split; [exact He|]. unfold extracted. now rewrite He.
Qed.

Lemma extract_empty_when_tag_precedes_witness :
  let a := "data " in
  let b := " and then " in
  let c := " version='1.0'?>" in
  includes (a ++ "</rsm:CrossIndustryInvoice>" ++ b ++ "<?xm") "<?xml"
  = false
  /\ includes ("/rsm:CrossIndustryInvoice>" ++ b ++ "<?xml" ++ c)
       "</rsm:CrossIndustryInvoice>" = false
  /\ extracted (a ++ "</rsm:CrossIndustryInvoice>" ++ b ++ "<?xml" ++ c)
     = None.
Proof.
  intros a b c.
  split; [reflexivity|]. split; [reflexivity|].
  apply (extract_empty_when_tag_precedes a b c); reflexivity.
Defined.
